(** * GossAIP: the story pipeline of the "real or fake gossip" game

    A shallow embedding of the TypeScript sources of the game:

    - the route handler of [/api/reddit], in the plain revision of
      [src/app/api/reddit/route.ts] and in the later revision that adds the
      gossip filter, [generateStories] and the Fisher-Yates shuffle,
    - the older route handler of [/api/gossip],
    - the client component [GossipGame] with its seen-story bookkeeping.

    Conventions of the embedding.
    - A JavaScript string is a [string] of 8-bit characters; [toLowerCase]
      and [toUpperCase] act on the ASCII letters.  The model is one of
      ASCII text: on other text the length in UTF-16 units and the case
      mapping of JavaScript differ from [String.length] and from these
      functions.
    - A JavaScript number is a rational [Q]; arithmetic is exact (no
      rounding to doubles), [NaN] does not occur.  Two scores that doubles
      round apart or together can compare differently here, so a tie may be
      broken for another post than in the code.  A field that the code
      guards with [||], [?.] or a truthiness test is an [option].
    - The [recentStories] parameter is whatever [JSON.parse] returns; the
      handlers pass it on unchecked, and the model keeps the values apart
      as far as the code can ([Recent]).
    - What the outside world decides (the replies of the forum and of the
      text-generation service, the clock, [Math.random]) is an explicit
      argument of the function that consumes it.
    - A function that can throw returns a [Completion]. *)

From Stdlib Require Import String Ascii List Bool Arith ZArith QArith Qminmax Qround Lia.
From Stdlib Require Import Permutation DecimalString Lqa.
Import ListNotations.

Local Open Scope list_scope.
Local Open Scope string_scope.

(** ** Completions: normal return or a thrown exception *)

Inductive JsError : Type :=
| TypeError (msg : string)
| SyntaxError (msg : string)
| Error (msg : string).

Inductive Completion (A : Type) : Type :=
| Normal (a : A)
| Throw (e : JsError).

Arguments Normal {A} a.
Arguments Throw {A} e.

Definition bindC {A B} (c : Completion A) (k : A -> Completion B) : Completion B :=
  match c with
  | Normal a => k a
  | Throw e => Throw e
  end.

Notation "x <- c ;; k" := (bindC c (fun x => k))
  (at level 61, c at next level, right associativity).

(** [try { c } catch (error) { h }] *)
Definition tryCatch {A} (c : Completion A) (h : JsError -> Completion A) : Completion A :=
  match c with
  | Normal a => Normal a
  | Throw e => h e
  end.

Definition errorMessage (e : JsError) : string :=
  match e with
  | TypeError m => m
  | SyntaxError m => m
  | Error m => m
  end.

(** ** String primitives *)

Module JsString.

Definition isUpperAscii (c : ascii) : bool :=
  let n := nat_of_ascii c in (65 <=? n)%nat && (n <=? 90)%nat.

Definition isLowerAscii (c : ascii) : bool :=
  let n := nat_of_ascii c in (97 <=? n)%nat && (n <=? 122)%nat.

Definition lowerChar (c : ascii) : ascii :=
  if isUpperAscii c then ascii_of_nat (nat_of_ascii c + 32) else c.

Definition upperChar (c : ascii) : ascii :=
  if isLowerAscii c then ascii_of_nat (nat_of_ascii c - 32) else c.

Fixpoint toLowerCase (s : string) : string :=
  match s with
  | EmptyString => EmptyString
  | String c t => String (lowerChar c) (toLowerCase t)
  end.

(** [s.startsWith(p)] *)
Fixpoint startsWith (p s : string) : bool :=
  match p, s with
  | EmptyString, _ => true
  | String _ _, EmptyString => false
  | String a p', String b s' => Ascii.eqb a b && startsWith p' s'
  end.

(** [s.includes(needle)] *)
Fixpoint includes (s needle : string) : bool :=
  startsWith needle s ||
  match s with
  | EmptyString => false
  | String _ t => includes t needle
  end.

(** [s.split(sep)] for a one-character separator: never empty, and
    [''.split(' ')] is [['']]. *)
Fixpoint split (sep : ascii) (s : string) : list string :=
  match s with
  | EmptyString => [EmptyString]
  | String c t =>
      if Ascii.eqb c sep then EmptyString :: split sep t
      else match split sep t with
           | w :: ws => String c w :: ws
           | [] => [String c EmptyString]
           end
  end.

(** [xs.join(sep)] *)
Definition join (sep : string) (xs : list string) : string :=
  String.concat sep xs.

(** [xs.slice(0, n)] *)
Definition slice0 {A} (n : nat) (xs : list A) : list A := firstn n xs.

(** [word[0]]: [None] stands for [undefined]. *)
Definition charAt0 (word : string) : option ascii := String.get 0 word.

(** A string is truthy when it is not empty. *)
Definition truthy (s : string) : bool :=
  match s with
  | EmptyString => false
  | String _ _ => true
  end.

Definition space : ascii := " "%char.

(** The propositional reading of [includes]: [needle] occurs in [s]. *)
Definition occursIn (needle s : string) : Prop :=
  exists before after, s = before ++ needle ++ after.

(** [s.trim()]: the ASCII white space characters. *)
Definition isSpace (c : ascii) : bool :=
  let n := nat_of_ascii c in ((9 <=? n)%nat && (n <=? 13)%nat) || (n =? 32)%nat.

Fixpoint trimStart (s : string) : string :=
  match s with
  | EmptyString => EmptyString
  | String c t => if isSpace c then trimStart t else s
  end.

Fixpoint trimEnd (s : string) : string :=
  match s with
  | EmptyString => EmptyString
  | String c t =>
      match trimEnd t with
      | EmptyString => if isSpace c then EmptyString else String c EmptyString
      | t' => String c t'
      end
  end.

Definition trim (s : string) : string := trimEnd (trimStart s).

(** [s.split(/[.!?]+/)]: the separator is a maximal run of marks;
    [inRun] says that the previous character was a mark. *)
Definition isMark (c : ascii) : bool :=
  Ascii.eqb c "."%char || Ascii.eqb c "!"%char || Ascii.eqb c "?"%char.

Fixpoint splitMarks (inRun : bool) (s : string) : list string :=
  match s with
  | EmptyString => [EmptyString]
  | String c t =>
      if isMark c then
        if inRun then splitMarks true t else EmptyString :: splitMarks true t
      else match splitMarks false t with
           | w :: ws => String c w :: ws
           | [] => [String c EmptyString]
           end
  end.

Definition splitSentences (s : string) : list string := splitMarks false s.

(** [s.split(sep)] for a separator of several characters; [skip] counts
    the characters of a separator just found that are still to pass. *)
Fixpoint splitOn (sep : string) (skip : nat) (s : string) : list string :=
  match s with
  | EmptyString => [EmptyString]
  | String c t =>
      match skip with
      | S k => splitOn sep k t
      | O =>
          if startsWith sep s
          then EmptyString :: splitOn sep (String.length sep - 1) t
          else match splitOn sep 0 t with
               | w :: ws => String c w :: ws
               | [] => [String c EmptyString]
               end
      end
  end.

(** [s.substring(0, n)] *)
Definition substring0 (n : nat) (s : string) : string := String.substring 0 n s.

(** Decimal rendering of a number inside a template literal. *)
Definition showZ (z : Z) : string := NilZero.string_of_int (Z.to_int z).
Definition showNat (n : nat) : string := NilZero.string_of_uint (Nat.to_uint n).

Definition newline : string := String (ascii_of_nat 10) EmptyString.

End JsString.

Import JsString.

(** ** Numbers *)

Definition number := Q.

(** [x || 0] on an optional number: [undefined] and [0] both give [0]. *)
Definition orZero (x : option number) : number :=
  match x with
  | Some q => if Qeq_bool q 0 then 0%Q else q
  | None => 0%Q
  end.

(** The value of a number that a test has shown to be present. *)
Definition numberOf (x : option number) : number :=
  match x with
  | Some q => q
  | None => 0%Q
  end.

(** Truthiness of an optional number. *)
Definition truthyNum (x : option number) : bool :=
  match x with
  | Some q => negb (Qeq_bool q 0)
  | None => false
  end.

(** [a > b] where [a] may be [undefined] ([undefined > b] is [false]). *)
Definition gtOpt (a : option number) (b : number) : bool :=
  match a with
  | Some q => negb (Qle_bool q b)
  | None => false
  end.

(** [s || ''] *)
Definition orEmpty (s : option string) : string :=
  match s with
  | Some t => t
  | None => EmptyString
  end.

(** ** The ambient world of a request: the clock and [Math.random] *)

Record World : Type := mkWorld {
  clock : Z;              (* what [Date.now()] answers, in milliseconds *)
  entropy : list Q        (* the coming answers of [Math.random()] *)
}.

(** An effectful computation: it reads and changes the world, and it
    either returns or throws. *)
Definition M (A : Type) : Type := World -> Completion A * World.

Definition ret {A} (a : A) : M A := fun w => (Normal a, w).

Definition throw {A} (e : JsError) : M A := fun w => (Throw e, w).

Definition bind {A B} (c : M A) (k : A -> M B) : M B :=
  fun w =>
    match c w with
    | (Normal a, w') => k a w'
    | (Throw e, w') => (Throw e, w')
    end.

Notation "x <~ c ;; k" := (bind c (fun x => k))
  (at level 61, c at next level, right associativity).

Definition liftC {A} (c : Completion A) : M A := fun w => (c, w).

(** [try { c } catch (error) { h error }] *)
Definition tryCatchM {A} (c : M A) (h : JsError -> M A) : M A :=
  fun w =>
    match c w with
    | (Normal a, w') => (Normal a, w')
    | (Throw e, w') => h e w'
    end.

(** [Date.now()]; the clock stands still during a request. *)
Definition Date_now : M Z := fun w => (Normal (clock w), w).

(** [Math.random()]: the next draw is consumed; when none is left the
    model answers 0. *)
Definition Math_random : M Q :=
  fun w =>
    match entropy w with
    | r :: rest => (Normal r, mkWorld (clock w) rest)
    | [] => (Normal 0%Q, w)
    end.

(** [xs.map(f)] with an effectful callback, left to right. *)
Fixpoint mapM {A B} (f : A -> M B) (xs : list A) : M (list B) :=
  match xs with
  | [] => ret []
  | x :: rest =>
      y <~ f x ;;
      ys <~ mapM f rest ;;
      ret (y :: ys)
  end.

(** ** Forum data *)

(** A submission as the forum's JSON gives it ([child.data]). *)
Module Post.
Record t : Type := mk {
  id : string;
  subreddit : string;
  title : string;
  selftext : option string;
  permalink : string;
  score : option number;
  num_comments : option number;
  upvote_ratio : option number;
  total_awards_received : option number;
  controversiality : option number;
  created_utc : number
}.

(** The same post with another vote count. *)
Definition withScore (p : t) (s : option number) : t :=
  mk (id p) (subreddit p) (title p) (selftext p) (permalink p) s
     (num_comments p) (upvote_ratio p) (total_awards_received p)
     (controversiality p) (created_utc p).
End Post.

(** An element of a [comments] array: either an entry of the forum's
    comment listing (its [data] with the nested replies), or a bare string
    (the [topComments] of a ranked post are passed where comments are
    expected). *)
#[warnings="-register-all"]
Inductive Comment : Type :=
| CommentObj (score : option number) (body : option string)
             (awards : option number) (replies : list Comment)
| CommentText (text : string).

(** [comment?.data?.score] *)
Definition commentScore (c : Comment) : option number :=
  match c with
  | CommentObj s _ _ _ => s
  | CommentText _ => None
  end.

(** [comment.data.body] where [comment.data] exists *)
Definition commentBody (c : Comment) : option string :=
  match c with
  | CommentObj _ b _ _ => b
  | CommentText _ => None
  end.

(** A post with what [fetchRedditPosts] adds to it. *)
Module Ranked.
Record t : Type := mk {
  post : Post.t;
  engagementScore : number;
  topComments : list string;
  mainSubject : string;
  isPartialMatch : bool
}.
End Ranked.

(** ** The engagement score *)

(** The age in hours of a post created at [timestamp] when the clock
    shows [now]: [(now / 1000 - timestamp) / 3600]. *)
Definition ageHours (now : Z) (timestamp : number) : number :=
  ((inject_Z now / 1000 - timestamp) / 3600)%Q.

(** [hoursOld(timestamp)] *)
Definition hoursOld (timestamp : number) : M number :=
  now <~ Date_now ;;
  ret (ageHours now timestamp).

(** The comments that count for the quality term: [score > 20], each
    with its score and the length of its body. *)
Definition commentScores (comments : list Comment) : list (number * number) :=
  map (fun c => (numberOf (commentScore c),
                 inject_Z (Z.of_nat (String.length (orEmpty (commentBody c))))))
      (filter (fun c => gtOpt (commentScore c) 20) comments).

(** [xs.reduce((sum, x) => sum + x, 0)] *)
Definition sumQ (xs : list number) : number := fold_left Qplus xs 0%Q.

(** [xs.length || 1] *)
Definition lengthOr1 {A} (xs : list A) : number :=
  match xs with
  | [] => 1%Q
  | _ :: _ => inject_Z (Z.of_nat (length xs))
  end.

(** The six components, in the order in which the object holds them. *)
Definition scoreComponents (post : Post.t) (comments : list Comment)
    (freshnessHours : number) : list number :=
  let score := orZero (Post.score post) in
  let commentCount := orZero (Post.num_comments post) in
  let kept := commentScores comments in
  let avgCommentScore := (sumQ (map fst kept) / lengthOr1 kept)%Q in
  let avgCommentLength := (sumQ (map snd kept) / lengthOr1 kept)%Q in
  [ (score * 1)%Q;
    (commentCount * 2)%Q;
    (if truthyNum (Post.upvote_ratio post)
     then (numberOf (Post.upvote_ratio post) - (1 # 2)) * 100 else 0)%Q;
    (orZero (Post.total_awards_received post) * 10)%Q;
    (Qmax 0 (100 - freshnessHours) * 2)%Q;
    (avgCommentScore * (1 # 2) + avgCommentLength * (1 # 100))%Q ].

(** [calculateEngagementScore] of the revision with the freshness term. *)
Definition calculateEngagementScore (post : Post.t) (comments : list Comment) : M number :=
  age <~ hoursOld (Post.created_utc post) ;;
  ret (sumQ (scoreComponents post comments age)).

(** The accumulators of [processComment] in
    [src/app/api/reddit/route.ts]. *)
Record CommentStats : Type := mkStats {
  totalCommentScore : number;
  maxCommentDepth : nat;
  topCommentCount : nat
}.

Fixpoint processComment (depth : nat) (acc : CommentStats) (comment : Comment)
    {struct comment} : CommentStats :=
  match comment with
  | CommentObj s _ _ replies =>
      if truthyNum s then
        let acc1 :=
          mkStats (totalCommentScore acc + numberOf s)%Q
                  (Nat.max (maxCommentDepth acc) depth)
                  (if gtOpt s 100 then S (topCommentCount acc) else topCommentCount acc) in
        fold_left (processComment (S depth)) replies acc1
      else acc
  | CommentText _ => acc
  end.

(** [calculateEngagementScore] of [src/app/api/reddit/route.ts]. *)
Definition calculateEngagementScorePlain (post : Post.t) (comments : list Comment) : number :=
  let postScore := orZero (Post.score post) in
  let commentCount := orZero (Post.num_comments post) in
  let controversialityScore := orZero (Post.controversiality post) in
  let stats := fold_left (processComment 0) comments (mkStats 0 0 0) in
  let avgCommentScore :=
    match comments with
    | [] => 0%Q
    | _ :: _ => (totalCommentScore stats / inject_Z (Z.of_nat (length comments)))%Q
    end in
  (postScore * (4 # 10) + commentCount * (2 # 10) + avgCommentScore * (2 # 10)
   + inject_Z (Z.of_nat (maxCommentDepth stats)) * 50
   + inject_Z (Z.of_nat (topCommentCount stats)) * 100
   + controversialityScore * 50)%Q.

(** ** The network *)

Inductive TimeRange : Type := day | week | month.

(** What [await fetch(...)] followed by [response.json()] comes to. *)
Inductive Fetched (A : Type) : Type :=
| FetchOk (payload : A)        (* [response.ok], with the decoded payload *)
| FetchNotOk                   (* a reply with an error status *)
| FetchThrows (e : JsError).   (* the request or the decoding throws *)

Arguments FetchOk {A} payload.
Arguments FetchNotOk {A}.
Arguments FetchThrows {A} e.

(** The request for a completion and what the race against the ten
    second timer ends in. *)
Record ChatRequest : Type := mkChat {
  systemPrompt : string;
  userPrompt : string;
  max_tokens : nat
}.

(** How a call to the completion service settles: after [elapsed]
    milliseconds, with the [message.content] of each choice or with a
    rejection. *)
Inductive ApiReply : Type :=
| Resolves (elapsed : Z) (choices : list (option string))
| Rejects (elapsed : Z) (e : JsError).

(** What [Promise.race] of the call and the timer ends in. *)
Inductive RaceOutcome : Type :=
| Completed (choices : list (option string))
| ApiRejected (e : JsError)
| TimedOut.

Definition timeoutMs : Z := 10000.

(** The call wins the race when it settles before the timer fires. *)
Definition race (reply : ApiReply) : RaceOutcome :=
  match reply with
  | Resolves elapsed choices =>
      if (elapsed <? timeoutMs)%Z then Completed choices else TimedOut
  | Rejects elapsed e =>
      if (elapsed <? timeoutMs)%Z then ApiRejected e else TimedOut
  end.

(** The call errors, or it loses the race. *)
Definition apiFails (reply : ApiReply) : Prop :=
  match reply with
  | Resolves elapsed _ => (timeoutMs <= elapsed)%Z
  | Rejects _ _ => True
  end.

Record Network : Type := mkNetwork {
  (* /r/<subreddit>/search.json?q=..&restrict_sr=on&sort=hot&t=..&limit=10 *)
  searchSubreddit : string -> string -> TimeRange -> Fetched (list Post.t);
  (* /search.json?q=..&sort=hot&t=..&limit=.. *)
  searchAll : string -> TimeRange -> nat -> Fetched (list Post.t);
  (* /search.json?q=..&sort=top&t=week&limit=5 *)
  searchTop : string -> Fetched (list Post.t);
  (* <permalink>.json, the comment listing *)
  postComments : string -> Fetched (list Comment);
  (* /r/Deuxmoi/hot.json?limit=5, the titles *)
  hotDeuxmoi : Fetched (list string);
  (* /r/popular/hot.json?limit=1, the title of the first entry if any *)
  popularHot : Fetched (option string);
  (* openai.chat.completions.create(...) *)
  chat : ChatRequest -> ApiReply
}.

(** [fetchPostComments]: an error status or a throw gives no comments. *)
Definition fetchPostComments (net : Network) (link : string) : list Comment :=
  match postComments net link with
  | FetchOk comments => comments
  | FetchNotOk => []
  | FetchThrows _ => []
  end.

(** ** [extractMainSubject] *)

Definition knownFigures : list string :=
  [ "elon musk"; "taylor swift"; "kanye"; "kardashian"; "trump";
    "biden"; "beyonce"; "drake"; "zuckerberg"; "gates" ].

(** [xs.filter(f)] with a callback that can throw. *)
Fixpoint filterC {A} (f : A -> Completion bool) (xs : list A) : Completion (list A) :=
  match xs with
  | [] => Normal []
  | x :: rest =>
      keep <- f x ;;
      kept <- filterC f rest ;;
      Normal (if keep then x :: kept else kept)
  end.

(** [word[0] === word[0].toUpperCase()]: reading [toUpperCase] off
    [undefined] is a TypeError. *)
Definition startsUpper (word : string) : Completion bool :=
  match charAt0 word with
  | None => Throw (TypeError "Cannot read properties of undefined (reading 'toUpperCase')")
  | Some c => Normal (Ascii.eqb c (upperChar c))
  end.

Definition extractMainSubject (topic : string) : Completion string :=
  let words := split space (toLowerCase topic) in
  match find (fun figure => includes (toLowerCase topic) figure) knownFigures with
  | Some figure => Normal figure
  | None =>
      nouns <- filterC startsUpper (split space topic) ;;
      let properNouns := join " " nouns in
      if truthy properNouns then Normal properNouns
      else Normal (join " " (filter (fun word => (3 <? String.length word)%nat)
                                    (slice0 2 words)))
  end.

(** ** The relevance filter of [searchReddit] *)

Definition gossipSubreddits : list string :=
  [ "entertainment"; "Deuxmoi"; "popculturechat"; "celebritygossip";
    "popheads"; "BravoRealHousewives"; "KUWTK"; "blogsnark"; "HollywoodGossip" ].

Definition gossipIndicators : list string :=
  [ "rumor"; "allegedly"; "sources say"; "insider"; "exclusive";
    "spotted"; "claims"; "reveals"; "drama"; "scandal"; "tea";
    "dating"; "breakup"; "split"; "cheating"; "divorce";
    "announcement"; "confirmed"; "denied"; "source close to" ].

(** [(post.title + ' ' + (post.selftext || '')).toLowerCase()] *)
Definition postContent (post : Post.t) : string :=
  toLowerCase (Post.title post ++ " " ++ orEmpty (Post.selftext post)).

(** [query.toLowerCase().split(' ')] *)
Definition searchTerms (query : string) : list string :=
  split space (toLowerCase query).

Definition hasSearchTerms (query : string) (post : Post.t) : bool :=
  existsb (fun term => includes (postContent post) term) (searchTerms query).

Definition hasGossipIndicators (post : Post.t) : bool :=
  existsb (fun indicator => includes (postContent post) indicator) gossipIndicators.

(** [post.selftext?.length > 100 || post.num_comments > 10] *)
Definition hasSubstantialContent (post : Post.t) : bool :=
  match Post.selftext post with
  | Some t => (100 <? String.length t)%nat
  | None => false
  end || gtOpt (Post.num_comments post) 10.

(** The predicate of the revision that searches the gossip forums. *)
Definition isRelevant (query : string) (post : Post.t) : bool :=
  hasSearchTerms query post && (hasGossipIndicators post || hasSubstantialContent post).

(** The predicate of [src/app/api/reddit/route.ts]. *)
Definition isRelevantPlain (query : string) (post : Post.t) : bool :=
  hasSearchTerms query post.

(** The loop over the gossip forums: a reply with an error status is
    skipped, a throw leaves the loop. *)
Fixpoint collectSubreddits (net : Network) (query : string) (range : TimeRange)
    (subs : list string) (allPosts : list Post.t) : Completion (list Post.t) :=
  match subs with
  | [] => Normal allPosts
  | sub :: rest =>
      match searchSubreddit net sub query range with
      | FetchOk posts => collectSubreddits net query range rest (allPosts ++ posts)%list
      | FetchNotOk => collectSubreddits net query range rest allPosts
      | FetchThrows e => Throw e
      end
  end.

(** The posts gathered by [searchReddit] before the filter. *)
Definition gatherPosts (net : Network) (query : string) (range : TimeRange)
    : Completion (list Post.t) :=
  allPosts <- collectSubreddits net query range gossipSubreddits [] ;;
  if (length allPosts <? 5)%nat then
    match searchAll net query range 25 with
    | FetchOk posts => Normal (allPosts ++ posts)%list
    | FetchNotOk => Normal allPosts
    | FetchThrows e => Throw e
    end
  else Normal allPosts.

(** [searchReddit] of the revision that searches the gossip forums. *)
Definition searchReddit (net : Network) (query : string) (range : TimeRange) : list Post.t :=
  match gatherPosts net query range with
  | Normal allPosts => filter (isRelevant query) allPosts
  | Throw _ => []
  end.

(** [searchReddit] of [src/app/api/reddit/route.ts]. *)
Definition searchRedditPlain (net : Network) (query : string) (range : TimeRange)
    : list Post.t :=
  match searchAll net query range 15 with
  | FetchOk posts => filter (isRelevantPlain query) posts
  | FetchNotOk => []
  | FetchThrows _ => []
  end.

(** ** [fetchRedditPosts] *)

Definition dquote : string := String (ascii_of_nat 34) EmptyString.

(** [xs.sort((a, b) => key(b) - key(a))]: descending and stable. *)
Fixpoint insertDesc {A} (key : A -> number) (x : A) (xs : list A) : list A :=
  match xs with
  | [] => [x]
  | y :: rest =>
      if Qle_bool (key y) (key x) then x :: y :: rest
      else y :: insertDesc key x rest
  end.

Definition sortDesc {A} (key : A -> number) (xs : list A) : list A :=
  fold_right (insertDesc key) [] xs.

(** The comments worth quoting: [score > 50], with a body longer than
    twenty characters; the first three bodies. *)
Definition interestingComments (comments : list Comment) : list string :=
  slice0 3
    (map (fun c => orEmpty (commentBody c))
       (filter (fun c => gtOpt (commentScore c) 50
                         && truthy (orEmpty (commentBody c))
                         && (20 <? String.length (orEmpty (commentBody c)))%nat)
               comments)).

Section FetchRedditPosts.

Variable search : string -> TimeRange -> list Post.t.
Variable engagement : Post.t -> list Comment -> M number.
Variable net : Network.

(** What the callback of [posts.map] builds for one post. *)
Definition rankPost (topic mainSubject : string) (post : Post.t) : M Ranked.t :=
  let comments := fetchPostComments net (Post.permalink post) in
  engagementScore <~ engagement post comments ;;
  ret (Ranked.mk post engagementScore (interestingComments comments) mainSubject
                 (negb (String.eqb mainSubject topic))).

Definition fetchRedditPostsWith (topic : string) : M (list Ranked.t) :=
  let posts := search (dquote ++ topic ++ dquote) day in
  found <~ match posts with
           | [] =>
               mainSubject <~ liftC (extractMainSubject topic) ;;
               (* an array is truthy: the week and month searches never run *)
               ret (search mainSubject day, mainSubject)
           | _ :: _ => ret (posts, topic)
           end ;;
  let '(posts, mainSubject) := found in
  match posts with
  | [] => throw (Error ("No posts found for " ++ dquote ++ topic ++ dquote
                        ++ " or " ++ dquote ++ mainSubject ++ dquote))
  | _ :: _ =>
      postsWithEngagement <~ mapM (rankPost topic mainSubject) posts ;;
      ret (slice0 5 (sortDesc Ranked.engagementScore postsWithEngagement))
  end.

End FetchRedditPosts.

Definition fetchRedditPosts (net : Network) : string -> M (list Ranked.t) :=
  fetchRedditPostsWith (searchReddit net) calculateEngagementScore net.

Definition fetchRedditPostsPlain (net : Network) : string -> M (list Ranked.t) :=
  fetchRedditPostsWith (searchRedditPlain net)
    (fun post comments => ret (calculateEngagementScorePlain post comments)) net.

(** ** Stories and responses *)

Module Story.
Record t : Type := mk {
  content : string;
  isReal : bool;
  redditUrl : option string;
  engagementScore : option number;
  isPartialMatch : option bool;
  mainSubject : option string;
  subreddit : option string;
  storyId : option string
}.
End Story.

(** A JSON object of the API: what [generateStories] returns and what a
    response carries.  An absent (or [undefined]) field is [None]. *)
Module Payload.
Record t : Type := mk {
  topic : option string;
  stories : option (list Story.t);
  correctIndex : option Z;
  originalTopic : option string;
  mainSubject : option string;
  isPartialMatch : option bool;
  newStoryIds : option (list string);
  error : option string;
  suggestion : option string;
  message : option string
}.

Definition empty : t := mk None None None None None None None None None None.

(** [{ error, suggestion?, message? }] *)
Definition failure (err : string) (sugg msg : option string) : t :=
  mk None None None None None None None (Some err) sugg msg.
End Payload.

Record Response : Type := mkResponse {
  status : Z;
  body : Payload.t
}.

(** [stories.findIndex(story => story.isReal)] *)
Fixpoint findIndexFrom (i : Z) (stories : list Story.t) : Z :=
  match stories with
  | [] => (-1)%Z
  | s :: rest => if Story.isReal s then i else findIndexFrom (i + 1)%Z rest
  end.

Definition findIndex (stories : list Story.t) : Z := findIndexFrom 0%Z stories.

(** ** [formatRedditGossip] *)

Definition gossipScore (sentence : string) : number :=
  inject_Z (Z.of_nat
    (length (filter (fun indicator => includes (toLowerCase sentence) indicator)
                    gossipIndicators) * 2
     + (if (100 <? String.length sentence)%nat then 1 else 0))).

Definition formatRedditGossip (post : Post.t) (comments : list Comment) : string :=
  let postText :=
    if truthy (orEmpty (Post.selftext post)) then orEmpty (Post.selftext post)
    else Post.title post in
  let relevantComments :=
    slice0 3 (map (fun c => orEmpty (commentBody c))
                  (filter (fun c => gtOpt (commentScore c) 50) comments)) in
  let sentences :=
    filter (fun s => (20 <? String.length s)%nat
                     && negb (includes (toLowerCase s) "submission")
                     && negb (includes (toLowerCase s) "posted"))
           (map trim (splitSentences postText)) in
  let bestSentences := slice0 3 (sortDesc gossipScore sentences) in
  let bestSentences :=
    if (length bestSentences <? 2)%nat && (0 <? length relevantComments)%nat
    then (bestSentences ++
          slice0 2 (filter (fun s => (20 <? String.length s)%nat)
                           (map trim (splitSentences (join " " relevantComments)))))%list
    else bestSentences in
  let finalContent :=
    if (2 <=? length bestSentences)%nat then join ". " bestSentences
    else Post.title post ++ ". " ++ orEmpty (hd_error sentences) in
  trim finalContent ++ ".".

(** ** [generateFakeGossip] *)

(** The string returned from the [catch] block. *)
Definition fallbackGossip (topic : string) : string :=
  "Here's some alternative gossip about " ++ topic ++ ": "
  ++ "Rumor has it that there's been some interesting developments, "
  ++ "but we're still waiting for more details to emerge...".

Definition timeoutError : JsError := Error "OpenAI request timeout".

(** [response.choices[0].message.content?.trim() || 'Failed to generate a story'] *)
Definition firstChoice (choices : list (option string)) : Completion string :=
  match choices with
  | [] => Throw (TypeError "Cannot read properties of undefined (reading 'message')")
  | c :: _ =>
      let text := match c with Some s => trim s | None => EmptyString end in
      Normal (if truthy text then text else "Failed to generate a story")
  end.

(** [await Promise.race([call, timer])] *)
Definition awaitRace (net : Network) (req : ChatRequest) : Completion (list (option string)) :=
  match race (chat net req) with
  | Completed choices => Normal choices
  | ApiRejected e => Throw e
  | TimedOut => Throw timeoutError
  end.

Definition matchContext (realGossip topic : string) (isPartialMatch : bool) : string :=
  if isPartialMatch
  then "While we couldn't find exact gossip about " ++ dquote ++ topic ++ dquote
       ++ ", here's an interesting story about "
       ++ join " " (slice0 3 (split space realGossip)) ++ "..."
  else EmptyString.

Definition commentsContext (topComments : list string) : string :=
  match topComments with
  | [] => EmptyString
  | _ :: _ => "Some interesting details from the discussion:" ++ newline
              ++ join newline topComments
  end.

Definition promptHead (realGossip topic : string) (topComments : list string)
    (isPartialMatch : bool) : string :=
  matchContext realGossip topic isPartialMatch ++ newline
  ++ "    Given this real gossip:" ++ newline
  ++ "    " ++ dquote ++ realGossip ++ dquote ++ newline
  ++ "    " ++ newline
  ++ "    " ++ commentsContext topComments ++ newline
  ++ "    " ++ newline.

Definition fakeGossipPrompt (realGossip topic : string) (topComments : list string)
    (isPartialMatch : bool) : string :=
  let realSentences :=
    filter (fun s => (0 <? String.length (trim s))%nat) (splitSentences realGossip) in
  let targetLength := String.length realGossip in
  promptHead realGossip topic topComments isPartialMatch
  ++ "    Generate a fictional but believable gossip story about the same topic. Important requirements:" ++ newline
  ++ "    1. Make it approximately the same length (" ++ showNat targetLength ++ " characters)" ++ newline
  ++ "    2. Use about " ++ showNat (length realSentences) ++ " sentences" ++ newline
  ++ "    3. Match the level of detail and style of the real gossip" ++ newline
  ++ "    4. Make it engaging and playful, but equally plausible" ++ newline
  ++ "    5. Include specific details to make it convincing" ++ newline
  ++ "    6. Keep the same tone and format as the real gossip".

Definition fakeGossipPromptPlain (realGossip topic : string) (topComments : list string)
    (isPartialMatch : bool) : string :=
  promptHead realGossip topic topComments isPartialMatch
  ++ "    Generate a fictional but believable gossip story about the same topic. Make it engaging and playful, matching the tone of the real gossip. The story should be different but equally plausible. Include some specific details to make it more convincing.".

Definition fakeSystemPrompt : string :=
  "You are a creative gossip writer. Generate engaging, playful, and believable gossip stories that match the tone and format of real gossip but are entirely fictional.".

Definition fakeSystemPromptPlain : string :=
  "You are a creative gossip writer. Generate engaging, playful, and believable gossip stories that match the tone of real gossip but are entirely fictional.".

(** The [try] block of [generateFakeGossip]. *)
Definition requestFakeGossip (net : Network) (req : ChatRequest) : Completion string :=
  choices <- awaitRace net req ;;
  firstChoice choices.

(** [generateFakeGossip] of the revision with [generateStories]. *)
Definition generateFakeGossip (net : Network) (realGossip topic : string)
    (topComments : list string) (isPartialMatch : bool) : Completion string :=
  tryCatch
    (requestFakeGossip net
       (mkChat fakeSystemPrompt
               (fakeGossipPrompt realGossip topic topComments isPartialMatch) 300))
    (fun _ => Normal (fallbackGossip topic)).

(** [generateFakeGossip] of [src/app/api/reddit/route.ts]. *)
Definition generateFakeGossipPlain (net : Network) (realGossip topic : string)
    (topComments : list string) (isPartialMatch : bool) : Completion string :=
  tryCatch
    (requestFakeGossip net
       (mkChat fakeSystemPromptPlain
               (fakeGossipPromptPlain realGossip topic topComments isPartialMatch) 200))
    (fun _ => Normal (fallbackGossip topic)).

(** ** [getTrendingTopic] *)

Definition defaultTopic : string := "Taylor Swift".

Definition getTrendingTopic (net : Network) : string :=
  match hotDeuxmoi net with
  | FetchOk titles =>
      match find (fun t => negb (includes (toLowerCase t) "daily discussion")
                           && negb (includes (toLowerCase t) "megathread")) titles with
      | Some t => join " " (slice0 3 (split space t))
      | None => defaultTopic
      end
  | FetchNotOk => defaultTopic
  | FetchThrows _ => defaultTopic
  end.

(** ** [shuffleArray] *)

(** [xs[n] = x]; an index past the end does not occur here and changes
    nothing in the model. *)
Fixpoint update {T} (n : nat) (x : T) (xs : list T) : list T :=
  match xs, n with
  | [], _ => []
  | _ :: rest, O => x :: rest
  | y :: rest, S k => y :: update k x rest
  end.

(** [[xs[i], xs[j]] = [xs[j], xs[i]]] *)
Definition swap {T} (i j : nat) (xs : list T) : list T :=
  match nth_error xs i, nth_error xs j with
  | Some a, Some b => update j a (update i b xs)
  | _, _ => xs
  end.

(** [Math.floor(r * (i + 1))] *)
Definition randomIndex (r : Q) (i : nat) : nat :=
  Z.to_nat (Qfloor (r * inject_Z (Z.of_nat (i + 1)))).

(** The body of the loop at index [i], with the index [j] drawn. *)
Definition shuffleStep {T} (i j : nat) (shuffled : list T) : list T := swap i j shuffled.

(** [for (let i = ...; i > 0; i--)] *)
Fixpoint shuffleLoop {T} (i : nat) (shuffled : list T) : M (list T) :=
  match i with
  | O => ret shuffled
  | S k =>
      r <~ Math_random ;;
      shuffleLoop k (shuffleStep i (randomIndex r i) shuffled)
  end.

Definition shuffleArray {T} (array : list T) : M (list T) :=
  shuffleLoop (length array - 1) array.

(** A draw of [Math.random()] lies in [[0, 1)]. *)
Definition validDraw (r : Q) : Prop := (0 <= r)%Q /\ (r < 1)%Q.

(** ** [generateStories] *)

(** [`${post.subreddit}_${post.id}`] *)
Definition storyIdOf (p : Ranked.t) : string :=
  Post.subreddit (Ranked.post p) ++ "_" ++ Post.id (Ranked.post p).

(** [recentStoryIds.includes(id)] *)
Definition seenRecently (recentStoryIds : list string) (id : string) : bool :=
  existsb (String.eqb id) recentStoryIds.

(** The de-duplication step. *)
Definition freshPosts (posts : list Ranked.t) (recentStoryIds : list string) : list Ranked.t :=
  if (0 <? length recentStoryIds)%nat
  then filter (fun post => negb (seenRecently recentStoryIds (storyIdOf post))) posts
  else posts.

(** What [JSON.parse] makes of the [recentStories] parameter.  The
    handler does not check it; it reads [.length > 0] and calls
    [.includes(id)] with a string, and the values are told apart as far as
    those two members can. *)
Inductive Recent : Type :=
| RecentArray (items : list (option string))
    (* an array; [None] stands for an element that is not a string *)
| RecentText (text : string)     (* a string *)
| RecentNull                     (* [null] *)
| RecentScalar                   (* a number or a boolean *)
| RecentObject (lengthAboveZero : bool).
    (* an object; whether its [length] member compares above 0 *)

(** [recentStoryIds.length > 0]: reading a member of [null] throws, the
    [length] of a number or a boolean is [undefined], which does not
    compare above 0. *)
Definition lengthAboveZero (recentStoryIds : Recent) : Completion bool :=
  match recentStoryIds with
  | RecentArray items => Normal (0 <? length items)%nat
  | RecentText text => Normal (0 <? String.length text)%nat
  | RecentNull => Throw (TypeError "Cannot read properties of null (reading 'length')")
  | RecentScalar => Normal false
  | RecentObject above => Normal above
  end.

(** [recentStoryIds.includes(id)]: membership in an array, occurrence in
    a string; no other value of JSON has a callable [includes]. *)
Definition includesId (recentStoryIds : Recent) (id : string) : Completion bool :=
  match recentStoryIds with
  | RecentArray items =>
      Normal (existsb (fun item => match item with
                                   | Some s => String.eqb id s
                                   | None => false
                                   end) items)
  | RecentText text => Normal (includes text id)
  | RecentNull => Throw (TypeError "Cannot read properties of null (reading 'includes')")
  | RecentScalar => Throw (TypeError "recentStoryIds.includes is not a function")
  | RecentObject _ => Throw (TypeError "recentStoryIds.includes is not a function")
  end.

(** The de-duplication step on such a value. *)
Definition freshPostsUntyped (posts : list Ranked.t) (recentStoryIds : Recent)
    : Completion (list Ranked.t) :=
  above <- lengthAboveZero recentStoryIds ;;
  if above
  then filterC (fun post => seen <- includesId recentStoryIds (storyIdOf post) ;;
                            Normal (negb seen)) posts
  else Normal posts.

(** [post.topComments] handed over as comments. *)
Definition asComments (topComments : list string) : list Comment :=
  map CommentText topComments.

Definition scorePost (p : Ranked.t) : M (Ranked.t * number) :=
  s <~ calculateEngagementScore (Ranked.post p) (asComments (Ranked.topComments p)) ;;
  ret (p, s).

Definition noFreshGossip (topic : string) : string :=
  "No fresh gossip found about " ++ dquote ++ topic ++ dquote
  ++ ". Try searching for a different celebrity or check back later for new tea! ☕️".

Definition realStoryOf (bestPost : Ranked.t) (realStory : string) : Story.t :=
  Story.mk realStory true
    (Some ("https://reddit.com" ++ Post.permalink (Ranked.post bestPost)))
    (Some (Ranked.engagementScore bestPost))
    (Some (Ranked.isPartialMatch bestPost))
    (Some (Ranked.mainSubject bestPost))
    (Some (Post.subreddit (Ranked.post bestPost)))
    (Some (storyIdOf bestPost)).

Definition fakeStoryOf (bestPost : Ranked.t) (fakeStory topic : string) (now : Z) : Story.t :=
  Story.mk fakeStory false None None
    (Some (Ranked.isPartialMatch bestPost))
    (Some (Ranked.mainSubject bestPost))
    None
    (Some ("fake_" ++ topic ++ "_" ++ showZ now)).

(** [generateStories] after the de-duplication step: [freshPosts] is
    what that step kept. *)
Definition storiesOfFresh (net : Network) (freshPosts : list Ranked.t) (topic : string)
    : M Payload.t :=
  scoredPosts <~ mapM scorePost freshPosts ;;
  match hd_error (sortDesc snd scoredPosts) with
  | None =>
      ret (Payload.failure (noFreshGossip topic) (Some (getTrendingTopic net)) None)
  | Some (bestPost, _) =>
      let realStory :=
        formatRedditGossip (Ranked.post bestPost) (asComments (Ranked.topComments bestPost)) in
      fakeStory <~ liftC (generateFakeGossip net realStory topic
                            (Ranked.topComments bestPost) (Ranked.isPartialMatch bestPost)) ;;
      now <~ Date_now ;;
      let stories := [ realStoryOf bestPost realStory;
                       fakeStoryOf bestPost fakeStory topic now ] in
      shuffledStories <~ shuffleArray stories ;;
      ret (Payload.mk None (Some shuffledStories) (Some (findIndex shuffledStories))
                      None None None (Some [storyIdOf bestPost]) None None None)
  end.

(** [generateStories] at the type of its signature,
    [recentStoryIds: string[]]. *)
Definition generateStories (net : Network) (posts : list Ranked.t) (topic : string)
    (recentStoryIds : list string) : M Payload.t :=
  storiesOfFresh net (freshPosts posts recentStoryIds) topic.

(** [generateStories] on whatever [JSON.parse] returned: the handler
    passes that value on unchecked, and an exception of the de-duplication
    step leaves the function through its [catch], which throws it again. *)
Definition generateStoriesUntyped (net : Network) (posts : list Ranked.t) (topic : string)
    (recentStoryIds : Recent) : M Payload.t :=
  fresh <~ liftC (freshPostsUntyped posts recentStoryIds) ;;
  storiesOfFresh net fresh topic.

(** ** The route handlers *)

(** The [recentStories] parameter of the query: absent (or empty), JSON
    text, or text that [JSON.parse] rejects. *)
Inductive RecentParam : Type :=
| NoParam                        (* absent or empty *)
| JsonIds (ids : list string)    (* a JSON array of strings, as the client sends it *)
| JsonValue (value : Recent)     (* any JSON text, by the value it parses to *)
| BadJson.                       (* not JSON *)

Record Request : Type := mkRequest {
  topicParam : option string;
  recentStoriesParam : RecentParam
}.

(** [recentStoriesParam ? JSON.parse(recentStoriesParam) : []], the
    value that the handler binds [recentStoryIds] to. *)
Definition recentOf (p : RecentParam) : Completion Recent :=
  match p with
  | NoParam => Normal (RecentArray [])
  | JsonIds ids => Normal (RecentArray (map Some ids))
  | JsonValue value => Normal value
  | BadJson => Throw (SyntaxError "Unexpected token in JSON")
  end.

(** The elements of an array of strings. *)
Fixpoint allStrings (items : list (option string)) : option (list string) :=
  match items with
  | [] => Some []
  | Some s :: rest => option_map (cons s) (allStrings rest)
  | None :: _ => None
  end.

(** The parameter read at the type that [generateStories] declares for
    it, [string[]]: the list of identifiers when the parameter is absent or
    an array of strings.  The handler makes no such check (it goes by
    [recentOf]); a statement that assumes [parseRecent p = Normal ids] is a
    statement about the requests whose parameter has the declared type. *)
Definition parseRecent (p : RecentParam) : Completion (list string) :=
  match p with
  | NoParam => Normal []
  | JsonIds ids => Normal ids
  | JsonValue (RecentArray items) =>
      match allStrings items with
      | Some ids => Normal ids
      | None => Throw (TypeError "recentStories is not an array of strings")
      end
  | JsonValue _ => Throw (TypeError "recentStories is not an array of strings")
  | BadJson => Throw (SyntaxError "Unexpected token in JSON")
  end.

(** The reply to a request without a topic. *)
Definition topicRequired (net : Network) : Response :=
  match popularHot net with
  | FetchOk (Some trendingTopic) =>
      if truthy trendingTopic
      then mkResponse 400 (Payload.failure "Topic is required" (Some trendingTopic) None)
      else mkResponse 400 (Payload.failure "Topic is required" None None)
  | _ => mkResponse 400 (Payload.failure "Topic is required" None None)
  end.

Definition noRelevantPosts : Response :=
  mkResponse 404 (Payload.failure "No relevant posts found"
                    (Some "Try a different or broader topic") None).

Definition failedToProcess (e : JsError) : Response :=
  mkResponse 500 (Payload.failure "Failed to process request" None (Some (errorMessage e))).

(** [GET] of [/api/reddit], the revision with [generateStories]. *)
Definition GET (net : Network) (req : Request) : M Response :=
  tryCatchM
    (recentStoryIds <~ liftC (recentOf (recentStoriesParam req)) ;;
     if truthy (orEmpty (topicParam req)) then
       let topic := orEmpty (topicParam req) in
       posts <~ fetchRedditPosts net topic ;;
       match posts with
       | [] => ret noRelevantPosts
       | first :: _ =>
           result <~ generateStoriesUntyped net posts topic recentStoryIds ;;
           ret (mkResponse 200
                  (Payload.mk None (Payload.stories result) (Payload.correctIndex result)
                     (Some topic) (Some (Ranked.mainSubject first))
                     (Some (Ranked.isPartialMatch first))
                     (Payload.newStoryIds result) None None None))
       end
     else ret (topicRequired net))
    (fun e => ret (failedToProcess e)).

(** The two stories of [src/app/api/reddit/route.ts], the real one first
    or second. *)
Definition plainStories (selectedPost : Ranked.t) (realGossip fakeGossip : string)
    (isRealFirst : bool) : list Story.t :=
  let url := Some ("https://reddit.com" ++ Post.permalink (Ranked.post selectedPost)) in
  let engagement := Some (Ranked.engagementScore selectedPost) in
  [ Story.mk (if isRealFirst then realGossip else fakeGossip) isRealFirst
      (if isRealFirst then url else None)
      (if isRealFirst then engagement else None)
      (Some (Ranked.isPartialMatch selectedPost))
      (Some (Ranked.mainSubject selectedPost)) None None;
    Story.mk (if isRealFirst then fakeGossip else realGossip) (negb isRealFirst)
      (if negb isRealFirst then url else None)
      (if negb isRealFirst then engagement else None)
      (Some (Ranked.isPartialMatch selectedPost))
      (Some (Ranked.mainSubject selectedPost)) None None ].

(** [selectedPost.title + (selectedPost.selftext ? ` ${selectedPost.selftext}` : '')] *)
Definition plainRealGossip (selectedPost : Ranked.t) : string :=
  let text := orEmpty (Post.selftext (Ranked.post selectedPost)) in
  Post.title (Ranked.post selectedPost)
  ++ (if truthy text then " " ++ text else EmptyString).

(** [GET] of [src/app/api/reddit/route.ts]. *)
Definition GETPlain (net : Network) (req : Request) : M Response :=
  tryCatchM
    (if truthy (orEmpty (topicParam req)) then
       let topic := orEmpty (topicParam req) in
       posts <~ fetchRedditPostsPlain net topic ;;
       match posts with
       | [] => ret noRelevantPosts
       | selectedPost :: _ =>
           let realGossip := plainRealGossip selectedPost in
           fakeGossip <~ liftC (generateFakeGossipPlain net realGossip topic
                                  (Ranked.topComments selectedPost)
                                  (Ranked.isPartialMatch selectedPost)) ;;
           r <~ Math_random ;;
           let isRealFirst := negb (Qle_bool (1 # 2) r) in
           ret (mkResponse 200
                  (Payload.mk None
                     (Some (plainStories selectedPost realGossip fakeGossip isRealFirst))
                     (Some (if isRealFirst then 0 else 1)%Z)
                     (Some topic) (Some (Ranked.mainSubject selectedPost))
                     (Some (Ranked.isPartialMatch selectedPost))
                     None None None None))
       end
     else ret (topicRequired net))
    (fun e => ret (failedToProcess e)).

(** ** [GET] of [/api/gossip] *)

(** [post.score * 1.5 + post.num_comments]; [None] stands for [NaN]. *)
Definition roughScore (p : Post.t) : option number :=
  match Post.score p, Post.num_comments p with
  | Some s, Some n => Some (s * (3 # 2) + n)%Q
  | _, _ => None
  end.

(** [a > b] where either side may be [NaN]. *)
Definition gtNaN (a b : option number) : bool :=
  match a, b with
  | Some x, Some y => negb (Qle_bool x y)
  | _, _ => false
  end.

(** [posts.reduce((best, current) => ...)] on a list with a first element. *)
Definition mostEngaging (first : Post.t) (others : list Post.t) : Post.t :=
  fold_left (fun best current =>
               if gtNaN (roughScore current) (roughScore best) then current else best)
            others first.

(** [await openai.chat.completions.create(...)], without a timer. *)
Definition awaitChat (net : Network) (req : ChatRequest) : Completion (list (option string)) :=
  match chat net req with
  | Resolves _ choices => Normal choices
  | Rejects _ e => Throw e
  end.

(** [response.choices[0].message.content], [None] for [null]. *)
Definition firstContent (choices : list (option string)) : Completion (option string) :=
  match choices with
  | [] => Throw (TypeError "Cannot read properties of undefined (reading 'message')")
  | c :: _ => Normal c
  end.

Definition indent10 : string := "          ".

Definition summaryRequest (bestPost : Post.t) : ChatRequest :=
  let excerpt := substring0 500 (orEmpty (Post.selftext bestPost)) in
  mkChat
    "You are a gossip columnist. Create engaging, playful summaries of news and stories in a gossip style."
    ("Summarize this Reddit post into a playful, gossip-style paragraph:" ++ newline
     ++ indent10 ++ "Title: " ++ Post.title bestPost ++ newline
     ++ indent10 ++ "Content: "
     ++ (if truthy excerpt then excerpt else Post.title bestPost))
    150.

Definition twoFakesRequest (topic realGossip : string) : ChatRequest :=
  mkChat
    "Generate two fictional but believable gossip stories about the given topic. Make them engaging and playful."
    ("Create two different fictional gossip stories about " ++ dquote ++ topic ++ dquote
     ++ " that are similar in style to this real gossip:" ++ newline
     ++ indent10 ++ dquote ++ realGossip ++ dquote)
    300.

(** [content?.split('\n\n').filter(...).slice(0, 2) || []] *)
Definition fakeGossipsOf (content : option string) : list string :=
  match content with
  | Some text =>
      slice0 2 (filter (fun gossip => (0 <? String.length (trim gossip))%nat)
                       (splitOn (newline ++ newline) 0 text))
  | None => []
  end.

(** The stories before the shuffle: the real one, then the fakes. *)
Definition gossipStories (bestPost : Post.t) (realGossip : string) (fakeGossips : list string)
    : list Story.t :=
  Story.mk realGossip true (Some ("https://reddit.com" ++ Post.permalink bestPost))
           None None None None None
  :: map (fun text => Story.mk text false None None None None None None) fakeGossips.

(** [[...xs].sort(() => Math.random() - 0.5)].  The comparator answers
    without looking at its arguments, and with such a comparator the
    language leaves the resulting order to the engine.  The model follows
    the sort of V8, the engine of Node.js, for arrays shorter than 64
    elements (the handler sorts at most three stories): it finds the run
    that starts the array, reverses it when it is descending, and places
    every later element by binary insertion.  Every comparison is a fresh
    draw. *)

(** [order < 0] for one call of the comparator. *)
Definition orderNegative : M bool :=
  r <~ Math_random ;;
  ret (negb (Qle_bool 0 (r - (1 # 2)))).

(** The run is extended while the next element compares like the first
    pair did; the comparison that ends the run is made and lost.  [run]
    holds the run so far, last element first. *)
Fixpoint extendRun {A} (descending : bool) (todo run : list A) : M (list A * list A) :=
  match todo with
  | [] => ret (run, [])
  | current :: rest =>
      negative <~ orderNegative ;;
      if Bool.eqb negative descending
      then extendRun descending rest (current :: run)
      else ret (run, todo)
  end.

(** The insertion point of the pivot in [[left, right)]: the middle
    element is compared until the interval is empty.  The interval halves
    at every step, so [fuel] steps are enough when [right - left <= fuel]. *)
Fixpoint insertionPoint (fuel left right : nat) : M nat :=
  match fuel with
  | O => ret left
  | S fuel' =>
      if (left <? right)%nat then
        let mid := (left + (right - left) / 2)%nat in
        negative <~ orderNegative ;;
        if negative then insertionPoint fuel' left mid
        else insertionPoint fuel' (mid + 1)%nat right
      else ret left
  end.

Fixpoint binaryInsertionSort {A} (todo sorted : list A) : M (list A) :=
  match todo with
  | [] => ret sorted
  | pivot :: rest =>
      left <~ insertionPoint (length sorted) 0 (length sorted) ;;
      binaryInsertionSort rest (firstn left sorted ++ pivot :: skipn left sorted)%list
  end.

Definition sortRandom {A} (xs : list A) : M (list A) :=
  match xs with
  | first :: second :: rest =>
      descending <~ orderNegative ;;
      found <~ extendRun descending rest [second; first] ;;
      let '(run, todo) := found in
      binaryInsertionSort todo (if descending then run else rev run)
  | _ => ret xs
  end.

Definition failedToGenerate : Response :=
  mkResponse 500 (Payload.failure "Failed to generate gossip" None None).

(** The part of the handler that follows the two completions. *)
Definition gossipReply (topic : string) (bestPost : Post.t) (realGossip : string)
    (fakeGossips : list string) : M Response :=
  shuffledStories <~ sortRandom (gossipStories bestPost realGossip fakeGossips) ;;
  ret (mkResponse 200
         (Payload.mk (Some topic) (Some shuffledStories) (Some (findIndex shuffledStories))
                     None None None None None None None)).

(** [content?.trim() || ''] *)
Definition trimOrEmpty (content : option string) : string :=
  match content with
  | Some text => trim text
  | None => EmptyString
  end.

Definition GETGossip (net : Network) (req : Request) : M Response :=
  tryCatchM
    (if truthy (orEmpty (topicParam req)) then
       let topic := orEmpty (topicParam req) in
       match searchTop net topic with
       | FetchOk [] => throw (Error "No posts found")
       | FetchOk (first :: others) =>
           let bestPost := mostEngaging first others in
           realChoices <~ liftC (awaitChat net (summaryRequest bestPost)) ;;
           realContent <~ liftC (firstContent realChoices) ;;
           let realGossip := trimOrEmpty realContent in
           fakeChoices <~ liftC (awaitChat net (twoFakesRequest topic realGossip)) ;;
           fakeContent <~ liftC (firstContent fakeChoices) ;;
           gossipReply topic bestPost realGossip (fakeGossipsOf fakeContent)
       | FetchNotOk => throw (Error "Failed to fetch from Reddit")
       | FetchThrows e => throw e
       end
     else
       match popularHot net with
       | FetchOk (Some trendingTopic) =>
           ret (mkResponse 400 (Payload.failure "Topic is required" (Some trendingTopic) None))
       | FetchOk None => throw (TypeError "Cannot read properties of undefined (reading 'data')")
       | FetchNotOk => throw (TypeError "Cannot read properties of undefined (reading 'children')")
       | FetchThrows e => throw e
       end)
    (fun _ => ret failedToGenerate).

(** ** The client: [GossipGame] *)

(** An entry of the persisted list of seen stories. *)
Module StoryItem.
Record t : Type := mk {
  id : string;
  timestamp : Z
}.
End StoryItem.

(** What [localStorage] holds under the key [recentStories]: nothing, the
    JSON of a list of entries, or text that the effect cannot use. *)
Inductive Stored : Type :=
| NotStored
| StoredItems (items : list StoryItem.t)
| StoredGarbage.

Module Client.
Record t : Type := mk {
  topic : string;
  stories : list Story.t;
  selectedIndex : Z;
  correctIndex : Z;
  revealed : bool;
  loading : bool;
  gameStarted : bool;
  timeLeft : Z;
  score : Z;
  attempts : Z;
  gameOver : bool;
  recentStories : list string;
  error : option string;
  localStorage : Stored
}.

Definition setTopic (v : string) (st : t) : t :=
  mk v (stories st) (selectedIndex st) (correctIndex st) (revealed st) (loading st)
     (gameStarted st) (timeLeft st) (score st) (attempts st) (gameOver st)
     (recentStories st) (error st) (localStorage st).

Definition setStories (v : list Story.t) (st : t) : t :=
  mk (topic st) v (selectedIndex st) (correctIndex st) (revealed st) (loading st)
     (gameStarted st) (timeLeft st) (score st) (attempts st) (gameOver st)
     (recentStories st) (error st) (localStorage st).

Definition setSelectedIndex (v : Z) (st : t) : t :=
  mk (topic st) (stories st) v (correctIndex st) (revealed st) (loading st)
     (gameStarted st) (timeLeft st) (score st) (attempts st) (gameOver st)
     (recentStories st) (error st) (localStorage st).

Definition setCorrectIndex (v : Z) (st : t) : t :=
  mk (topic st) (stories st) (selectedIndex st) v (revealed st) (loading st)
     (gameStarted st) (timeLeft st) (score st) (attempts st) (gameOver st)
     (recentStories st) (error st) (localStorage st).

Definition setRevealed (v : bool) (st : t) : t :=
  mk (topic st) (stories st) (selectedIndex st) (correctIndex st) v (loading st)
     (gameStarted st) (timeLeft st) (score st) (attempts st) (gameOver st)
     (recentStories st) (error st) (localStorage st).

Definition setLoading (v : bool) (st : t) : t :=
  mk (topic st) (stories st) (selectedIndex st) (correctIndex st) (revealed st) v
     (gameStarted st) (timeLeft st) (score st) (attempts st) (gameOver st)
     (recentStories st) (error st) (localStorage st).

Definition setGameStarted (v : bool) (st : t) : t :=
  mk (topic st) (stories st) (selectedIndex st) (correctIndex st) (revealed st)
     (loading st) v (timeLeft st) (score st) (attempts st) (gameOver st)
     (recentStories st) (error st) (localStorage st).

Definition setRecentStories (v : list string) (st : t) : t :=
  mk (topic st) (stories st) (selectedIndex st) (correctIndex st) (revealed st)
     (loading st) (gameStarted st) (timeLeft st) (score st) (attempts st)
     (gameOver st) v (error st) (localStorage st).

Definition setError (v : option string) (st : t) : t :=
  mk (topic st) (stories st) (selectedIndex st) (correctIndex st) (revealed st)
     (loading st) (gameStarted st) (timeLeft st) (score st) (attempts st)
     (gameOver st) (recentStories st) v (localStorage st).

Definition setLocalStorage (v : Stored) (st : t) : t :=
  mk (topic st) (stories st) (selectedIndex st) (correctIndex st) (revealed st)
     (loading st) (gameStarted st) (timeLeft st) (score st) (attempts st)
     (gameOver st) (recentStories st) (error st) v.

Definition initial (searchTopic : string) (storage : Stored) : t :=
  mk searchTopic [] (-1) (-1) false false false 30 0 0 false [] None storage.
End Client.

Definition oneHourMs : Z := (60 * 60 * 1000)%Z.

(** The entries that the mount effect keeps: [item.timestamp > oneHourAgo]. *)
Definition recentItems (now : Z) (parsed : list StoryItem.t) : list StoryItem.t :=
  let oneHourAgo := (now - oneHourMs)%Z in
  filter (fun item => (oneHourAgo <? StoryItem.timestamp item)%Z) parsed.

(** The effect that runs once when the component mounts, at time [now]. *)
Definition initEffect (now : Z) (st : Client.t) : Client.t :=
  match Client.localStorage st with
  | NotStored => st
  | StoredItems parsed =>
      let recent := recentItems now parsed in
      Client.setLocalStorage (StoredItems recent)
        (Client.setRecentStories (map StoryItem.id recent) st)
  | StoredGarbage => Client.setLocalStorage NotStored st
  end.

(** The request that [fetchGossip] sends. *)
Definition gossipRequest (searchTopic : string) (st : Client.t) : Request :=
  mkRequest (Some searchTopic) (JsonIds (Client.recentStories st)).

(** [response.ok] *)
Definition responseOk (r : Response) : bool :=
  (200 <=? status r)%Z && (status r <? 300)%Z.

(** [a || b || 'Failed to fetch gossip'] on optional strings *)
Definition firstMessage (a b : option string) : string :=
  if truthy (orEmpty a) then orEmpty a
  else if truthy (orEmpty b) then orEmpty b
  else "Failed to fetch gossip".

(** Truthiness of [data.correctIndex]. *)
Definition truthyIndex (i : option Z) : bool :=
  match i with
  | Some z => negb (z =? 0)%Z
  | None => false
  end.

(** [!data.stories || !data.correctIndex]: an array is truthy, even an
    empty one. *)
Definition invalidResponse (data : Payload.t) : bool :=
  negb (match Payload.stories data with Some _ => true | None => false end)
  || negb (truthyIndex (Payload.correctIndex data)).

(** The bookkeeping of the seen stories after an accepted response: the
    identifiers already known and the new ones are all written back with
    the time of the call; [localStorage.setItem] is taken not to throw.  (The earlier revision of the component makes the
    same check of the response and differs only in this bookkeeping.) *)
Definition rememberStories (now : Z) (newStoryIds : option (list string)) (st : Client.t)
    : Client.t :=
  match newStoryIds with
  | Some ((_ :: _) as ids) =>
      let newRecent :=
        (map (fun id => StoryItem.mk id now) (Client.recentStories st)
         ++ map (fun id => StoryItem.mk id now) ids)%list in
      Client.setLocalStorage (StoredItems newRecent)
        (Client.setRecentStories (map StoryItem.id newRecent) st)
  | _ => st
  end.

(** The state changes of an accepted response. *)
Definition acceptResponse (now : Z) (data : Payload.t) (st : Client.t) : Client.t :=
  let stories := match Payload.stories data with Some s => s | None => [] end in
  let correctIndex := match Payload.correctIndex data with Some i => i | None => (-1)%Z end in
  let st := Client.setStories stories st in
  let st := Client.setCorrectIndex correctIndex st in
  let st := rememberStories now (Payload.newStoryIds data) st in
  Client.setGameStarted true (Client.setRevealed false (Client.setSelectedIndex (-1) st)).

(** [fetchGossip]: [reply] is what [fetch] and [response.json()] come
    to, [now] the time of the call. *)
Definition fetchGossip (reply : Completion Response) (now : Z) (st : Client.t) : Client.t :=
  let st := Client.setError None (Client.setLoading true st) in
  let st :=
    match reply with
    | Throw e => Client.setError (Some (errorMessage e)) st
    | Normal response =>
        let data := body response in
        if negb (responseOk response) then
          let st := if truthy (orEmpty (Payload.suggestion data))
                    then Client.setTopic (orEmpty (Payload.suggestion data)) st else st in
          Client.setError
            (Some (firstMessage (Payload.error data) (Payload.message data))) st
        else if invalidResponse data then
          Client.setError (Some "Invalid response from server") st
        else acceptResponse now data st
    end in
  Client.setLoading false st.

(** ** Readings of the model used in the statements *)

(** The score of a post when its age is known. *)
Definition scoreAtAge (post : Post.t) (comments : list Comment) (age : number) : number :=
  sumQ (scoreComponents post comments age).

(** The [n] equally likely draws [0/n, 1/n, ..., (n-1)/n] of a uniform
    source on a grid of [[0, 1)]. *)
Definition drawsOnGrid (n : nat) : list Q :=
  map (fun k => Z.of_nat k # Pos.of_nat n) (seq 0 n).

(** How many of the draws make the loop pick the index [j] at [i = 1]. *)
Definition drawsPicking (j : nat) (draws : list Q) : nat :=
  length (filter (fun r => (randomIndex r 1 =? j)%nat) draws).

(** The number of stories marked real. *)
Definition realCount (stories : list Story.t) : nat :=
  length (filter Story.isReal stories).

(** The identifiers that a request of the client carries to the server. *)
Definition idsSent (searchTopic : string) (st : Client.t) : list string :=
  match parseRecent (recentStoriesParam (gossipRequest searchTopic st)) with
  | Normal ids => ids
  | Throw _ => []
  end.

(** ** What the specification says, stated over the model *)

(** The text of a post contains a token of the query. *)
Definition containsQueryToken (query : string) (post : Post.t) : Prop :=
  exists term, In term (searchTerms query) /\ occursIn term (postContent post).

(** The text of a post contains a gossip keyword. *)
Definition containsGossipKeyword (post : Post.t) : Prop :=
  exists indicator, In indicator gossipIndicators /\ occursIn indicator (postContent post).

(** The body is longer than 100 characters, or there are more than 10
    comments. *)
Definition isSubstantial (post : Post.t) : Prop :=
  (exists t, Post.selftext post = Some t /\ (100 < String.length t)%nat)
  \/ (exists n, Post.num_comments post = Some n /\ (10 < n)%Q).

(** The predicate of section 4.2 of the specification. *)
Definition relevantBySpec (query : string) (post : Post.t) : Prop :=
  containsQueryToken query post /\ (containsGossipKeyword post \/ isSubstantial post).

(** A filter predicate implements section 4.2. *)
Definition implementsRelevance (passes : string -> Post.t -> bool) : Prop :=
  forall query post, passes query post = true <-> relevantBySpec query post.

(** Equality of two outcomes that carry a number. *)
Definition sameOutcome (a b : Completion number) : Prop :=
  match a, b with
  | Normal x, Normal y => (x == y)%Q
  | Throw e1, Throw e2 => e1 = e2
  | _, _ => False
  end.

(** The score depends on the post and the comments alone. *)
Definition engagementIgnoresWorld : Prop :=
  forall post comments w1 w2,
    sameOutcome (fst (calculateEngagementScore post comments w1))
                (fst (calculateEngagementScore post comments w2)).

(** A body with exactly two stories, one real and one fake, whose
    [correctIndex] is the place of the real one. *)
Definition twoStoriesOneReal (data : Payload.t) : Prop :=
  exists s0 s1,
    Payload.stories data = Some [s0; s1]
    /\ Story.isReal s0 = negb (Story.isReal s1)
    /\ Payload.correctIndex data = Some (if Story.isReal s0 then 0 else 1)%Z.

(** Exactly one story is real and it is the one at index [i]. *)
Definition oneRealAt (stories : list Story.t) (i : Z) : Prop :=
  realCount stories = 1%nat
  /\ (0 <= i)%Z
  /\ exists s, nth_error stories (Z.to_nat i) = Some s /\ Story.isReal s = true.

(** A body with one to three stories, exactly one of them real, whose
    [correctIndex] is the place of the real one. *)
Definition oneRealAmongUpToThree (data : Payload.t) : Prop :=
  exists stories i,
    Payload.stories data = Some stories
    /\ Payload.correctIndex data = Some i
    /\ (1 <= length stories <= 3)%nat
    /\ oneRealAt stories i.

(** Every successful reply of a handler that carries stories carries
    exactly two, one of them real, with the right [correctIndex]. *)
Definition answersWithTwoStories (handler : Network -> Request -> M Response) : Prop :=
  forall net req w r w',
    handler net req w = (Normal r, w') ->
    status r = 200%Z ->
    Payload.stories (body r) <> None ->
    twoStoriesOneReal (body r).

(** Every story of the body that is marked fake has the fallback text. *)
Definition fakeIsFallback (topic : string) (data : Payload.t) : Prop :=
  forall stories s,
    Payload.stories data = Some stories ->
    In s stories ->
    Story.isReal s = false ->
    Story.content s = fallbackGossip topic.

(** [GET] passes the object of [generateStories] on: when every fetched
    post has been seen recently, the response carries the error message and
    the suggestion of that object. *)
Definition forwardsNoFreshObject : Prop :=
  forall net topic ids w posts w1 r w2 result w3,
    truthy topic = true ->
    fetchRedditPosts net topic w = (Normal posts, w1) ->
    posts <> [] ->
    (forall p, In p posts -> In (storyIdOf p) ids) ->
    generateStories net posts topic ids w1 = (Normal result, w3) ->
    GET net (mkRequest (Some topic) (JsonIds ids)) w = (Normal r, w2) ->
    Payload.error (body r) = Payload.error result
    /\ Payload.suggestion (body r) = Payload.suggestion result.

(** An identifier whose stored entries are all older than one hour when
    a request is made never makes the de-duplication step drop a post: the
    client mounted at [nowInit] with the entries [stored], the request is
    made at [nowFetch]. *)
Definition expiredIdsNeverFilter : Prop :=
  forall stored nowInit nowFetch searchTopic posts post,
    (nowInit <= nowFetch)%Z ->
    (forall item, In item stored -> StoryItem.id item = storyIdOf post ->
                  (StoryItem.timestamp item < nowFetch - oneHourMs)%Z) ->
    In post posts ->
    In post (freshPosts posts
               (idsSent searchTopic
                  (initEffect nowInit (Client.initial searchTopic (StoredItems stored))))).

(** ** Sample data *)

(** A post that tells the two filters apart for the query "taylor". *)
Definition plainPost : Post.t :=
  Post.mk "abc" "popheads" "taylor" None "/r/popheads/comments/abc"
          (Some 1%Q) (Some 0%Q) None None None 0%Q.

(** A post of a gossip forum that mentions the topic and a gossip keyword. *)
Definition rumorPost : Post.t :=
  Post.mk "abc" "popheads" "Taylor Swift rumor" (Some EmptyString)
          "/r/popheads/comments/abc" (Some 10%Q) (Some 3%Q) None None None 0%Q.

(** A network in which every forum search finds [rumorPost], the general
    search finds [plainPost], and the completion service answers after
    [elapsed] milliseconds with [reply]. *)
Definition sampleNet (elapsed : Z) (reply : list (option string)) : Network :=
  mkNetwork (fun _ _ _ => FetchOk [rumorPost])
            (fun _ _ _ => FetchOk [plainPost])
            (fun _ => FetchOk [rumorPost])
            (fun _ => FetchOk [])
            (FetchOk ["Some Star spotted downtown today"])
            (FetchOk (Some "Trending now"))
            (fun _ => Resolves elapsed reply).

(** The service answers in 20 ms with two paragraphs. *)
Definition quickNet : Network :=
  sampleNet 20 [Some ("fake one" ++ newline ++ newline ++ "fake two")].

(** The service answers after 20 seconds. *)
Definition slowNet : Network := sampleNet 20000 [Some "too late"].

(** The posts that the search of [/api/reddit] ranks for the topic
    "taylor" on the sample network when the clock shows 0. *)
Definition samplePosts : list Ranked.t :=
  match fst (fetchRedditPosts quickNet "taylor" (mkWorld 0 [])) with
  | Normal posts => posts
  | Throw _ => []
  end.

(** The response of [/api/reddit] to the topic "taylor" on the sample
    network when the draw is 3/4: the real story comes first. *)
Definition realFirstResponse : Response :=
  match fst (GET quickNet (mkRequest (Some "taylor") NoParam) (mkWorld 0 [3 # 4])) with
  | Normal r => r
  | Throw _ => mkResponse 0 Payload.empty
  end.

(** ** The intermediate revision of [/api/reddit]

    Between [src/app/api/reddit/route.ts] and the revision with the
    freshness term there is one that already searches the gossip forums and
    has [generateStories], with the engagement score and the fabrication
    prompt of the first. *)

Definition gossipIndicatorsShort : list string :=
  [ "rumor"; "allegedly"; "sources say"; "insider"; "exclusive";
    "spotted"; "claims"; "reveals"; "drama"; "scandal"; "tea" ].

(** [formatRedditGossip] of that revision. *)
Definition formatRedditGossipMid (post : Post.t) (comments : list Comment) : string :=
  let content :=
    if truthy (orEmpty (Post.selftext post)) then orEmpty (Post.selftext post)
    else Post.title post in
  let sentences := filter truthy (splitSentences content) in
  let relevantSentences :=
    filter (fun sentence =>
              existsb (fun indicator => includes (toLowerCase sentence) indicator)
                      gossipIndicatorsShort)
           sentences in
  let gossipContent :=
    if (0 <? length relevantSentences)%nat
    then join ". " (slice0 2 relevantSentences)
    else join ". " (slice0 2 sentences) in
  let topComment :=
    join " " (slice0 1 (map (fun c => orEmpty (commentBody c))
                            (filter (fun c => gtOpt (commentScore c) 50) comments))) in
  gossipContent ++ (if truthy topComment then " " ++ topComment else EmptyString).

(** [freshPosts.length > 0 ? freshPosts : posts] *)
Definition postsToUse (posts : list Ranked.t) (recentStoryIds : list string) : list Ranked.t :=
  match freshPosts posts recentStoryIds with
  | [] => posts
  | (_ :: _) as fresh => fresh
  end.

(** [generateStories] of that revision after the choice of the posts
    to use: it takes the first post without scoring again. *)
Definition storiesOfFirst (net : Network) (postsToUse : list Ranked.t) (topic : string)
    : M Payload.t :=
  match postsToUse with
  | [] =>
      ret (Payload.failure (noFreshGossip topic) (Some (getTrendingTopic net)) None)
  | bestPost :: _ =>
      let realStory :=
        formatRedditGossipMid (Ranked.post bestPost)
                              (asComments (Ranked.topComments bestPost)) in
      fakeStory <~ liftC (generateFakeGossipPlain net realStory topic
                            (Ranked.topComments bestPost) (Ranked.isPartialMatch bestPost)) ;;
      now <~ Date_now ;;
      let stories := [ realStoryOf bestPost realStory;
                       fakeStoryOf bestPost fakeStory topic now ] in
      shuffledStories <~ shuffleArray stories ;;
      ret (Payload.mk None (Some shuffledStories) (Some (findIndex shuffledStories))
                      None None None (Some [storyIdOf bestPost]) None None None)
  end.

(** [generateStories] of that revision at the type of its signature:
    without a fresh post it falls back to all posts. *)
Definition generateStoriesMid (net : Network) (posts : list Ranked.t) (topic : string)
    (recentStoryIds : list string) : M Payload.t :=
  storiesOfFirst net (postsToUse posts recentStoryIds) topic.

(** [freshPosts.length > 0 ? freshPosts : posts] on whatever
    [JSON.parse] returned. *)
Definition postsToUseUntyped (posts : list Ranked.t) (recentStoryIds : Recent)
    : Completion (list Ranked.t) :=
  fresh <- freshPostsUntyped posts recentStoryIds ;;
  Normal (match fresh with
          | [] => posts
          | _ :: _ => fresh
          end).

Definition generateStoriesMidUntyped (net : Network) (posts : list Ranked.t)
    (topic : string) (recentStoryIds : Recent) : M Payload.t :=
  use <~ liftC (postsToUseUntyped posts recentStoryIds) ;;
  storiesOfFirst net use topic.

Definition fetchRedditPostsMid (net : Network) : string -> M (list Ranked.t) :=
  fetchRedditPostsWith (searchReddit net)
    (fun post comments => ret (calculateEngagementScorePlain post comments)) net.

(** [GET] of that revision. *)
Definition GETMid (net : Network) (req : Request) : M Response :=
  tryCatchM
    (recentStoryIds <~ liftC (recentOf (recentStoriesParam req)) ;;
     if truthy (orEmpty (topicParam req)) then
       let topic := orEmpty (topicParam req) in
       posts <~ fetchRedditPostsMid net topic ;;
       match posts with
       | [] => ret noRelevantPosts
       | first :: _ =>
           result <~ generateStoriesMidUntyped net posts topic recentStoryIds ;;
           ret (mkResponse 200
                  (Payload.mk None (Payload.stories result) (Payload.correctIndex result)
                     (Some topic) (Some (Ranked.mainSubject first))
                     (Some (Ranked.isPartialMatch first))
                     (Payload.newStoryIds result) None None None))
       end
     else ret (topicRequired net))
    (fun e => ret (failedToProcess e)).

(** ** The rest of the client *)

(** The setters of the state that [fetchGossip] leaves alone. *)
Module Game.
Definition setTimeLeft (v : Z) (st : Client.t) : Client.t :=
  Client.mk (Client.topic st) (Client.stories st) (Client.selectedIndex st)
    (Client.correctIndex st) (Client.revealed st) (Client.loading st)
    (Client.gameStarted st) v (Client.score st) (Client.attempts st)
    (Client.gameOver st) (Client.recentStories st) (Client.error st)
    (Client.localStorage st).

Definition setScore (v : Z) (st : Client.t) : Client.t :=
  Client.mk (Client.topic st) (Client.stories st) (Client.selectedIndex st)
    (Client.correctIndex st) (Client.revealed st) (Client.loading st)
    (Client.gameStarted st) (Client.timeLeft st) v (Client.attempts st)
    (Client.gameOver st) (Client.recentStories st) (Client.error st)
    (Client.localStorage st).

Definition setAttempts (v : Z) (st : Client.t) : Client.t :=
  Client.mk (Client.topic st) (Client.stories st) (Client.selectedIndex st)
    (Client.correctIndex st) (Client.revealed st) (Client.loading st)
    (Client.gameStarted st) (Client.timeLeft st) (Client.score st) v
    (Client.gameOver st) (Client.recentStories st) (Client.error st)
    (Client.localStorage st).

Definition setGameOver (v : bool) (st : Client.t) : Client.t :=
  Client.mk (Client.topic st) (Client.stories st) (Client.selectedIndex st)
    (Client.correctIndex st) (Client.revealed st) (Client.loading st)
    (Client.gameStarted st) (Client.timeLeft st) (Client.score st) (Client.attempts st)
    v (Client.recentStories st) (Client.error st) (Client.localStorage st).
End Game.

(** The seconds of a round ([useState(30)], [setTimeLeft(30)]). *)
Definition roundSeconds : Z := 30.

(** One firing of the interval of the countdown effect; the interval
    exists only while [gameStarted && !gameOver && timeLeft > 0]. *)
Definition tick (st : Client.t) : Client.t :=
  if Client.gameStarted st && negb (Client.gameOver st) && (0 <? Client.timeLeft st)%Z
  then if (Client.timeLeft st <=? 1)%Z
       then Game.setTimeLeft 0 (Game.setGameOver true st)
       else Game.setTimeLeft (Client.timeLeft st - 1) st
  else st.

(** [handleGuess(index)] *)
Definition handleGuess (index : Z) (st : Client.t) : Client.t :=
  if (Client.selectedIndex st =? -1)%Z && negb (Client.revealed st) then
    let st := Client.setSelectedIndex index st in
    let st := Client.setRevealed true st in
    let st := Game.setAttempts (Client.attempts st + 1) st in
    if (index =? Client.correctIndex st)%Z
    then Game.setScore (Client.score st + 1) st
    else st
  else st.

(** [handleStartGame]: the reset, then [fetchGossip(topic)] when there
    is a topic. *)
Definition handleStartGame (reply : Completion Response) (now : Z) (st : Client.t)
    : Client.t :=
  let st := Client.setGameStarted true st in
  let st := Game.setScore 0 st in
  let st := Game.setAttempts 0 st in
  let st := Game.setTimeLeft roundSeconds st in
  let st := Game.setGameOver false st in
  if truthy (Client.topic st) then fetchGossip reply now st else st.

(** [handleNextGossip] *)
Definition handleNextGossip (reply : Completion Response) (now : Z) (st : Client.t)
    : Client.t :=
  if truthy (Client.topic st) then fetchGossip reply now st else st.

(** [s.padStart(2, '0')] *)
Definition padStart2 (s : string) : string :=
  match String.length s with
  | O => "00"
  | S O => "0" ++ s
  | _ => s
  end.

(** [formatTime(seconds)]: [Math.floor(seconds / 60)] and [seconds % 60]. *)
Definition formatTime (seconds : Z) : string :=
  showZ (seconds / 60) ++ ":" ++ padStart2 (showZ (Z.rem seconds 60)).

(** [Math.round(x)] *)
Definition Math_round (x : Q) : Z := Qfloor (x + (1 # 2)).

(** [attempts > 0 ? Math.round((score / attempts) * 100) : 0], the
    accuracy shown by the game-over screen of the older component. *)
Definition accuracy (score attempts : Z) : Z :=
  if (0 <? attempts)%Z
  then Math_round (inject_Z score / inject_Z attempts * 100)
  else 0%Z.

(** What can happen to the mounted component. *)
Inductive Event : Type :=
| Tick
| Guess (index : Z)
| StartGame (reply : Completion Response) (now : Z)
| NextGossip (reply : Completion Response) (now : Z).

Definition step (st : Client.t) (ev : Event) : Client.t :=
  match ev with
  | Tick => tick st
  | Guess index => handleGuess index st
  | StartGame reply now => handleStartGame reply now st
  | NextGossip reply now => handleNextGossip reply now st
  end.

Definition run (events : list Event) (st : Client.t) : Client.t :=
  fold_left step events st.

(** What the game keeps true of its counters. *)
Definition gameInvariant (st : Client.t) : Prop :=
  (0 <= Client.score st <= Client.attempts st)%Z
  /\ (0 <= Client.timeLeft st <= roundSeconds)%Z
  /\ (Client.gameOver st = true -> Client.timeLeft st = 0%Z).

(** ** Further readings of the model *)

(** The keys of a list do not increase from left to right. *)
Fixpoint descending {A} (key : A -> number) (xs : list A) : Prop :=
  match xs with
  | [] => True
  | x :: rest =>
      match rest with
      | [] => True
      | y :: _ => (key y <= key x)%Q
      end /\ descending key rest
  end.

(** A string without the character [c]. *)
Fixpoint lacksChar (c : ascii) (s : string) : Prop :=
  match s with
  | EmptyString => True
  | String a t => a <> c /\ lacksChar c t
  end.

(** A gossip forum request of [searchReddit] throws. *)
Definition someForumThrows (net : Network) (query : string) (range : TimeRange) : Prop :=
  exists sub e, In sub gossipSubreddits /\ searchSubreddit net sub query range = FetchThrows e.

(** A network in which the request to the forum "popheads" throws and
    every other forum search finds [rumorPost]. *)
Definition brokenNet : Network :=
  mkNetwork (fun sub _ _ => if String.eqb sub "popheads"
                            then FetchThrows (TypeError "fetch failed")
                            else FetchOk [rumorPost])
            (fun _ _ _ => FetchOk [plainPost])
            (fun _ => FetchOk [rumorPost])
            (fun _ => FetchOk [])
            (FetchOk [])
            (FetchOk None)
            (fun _ => Resolves 20 []).

(** What [generateFakeGossip] makes of the choices of a reply that came
    in time. *)
Definition storyOfChoices (topic : string) (choices : list (option string)) : string :=
  match choices with
  | [] => fallbackGossip topic
  | Some text :: _ => if truthy (trim text) then trim text else "Failed to generate a story"
  | None :: _ => "Failed to generate a story"
  end.

(** The score that [generateStories] gives a post when the clock shows
    [now]. *)
Definition scoreInStories (now : Z) (p : Ranked.t) : number :=
  scoreAtAge (Ranked.post p) (asComments (Ranked.topComments p))
             (ageHours now (Post.created_utc (Ranked.post p))).

(** The response of [/api/reddit] to the topic "taylor" on the sample
    network when the draw is 1/4: the real story comes second. *)
Definition realSecondResponse : Response :=
  match fst (GET quickNet (mkRequest (Some "taylor") NoParam) (mkWorld 0 [1 # 4])) with
  | Normal r => r
  | Throw _ => mkResponse 0 Payload.empty
  end.

(** A component that mounted with one stored entry, made at time 0. *)
Definition returningClient : Client.t :=
  initEffect 100 (Client.initial "taylor" (StoredItems [StoryItem.mk "popheads_old" 0])).

(** A network whose searches find nothing for the last day and
    [rumorPost] for the last week and month. *)
Definition quietDayNet : Network :=
  mkNetwork (fun _ _ range => match range with
                              | day => FetchOk []
                              | _ => FetchOk [rumorPost]
                              end)
            (fun _ range _ => match range with
                              | day => FetchOk []
                              | _ => FetchOk [rumorPost]
                              end)
            (fun _ => FetchOk [rumorPost])
            (fun _ => FetchOk [])
            (FetchOk [])
            (FetchOk None)
            (fun _ => Resolves 20 []).

(** The message of the error that [fetchRedditPosts] throws when it has
    no posts. *)
Definition noPostsFound (topic mainSubject : string) : string :=
  "No posts found for " ++ dquote ++ topic ++ dquote
  ++ " or " ++ dquote ++ mainSubject ++ dquote.

(** The parsed values on which the de-duplication step throws: [null],
    whose [length] cannot be read, and an object whose [length] compares
    above 0, which has no [includes] to call. *)
Definition breaksDeduplication (recentStoryIds : Recent) : bool :=
  match recentStoryIds with
  | RecentNull => true
  | RecentObject above => above
  | _ => false
  end.

(** * Properties *)

(** ** Strings *)

Lemma startsWith_spec (p s : string) :
  startsWith p s = true <-> exists rest, s = p ++ rest.
Proof.
  revert s. induction p as [| a p IH]; intros s; simpl.
  - split; [intros _; exists s; reflexivity | reflexivity].
  - destruct s as [| b s].
    + split; [discriminate | intros [rest H]; discriminate].
    + rewrite andb_true_iff, Ascii.eqb_eq, IH. split.
      * intros [-> [rest ->]]. exists rest. reflexivity.
      * intros [rest H]. injection H as -> ->. split; [reflexivity | exists rest; reflexivity].
Qed.

Lemma includes_spec (s needle : string) :
  includes s needle = true <-> occursIn needle s.
Proof.
  unfold occursIn. induction s as [| c s IH].
  - simpl. rewrite orb_false_r, startsWith_spec. split.
    + intros [rest H]. exists EmptyString, rest. exact H.
    + intros [before [after H]]. destruct before; [| discriminate].
      exists after. exact H.
  - cbn [includes]. rewrite orb_true_iff, startsWith_spec, IH. split.
    + intros [[rest H] | [before [after H]]].
      * exists EmptyString, rest. exact H.
      * exists (String c before), after. simpl. rewrite H. reflexivity.
    + intros [before [after H]]. destruct before as [| b before].
      * left. exists after. exact H.
      * right. simpl in H. injection H as _ H. exists before, after. exact H.
Qed.

Lemma includes_false_spec (s needle : string) :
  includes s needle = false <-> ~ occursIn needle s.
Proof.
  rewrite <- includes_spec. destruct (includes s needle); split; intros H;
    try reflexivity; try discriminate; try (intros Hc; discriminate).
  exfalso. apply H. reflexivity.
Qed.

Lemma existsb_includes_spec (content : string) (needles : list string) :
  existsb (fun needle => includes content needle) needles = true
  <-> exists needle, In needle needles /\ occursIn needle content.
Proof.
  rewrite existsb_exists. split; intros [x [Hin H]]; exists x; split; auto;
    apply includes_spec; exact H.
Qed.

Lemma split_nonempty (sep : ascii) (s : string) : split sep s <> [].
Proof.
  destruct s as [| c s]; simpl; [discriminate |].
  destruct (Ascii.eqb c sep); [discriminate |].
  destruct (split sep s); discriminate.
Qed.

Example split_double_space : split space "a  b" = ["a"; ""; "b"].
Proof. reflexivity. Qed.

Example split_empty : split space "" = [""].
Proof. reflexivity. Qed.

Example splitSentences_runs :
  splitSentences "Hello. World!? x" = ["Hello"; " World"; " x"].
Proof. reflexivity. Qed.

Example splitOn_blank_line :
  splitOn (newline ++ newline) 0 ("one" ++ newline ++ newline ++ "two") = ["one"; "two"].
Proof. reflexivity. Qed.

Example trim_both_ends : trim "  a b  " = "a b".
Proof. reflexivity. Qed.

Example includes_is_case_sensitive :
  includes "Taylor Swift" "taylor" = false
  /\ includes (toLowerCase "Taylor Swift") "taylor" = true.
Proof. split; reflexivity. Qed.

(** ** [extractMainSubject] *)

Example extractMainSubject_known_figure :
  extractMainSubject "Taylor swift news" = Normal "taylor swift".
Proof. reflexivity. Qed.

Example extractMainSubject_proper_nouns :
  extractMainSubject "Hello World foo" = Normal "Hello World".
Proof. reflexivity. Qed.

Example extractMainSubject_first_words :
  extractMainSubject "hello world foo" = Normal "hello world".
Proof. reflexivity. Qed.

Lemma startsUpper_empty :
  exists msg, startsUpper EmptyString = Throw (TypeError msg).
Proof. eexists. reflexivity. Qed.

Lemma startsUpper_cases (word : string) :
  (exists b, startsUpper word = Normal b) \/ word = EmptyString.
Proof.
  destruct word as [| c word]; [right; reflexivity | left].
  eexists. reflexivity.
Qed.

Lemma filterC_startsUpper_throws (words : list string) :
  In EmptyString words ->
  filterC startsUpper words = Throw (TypeError
    "Cannot read properties of undefined (reading 'toUpperCase')").
Proof.
  induction words as [| word words IH]; intros Hin; [contradiction |].
  destruct word as [| c word].
  - reflexivity.
  - destruct Hin as [Hc | Hin]; [discriminate |].
    cbn [filterC]. unfold startsUpper at 1. cbn [charAt0 String.get bindC].
    rewrite (IH Hin). reflexivity.
Qed.

Lemma find_none_of_absent (topic : string) :
  (forall figure, In figure knownFigures -> ~ occursIn figure (toLowerCase topic)) ->
  find (fun figure => includes (toLowerCase topic) figure) knownFigures = None.
Proof.
  intros H. generalize dependent knownFigures. intros figures.
  induction figures as [| f figures IH]; intros H; [reflexivity |].
  simpl. destruct (includes (toLowerCase topic) f) eqn:E.
  - exfalso. apply (H f); [left; reflexivity | apply includes_spec; exact E].
  - apply IH. intros g Hg. apply H. right. exact Hg.
Qed.

(** C10. [extractMainSubject] is not total.  Whenever the topic contains
    none of the known figures and splitting it on single spaces gives an
    empty word (two spaces in a row, a space at either end), the filter
    for proper nouns reads [word[0].toUpperCase()] off [undefined] and the
    function throws a TypeError instead of returning a subject. *)
Theorem extractMainSubject_throws_on_empty_word (topic : string) :
  (forall figure, In figure knownFigures -> ~ occursIn figure (toLowerCase topic)) ->
  In EmptyString (split space topic) ->
  exists msg, extractMainSubject topic = Throw (TypeError msg).
Proof.
  intros Hfig Hempty. unfold extractMainSubject.
  rewrite (find_none_of_absent topic Hfig).
  rewrite (filterC_startsUpper_throws _ Hempty).
  eexists. reflexivity.
Qed.

(** A topic with two spaces in a row. *)
Lemma extractMainSubject_throws_witness :
  exists msg, extractMainSubject "a  b" = Throw (TypeError msg).
Proof.
  apply (extractMainSubject_throws_on_empty_word "a  b").
  - intros figure Hin. apply includes_false_spec.
    simpl in Hin.
    repeat (destruct Hin as [<- | Hin]; [reflexivity |]).
    contradiction.
  - simpl. right. left. reflexivity.
Defined.

(** ** The relevance filter *)

Lemma gtOpt_spec (a : option number) (b : number) :
  gtOpt a b = true <-> exists n, a = Some n /\ (b < n)%Q.
Proof.
  destruct a as [q |]; simpl.
  - rewrite negb_true_iff. split.
    + intros H. exists q. split; [reflexivity |].
      apply Qnot_le_lt. intros Hle. apply Qle_bool_iff in Hle. congruence.
    + intros [n [Hn Hlt]]. injection Hn as <-.
      destruct (Qle_bool q b) eqn:E; [| reflexivity].
      apply Qle_bool_iff in E. exfalso. exact (Qlt_not_le _ _ Hlt E).
  - split; [discriminate | intros [n [H _]]; discriminate].
Qed.

Lemma hasSearchTerms_spec (query : string) (post : Post.t) :
  hasSearchTerms query post = true <-> containsQueryToken query post.
Proof. apply existsb_includes_spec. Qed.

Lemma hasGossipIndicators_spec (post : Post.t) :
  hasGossipIndicators post = true <-> containsGossipKeyword post.
Proof. apply existsb_includes_spec. Qed.

Lemma hasSubstantialContent_spec (post : Post.t) :
  hasSubstantialContent post = true <-> isSubstantial post.
Proof.
  unfold hasSubstantialContent, isSubstantial.
  rewrite orb_true_iff, gtOpt_spec.
  destruct (Post.selftext post) as [t |].
  - rewrite Nat.ltb_lt. split.
    + intros [H | H]; [left; exists t; split; [reflexivity | exact H] | right; exact H].
    + intros [[t' [Ht H]] | H]; [left; injection Ht as <-; exact H | right; exact H].
  - split.
    + intros [H | H]; [discriminate | right; exact H].
    + intros [[t' [Ht _]] | H]; [discriminate | right; exact H].
Qed.

Lemma isRelevant_spec : implementsRelevance isRelevant.
Proof.
  intros query post. unfold isRelevant, relevantBySpec.
  rewrite andb_true_iff, orb_true_iff, hasSearchTerms_spec,
    hasGossipIndicators_spec, hasSubstantialContent_spec.
  reflexivity.
Qed.

Lemma searchReddit_sound (net : Network) (query : string) (range : TimeRange) (post : Post.t) :
  In post (searchReddit net query range) -> isRelevant query post = true.
Proof.
  unfold searchReddit. destruct (gatherPosts net query range); [| contradiction].
  intros H. apply filter_In in H. apply H.
Qed.

Lemma searchRedditPlain_sound (net : Network) (query : string) (range : TimeRange)
    (post : Post.t) :
  In post (searchRedditPlain net query range) -> isRelevantPlain query post = true.
Proof.
  unfold searchRedditPlain. destruct (searchAll net query range 15); try contradiction.
  intros H. apply filter_In in H. apply H.
Qed.

Lemma plainPost_not_relevantBySpec : ~ relevantBySpec "taylor" plainPost.
Proof.
  intros [_ [Hk | Hs]].
  - apply hasGossipIndicators_spec in Hk. discriminate.
  - apply hasSubstantialContent_spec in Hs. discriminate.
Qed.

(** C5, as stated, fails on the filter of
    [src/app/api/reddit/route.ts]: the post titled "taylor", with no body
    and no comments, passes that filter for the query "taylor", and it has
    neither a gossip keyword nor substantial content. *)
Lemma relevance_plain_counterexample : ~ implementsRelevance isRelevantPlain.
Proof.
  intros H. apply plainPost_not_relevantBySpec. apply H. reflexivity.
Qed.

(** C5, amended.  In the revision that searches the gossip forums a
    fetched post passes the filter of [searchReddit] exactly when its
    lowercased title and body contain a token of the lowercased query and,
    besides, a gossip keyword or substantial content (a body of more than
    100 characters or more than 10 comments).  In
    [src/app/api/reddit/route.ts] it passes exactly when it contains a token
    of the query.  In both, a post that contains no token of the query is
    not in the result of [searchReddit]. *)
Theorem relevance_filter_by_revision :
  implementsRelevance isRelevant
  /\ (forall query post,
        isRelevantPlain query post = true <-> containsQueryToken query post)
  /\ (forall net query range post,
        In post (searchReddit net query range) -> relevantBySpec query post)
  /\ (forall net query range post,
        ~ containsQueryToken query post ->
        ~ In post (searchReddit net query range)
        /\ ~ In post (searchRedditPlain net query range)).
Proof.
  split; [exact isRelevant_spec |].
  split; [intros query post; apply hasSearchTerms_spec |].
  split.
  - intros net query range post H. apply isRelevant_spec.
    exact (searchReddit_sound _ _ _ _ H).
  - intros net query range post Hno. split; intros Hin; apply Hno.
    + apply searchReddit_sound in Hin. apply isRelevant_spec in Hin. apply Hin.
    + apply searchRedditPlain_sound in Hin. apply hasSearchTerms_spec. exact Hin.
Qed.

(** The post titled "taylor" is in no result for the query "drake". *)
Lemma relevance_filter_witness :
  ~ In plainPost (searchReddit quickNet "drake" day)
  /\ ~ In plainPost (searchRedditPlain quickNet "drake" day).
Proof.
  apply (proj2 (proj2 (proj2 relevance_filter_by_revision))).
  intros H. apply hasSearchTerms_spec in H. discriminate.
Defined.

(** ** The engagement score *)

Lemma orZero_Some (q : number) : (orZero (Some q) == q)%Q.
Proof.
  simpl. destruct (Qeq_bool q 0) eqn:E; [| reflexivity].
  apply Qeq_bool_eq in E. symmetry. exact E.
Qed.

Lemma orZero_monotone (a b : number) :
  (a <= b)%Q -> (orZero (Some a) <= orZero (Some b))%Q.
Proof. intros H. rewrite !orZero_Some. exact H. Qed.

Lemma calculateEngagementScore_returns (post : Post.t) (comments : list Comment) (w : World) :
  calculateEngagementScore post comments w
  = (Normal (scoreAtAge post comments (ageHours (clock w) (Post.created_utc post))), w).
Proof. reflexivity. Qed.

Lemma scoreAtAge_monotone (post : Post.t) (comments : list Comment) (age : number)
    (score1 score2 : number) :
  (score1 <= score2)%Q ->
  (scoreAtAge (Post.withScore post (Some score1)) comments age
   <= scoreAtAge (Post.withScore post (Some score2)) comments age)%Q.
Proof.
  intros H. apply orZero_monotone in H.
  unfold scoreAtAge, scoreComponents, sumQ. cbn [fold_left].
  cbn [Post.withScore Post.score Post.num_comments Post.upvote_ratio
       Post.total_awards_received Post.created_utc].
  set (a := orZero (Some score1)) in *. set (b := orZero (Some score2)) in *.
  clearbody a b. lra.
Qed.

Lemma plainScore_monotone (post : Post.t) (comments : list Comment) (score1 score2 : number) :
  (score1 <= score2)%Q ->
  (calculateEngagementScorePlain (Post.withScore post (Some score1)) comments
   <= calculateEngagementScorePlain (Post.withScore post (Some score2)) comments)%Q.
Proof.
  intros H. apply orZero_monotone in H.
  unfold calculateEngagementScorePlain.
  cbn [Post.withScore Post.score Post.num_comments Post.controversiality].
  set (a := orZero (Some score1)) in *. set (b := orZero (Some score2)) in *.
  clearbody a b. lra.
Qed.

(** C6.  With the comments, the clock and every field of the post other
    than the vote count held fixed, [calculateEngagementScore] returns, and
    what it returns does not decrease when the vote count grows; this holds
    for the revision with the freshness term and for the one of
    [src/app/api/reddit/route.ts]. *)
Theorem engagement_monotone_in_votes (post : Post.t) (comments : list Comment) (w : World)
    (score1 score2 : number) :
  (score1 <= score2)%Q ->
  (exists v1 v2,
      calculateEngagementScore (Post.withScore post (Some score1)) comments w = (Normal v1, w)
      /\ calculateEngagementScore (Post.withScore post (Some score2)) comments w = (Normal v2, w)
      /\ (v1 <= v2)%Q)
  /\ (calculateEngagementScorePlain (Post.withScore post (Some score1)) comments
      <= calculateEngagementScorePlain (Post.withScore post (Some score2)) comments)%Q.
Proof.
  intros H. split.
  - eexists. eexists. rewrite !calculateEngagementScore_returns.
    split; [reflexivity |]. split; [reflexivity |].
    apply scoreAtAge_monotone. exact H.
  - apply plainScore_monotone. exact H.
Qed.

(** The sample post with 10 votes and with 25 votes, one hour after it
    was created. *)
Lemma engagement_monotone_witness :
  (exists v1 v2,
      calculateEngagementScore (Post.withScore rumorPost (Some 10%Q)) [] (mkWorld 3600000 [])
      = (Normal v1, mkWorld 3600000 [])
      /\ calculateEngagementScore (Post.withScore rumorPost (Some 25%Q)) [] (mkWorld 3600000 [])
         = (Normal v2, mkWorld 3600000 [])
      /\ (v1 <= v2)%Q)
  /\ (calculateEngagementScorePlain (Post.withScore rumorPost (Some 10%Q)) []
      <= calculateEngagementScorePlain (Post.withScore rumorPost (Some 25%Q)) [])%Q.
Proof.
  apply (engagement_monotone_in_votes rumorPost [] (mkWorld 3600000 []) 10 25).
  unfold Qle. simpl. lia.
Defined.

Lemma freshness_exhausted (age : number) :
  (100 <= age)%Q -> (Qmax 0 (100 - age) == 0)%Q.
Proof. intros H. apply Q.max_l. lra. Qed.

Lemma scoreAtAge_old (post : Post.t) (comments : list Comment) (age1 age2 : number) :
  (100 <= age1)%Q -> (100 <= age2)%Q ->
  (scoreAtAge post comments age1 == scoreAtAge post comments age2)%Q.
Proof.
  intros H1 H2. apply freshness_exhausted in H1. apply freshness_exhausted in H2.
  unfold scoreAtAge, scoreComponents, sumQ. cbn [fold_left].
  set (f1 := Qmax 0 (100 - age1)) in *. set (f2 := Qmax 0 (100 - age2)) in *.
  clearbody f1 f2. lra.
Qed.

(** C7, as stated, fails: the freshness term reads the clock.
    The sample post, created at time 0, scores 200 points of freshness when
    the clock shows 0 and 180 when it shows ten hours. *)
Lemma engagement_reads_clock_counterexample : ~ engagementIgnoresWorld.
Proof.
  intros H.
  specialize (H rumorPost [] (mkWorld 0 []) (mkWorld 36000000 [])).
  vm_compute in H. discriminate H.
Qed.

(** C7, amended.  [calculateEngagementScore] always returns and leaves
    the world as it found it (no side effect); its value is determined by
    the post, the comments and the reading of the clock: two calls with the
    same arguments return the same value when the clock shows the same
    time, and also whenever the post is at least 100 hours old at both
    calls (the freshness term is then 0). *)
Theorem engagement_depends_on_clock_only (post : Post.t) (comments : list Comment)
    (w1 w2 : World) :
  snd (calculateEngagementScore post comments w1) = w1
  /\ (exists v, fst (calculateEngagementScore post comments w1) = Normal v)
  /\ (clock w1 = clock w2 ->
      fst (calculateEngagementScore post comments w1)
      = fst (calculateEngagementScore post comments w2))
  /\ ((100 <= ageHours (clock w1) (Post.created_utc post))%Q ->
      (100 <= ageHours (clock w2) (Post.created_utc post))%Q ->
      sameOutcome (fst (calculateEngagementScore post comments w1))
                  (fst (calculateEngagementScore post comments w2))).
Proof.
  rewrite !calculateEngagementScore_returns. cbn [fst snd].
  split; [reflexivity |]. split; [eexists; reflexivity |]. split.
  - intros ->. reflexivity.
  - intros H1 H2. cbn [sameOutcome]. apply scoreAtAge_old; assumption.
Qed.

(** The sample post 400 hours and 500 hours after it was created. *)
Lemma engagement_depends_on_clock_witness :
  sameOutcome
    (fst (calculateEngagementScore rumorPost [] (mkWorld 1440000000 [])))
    (fst (calculateEngagementScore rumorPost [] (mkWorld 1800000000 [1 # 2]))).
Proof.
  apply (proj2 (proj2 (proj2
           (engagement_depends_on_clock_only rumorPost []
              (mkWorld 1440000000 []) (mkWorld 1800000000 [1 # 2]))))).
  - vm_compute. discriminate.
  - vm_compute. discriminate.
Defined.

(** ** The shuffle *)

Lemma Qfloor_unique (x : Q) (z : Z) :
  (inject_Z z <= x)%Q -> (x < inject_Z (z + 1))%Q -> Qfloor x = z.
Proof.
  intros Hlo Hhi.
  pose proof (Qfloor_le x) as Hfl. pose proof (Qlt_floor x) as Hfu.
  assert (H1 : (inject_Z (Qfloor x) < inject_Z (z + 1))%Q) by (eapply Qle_lt_trans; eassumption).
  assert (H2 : (inject_Z z < inject_Z (Qfloor x + 1))%Q) by (eapply Qle_lt_trans; eassumption).
  rewrite <- Zlt_Qlt in H1, H2. lia.
Qed.

Lemma randomIndex_low (r : Q) :
  (0 <= r)%Q -> (r < 1 # 2)%Q -> randomIndex r 1 = 0%nat.
Proof.
  intros H0 H1. unfold randomIndex.
  rewrite (Qfloor_unique (r * inject_Z (Z.of_nat (1 + 1))) 0); [reflexivity | |];
    cbn [Nat.add Z.of_nat]; unfold inject_Z; simpl; lra.
Qed.

Lemma randomIndex_high (r : Q) :
  (1 # 2 <= r)%Q -> (r < 1)%Q -> randomIndex r 1 = 1%nat.
Proof.
  intros H0 H1. unfold randomIndex.
  rewrite (Qfloor_unique (r * inject_Z (Z.of_nat (1 + 1))) 1); [reflexivity | |];
    cbn [Nat.add Z.of_nat]; unfold inject_Z; simpl; lra.
Qed.

Lemma randomIndex_two (r : Q) :
  validDraw r ->
  (randomIndex r 1 = 0%nat <-> (r < 1 # 2)%Q)
  /\ (randomIndex r 1 = 1%nat <-> (1 # 2 <= r)%Q).
Proof.
  intros [H0 H1]. destruct (Qlt_le_dec r (1 # 2)) as [Hlt | Hge].
  - rewrite (randomIndex_low r H0 Hlt). split; split; intros H; try assumption;
      try reflexivity; try discriminate. lra.
  - rewrite (randomIndex_high r Hge H1). split; split; intros H; try assumption;
      try reflexivity; try discriminate. lra.
Qed.

Lemma shuffleArray_two {T} (a b : T) (r : Q) (now : Z) (rest : list Q) :
  shuffleArray [a; b] (mkWorld now (r :: rest))
  = (Normal (shuffleStep 1 (randomIndex r 1) [a; b]), mkWorld now rest).
Proof. reflexivity. Qed.

Lemma filter_all {A} (f : A -> bool) (xs : list A) :
  (forall x, In x xs -> f x = true) -> filter f xs = xs.
Proof.
  induction xs as [| x xs IH]; intros H; [reflexivity |].
  simpl. rewrite (H x (or_introl eq_refl)). f_equal. apply IH.
  intros y Hy. apply H. right. exact Hy.
Qed.

Lemma filter_none {A} (f : A -> bool) (xs : list A) :
  (forall x, In x xs -> f x = false) -> filter f xs = [].
Proof.
  induction xs as [| x xs IH]; intros H; [reflexivity |].
  simpl. rewrite (H x (or_introl eq_refl)). apply IH.
  intros y Hy. apply H. right. exact Hy.
Qed.

Lemma Zpos_of_nat (n : nat) : (0 < n)%nat -> Z.pos (Pos.of_nat n) = Z.of_nat n.
Proof.
  destruct n as [| n]; [lia |]. intros _.
  rewrite <- Pos.of_nat_succ, Zpos_P_of_succ_nat. lia.
Qed.

Lemma grid_draw_low (m k : nat) :
  (0 < m)%nat -> (k < m)%nat ->
  randomIndex (Z.of_nat k # Pos.of_nat (m + m)) 1 = 0%nat.
Proof.
  intros Hm Hk. apply randomIndex_low; unfold Qle, Qlt; simpl; [lia |].
  rewrite Zpos_of_nat by lia. lia.
Qed.

Lemma grid_draw_high (m k : nat) :
  (0 < m)%nat -> (m <= k)%nat -> (k < m + m)%nat ->
  randomIndex (Z.of_nat k # Pos.of_nat (m + m)) 1 = 1%nat.
Proof.
  intros Hm Hk Hk2. apply randomIndex_high; unfold Qle, Qlt; simpl;
    rewrite ?Zpos_of_nat by lia; lia.
Qed.

Lemma drawsPicking_half (m : nat) :
  (0 < m)%nat ->
  drawsPicking 0 (drawsOnGrid (m + m)) = m /\ drawsPicking 1 (drawsOnGrid (m + m)) = m.
Proof.
  intros Hm. unfold drawsPicking, drawsOnGrid.
  rewrite seq_app, map_app, !filter_app, !length_app. cbn [Nat.add].
  split.
  - rewrite filter_all, filter_none.
    + rewrite !length_map, length_seq. simpl. lia.
    + intros r Hr. apply in_map_iff in Hr. destruct Hr as [k [<- Hk]].
      apply in_seq in Hk. rewrite (grid_draw_high m k) by lia. reflexivity.
    + intros r Hr. apply in_map_iff in Hr. destruct Hr as [k [<- Hk]].
      apply in_seq in Hk. rewrite (grid_draw_low m k) by lia. reflexivity.
  - rewrite filter_none, filter_all.
    + rewrite !length_map, length_seq. simpl. lia.
    + intros r Hr. apply in_map_iff in Hr. destruct Hr as [k [<- Hk]].
      apply in_seq in Hk. rewrite (grid_draw_high m k) by lia. reflexivity.
    + intros r Hr. apply in_map_iff in Hr. destruct Hr as [k [<- Hk]].
      apply in_seq in Hk. rewrite (grid_draw_low m k) by lia. reflexivity.
Qed.

(** C3.  On a list of two elements [shuffleArray] runs its loop once, at
    [i = 1], with [j = Math.floor(Math.random() * 2)].  The index [j = 0]
    swaps the two elements and [j = 1] leaves them in place, so for two
    different elements each of the two orderings comes from exactly one
    [j].  A draw [r] of [[0, 1)] gives [j = 0] exactly when [r < 1/2] and
    [j = 1] exactly when [1/2 <= r]: the two orderings come from the halves
    [[0, 1/2)] and [[1/2, 1)] of the unit interval, and on every grid of
    [2m] equally likely draws each ordering comes from exactly [m] of
    them.  Each call consumes a draw of its own. *)
Theorem shuffle_two_uniform {T} (a b : T) :
  shuffleStep 1 0 [a; b] = [b; a]
  /\ shuffleStep 1 1 [a; b] = [a; b]
  /\ (a <> b ->
      forall j, (j < 2)%nat ->
        (shuffleStep 1 j [a; b] = [b; a] <-> j = 0%nat)
        /\ (shuffleStep 1 j [a; b] = [a; b] <-> j = 1%nat))
  /\ (forall r now rest,
        validDraw r ->
        exists j, (j < 2)%nat
          /\ shuffleArray [a; b] (mkWorld now (r :: rest))
             = (Normal (shuffleStep 1 j [a; b]), mkWorld now rest)
          /\ (j = 0%nat <-> (r < 1 # 2)%Q)
          /\ (j = 1%nat <-> (1 # 2 <= r)%Q))
  /\ (forall m, (0 < m)%nat ->
        drawsPicking 0 (drawsOnGrid (m + m)) = m
        /\ drawsPicking 1 (drawsOnGrid (m + m)) = m).
Proof.
  split; [reflexivity |]. split; [reflexivity |]. split; [| split].
  - intros Hab j Hj.
    destruct j as [| [| j]]; [| | lia]; cbn; split; split; intros H;
      try reflexivity; try discriminate; try lia;
      exfalso; apply Hab; congruence.
  - intros r now rest Hr. exists (randomIndex r 1).
    destruct (randomIndex_two r Hr) as [Hlow Hhigh].
    split; [| split; [apply shuffleArray_two | split; assumption]].
    destruct Hr as [H0 H1]. destruct (Qlt_le_dec r (1 # 2)) as [Hlt | Hge].
    + rewrite (randomIndex_low r H0 Hlt). lia.
    + rewrite (randomIndex_high r Hge H1). lia.
  - exact drawsPicking_half.
Qed.

(** The draw 1/4 swaps the list [[1; 2]]; of the four draws 0, 1/4, 1/2
    and 3/4, two pick each index. *)
Lemma shuffle_two_uniform_witness :
  (exists j, (j < 2)%nat
     /\ shuffleArray [1%nat; 2%nat] (mkWorld 0 [1 # 4])
        = (Normal (shuffleStep 1 j [1%nat; 2%nat]), mkWorld 0 [])
     /\ (j = 0%nat <-> (1 # 4 < 1 # 2)%Q)
     /\ (j = 1%nat <-> (1 # 2 <= 1 # 4)%Q))
  /\ (shuffleStep 1 1 [1%nat; 2%nat] = [2%nat; 1%nat] <-> 1%nat = 0%nat)
  /\ drawsPicking 0 (drawsOnGrid 4) = 2%nat.
Proof.
  destruct (shuffle_two_uniform 1%nat 2%nat) as [_ [_ [Hj [Hr Hg]]]].
  split; [| split].
  - apply (Hr (1 # 4) 0%Z []). split; unfold Qle, Qlt; simpl; lia.
  - apply (Hj ltac:(discriminate) 1%nat ltac:(lia)).
  - apply (Hg 2%nat). lia.
Defined.

(** The shuffle of [/api/gossip] on two stories: one comparison, and
    the second element moves to the front exactly when the draw is below
    1/2. *)
Lemma sortRandom_two {A} (a b : A) (r : Q) (now : Z) (rest : list Q) :
  sortRandom [a; b] (mkWorld now (r :: rest))
  = (Normal (if Qle_bool 0 (r - (1 # 2)) then [a; b] else [b; a]), mkWorld now rest).
Proof.
  unfold sortRandom, orderNegative, bind, Math_random, ret.
  cbn [entropy clock].
  destruct (Qle_bool 0 (r - (1 # 2))); reflexivity.
Qed.

(** ** The fabrication and its fallback *)

Lemma awaitRace_fails (net : Network) (req : ChatRequest) :
  apiFails (chat net req) -> exists e, awaitRace net req = Throw e.
Proof.
  unfold awaitRace, race, apiFails. destruct (chat net req) as [t choices | t e].
  - intros H. apply Z.ltb_ge in H. rewrite H. eexists. reflexivity.
  - intros _. destruct (t <? timeoutMs)%Z; eexists; reflexivity.
Qed.

Lemma requestFakeGossip_fails (net : Network) (req : ChatRequest) :
  apiFails (chat net req) -> exists e, requestFakeGossip net req = Throw e.
Proof.
  intros H. destruct (awaitRace_fails net req H) as [e He].
  exists e. unfold requestFakeGossip. rewrite He. reflexivity.
Qed.

Lemma generateFakeGossip_total (net : Network) (realGossip topic : string)
    (topComments : list string) (isPartialMatch : bool) :
  exists fake, generateFakeGossip net realGossip topic topComments isPartialMatch = Normal fake.
Proof.
  unfold generateFakeGossip, tryCatch.
  destruct (requestFakeGossip _ _); eexists; reflexivity.
Qed.

Lemma generateFakeGossipPlain_total (net : Network) (realGossip topic : string)
    (topComments : list string) (isPartialMatch : bool) :
  exists fake,
    generateFakeGossipPlain net realGossip topic topComments isPartialMatch = Normal fake.
Proof.
  unfold generateFakeGossipPlain, tryCatch.
  destruct (requestFakeGossip _ _); eexists; reflexivity.
Qed.

Lemma generateFakeGossip_fallback (net : Network) (realGossip topic : string)
    (topComments : list string) (isPartialMatch : bool) :
  (forall req, apiFails (chat net req)) ->
  generateFakeGossip net realGossip topic topComments isPartialMatch
  = Normal (fallbackGossip topic)
  /\ generateFakeGossipPlain net realGossip topic topComments isPartialMatch
     = Normal (fallbackGossip topic).
Proof.
  intros H. unfold generateFakeGossip, generateFakeGossipPlain, tryCatch. split.
  - destruct (requestFakeGossip_fails net _ (H (mkChat fakeSystemPrompt
      (fakeGossipPrompt realGossip topic topComments isPartialMatch) 300))) as [e ->].
    reflexivity.
  - destruct (requestFakeGossip_fails net _ (H (mkChat fakeSystemPromptPlain
      (fakeGossipPromptPlain realGossip topic topComments isPartialMatch) 200))) as [e ->].
    reflexivity.
Qed.

Lemma fallbackGossip_mentions_topic (topic : string) :
  occursIn topic (fallbackGossip topic).
Proof. unfold occursIn, fallbackGossip. eexists. eexists. reflexivity. Qed.

(** ** Ranking and shuffling inside [generateStories] *)

Lemma mapM_scorePost (posts : list Ranked.t) (w : World) :
  mapM scorePost posts w
  = (Normal (map (fun p => (p, scoreAtAge (Ranked.post p) (asComments (Ranked.topComments p))
                                 (ageHours (clock w) (Post.created_utc (Ranked.post p)))))
                 posts), w).
Proof.
  induction posts as [| p posts IH]; [reflexivity |].
  cbn [mapM map]. unfold bind at 1. unfold scorePost at 1. unfold bind at 1.
  rewrite calculateEngagementScore_returns. unfold ret at 1.
  unfold bind at 1. rewrite IH. reflexivity.
Qed.

Lemma insertDesc_In {A} (key : A -> number) (x y : A) (xs : list A) :
  In y (insertDesc key x xs) <-> y = x \/ In y xs.
Proof.
  induction xs as [| z xs IH]; simpl.
  - intuition.
  - destruct (Qle_bool (key z) (key x)); simpl; [intuition |].
    rewrite IH. intuition.
Qed.

Lemma sortDesc_In {A} (key : A -> number) (y : A) (xs : list A) :
  In y (sortDesc key xs) <-> In y xs.
Proof.
  induction xs as [| x xs IH]; simpl; [reflexivity |].
  unfold sortDesc in *. cbn [fold_right]. rewrite insertDesc_In, IH. intuition.
Qed.

Lemma sortDesc_head {A} (key : A -> number) (xs : list A) :
  match hd_error (sortDesc key xs) with
  | Some best => In best xs
  | None => xs = []
  end.
Proof.
  destruct (sortDesc key xs) as [| best rest] eqn:E; cbn [hd_error].
  - destruct xs as [| x xs]; [reflexivity |].
    assert (H : In x (sortDesc key (x :: xs))) by (apply sortDesc_In; left; reflexivity).
    rewrite E in H. contradiction.
  - apply (sortDesc_In key). rewrite E. left. reflexivity.
Qed.

Lemma swap_pair {T} (a b : T) (j : nat) :
  swap 1 j [a; b] = [a; b] \/ swap 1 j [a; b] = [b; a].
Proof.
  destruct j as [| [| j]]; cbn; auto.
  destruct j; cbn; auto.
Qed.

Lemma shuffleArray_pair {T} (a b : T) (w : World) :
  exists w', shuffleArray [a; b] w = (Normal [a; b], w')
             \/ shuffleArray [a; b] w = (Normal [b; a], w').
Proof.
  unfold shuffleArray. cbn [length Nat.sub shuffleLoop].
  unfold bind, Math_random, ret, shuffleStep.
  destruct (entropy w) as [| r rest].
  - eexists. destruct (swap_pair a b (randomIndex 0 1)) as [-> | ->]; auto.
  - eexists. destruct (swap_pair a b (randomIndex r 1)) as [-> | ->]; auto.
Qed.

(** ** [generateStories] *)

Lemma seenRecently_spec (recentStoryIds : list string) (id : string) :
  seenRecently recentStoryIds id = true <-> In id recentStoryIds.
Proof.
  unfold seenRecently. rewrite existsb_exists. split.
  - intros [x [Hin Heq]]. apply String.eqb_eq in Heq. subst. exact Hin.
  - intros Hin. exists id. split; [exact Hin | apply String.eqb_refl].
Qed.

Lemma freshPosts_all_seen (posts : list Ranked.t) (recentStoryIds : list string) :
  posts <> [] ->
  (forall p, In p posts -> In (storyIdOf p) recentStoryIds) ->
  freshPosts posts recentStoryIds = [].
Proof.
  intros Hne Hall. unfold freshPosts.
  destruct recentStoryIds as [| id ids].
  - destruct posts as [| p posts]; [contradiction |].
    exfalso. exact (Hall p (or_introl eq_refl)).
  - cbn [length Nat.ltb Nat.leb]. apply filter_none.
    intros p Hp. apply negb_false_iff, seenRecently_spec, Hall, Hp.
Qed.

Lemma freshPosts_subset (posts : list Ranked.t) (recentStoryIds : list string) (p : Ranked.t) :
  In p (freshPosts posts recentStoryIds) -> In p posts.
Proof.
  unfold freshPosts. destruct (0 <? length recentStoryIds)%nat; [| auto].
  intros H. apply filter_In in H. apply H.
Qed.

(** *** The parameter at its declared type *)

Lemma allStrings_spec (items : list (option string)) (ids : list string) :
  allStrings items = Some ids -> items = map Some ids.
Proof.
  revert ids. induction items as [| [s |] rest IH]; intros ids H; cbn [allStrings] in H.
  - injection H as <-. reflexivity.
  - destruct (allStrings rest) as [tail |]; [| discriminate].
    injection H as <-. cbn [map]. f_equal. apply IH. reflexivity.
  - discriminate.
Qed.

Lemma parseRecent_recentOf (rp : RecentParam) (ids : list string) :
  parseRecent rp = Normal ids -> recentOf rp = Normal (RecentArray (map Some ids)).
Proof.
  destruct rp as [| ids0 | [items | text | | | above] |]; cbn [parseRecent recentOf];
    try discriminate.
  - intros H. injection H as <-. reflexivity.
  - intros H. injection H as <-. reflexivity.
  - destruct (allStrings items) as [ids0 |] eqn:E; [| discriminate].
    intros H. injection H as <-. rewrite (allStrings_spec _ _ E). reflexivity.
Qed.

Lemma includesId_ids (ids : list string) (id : string) :
  includesId (RecentArray (map Some ids)) id = Normal (seenRecently ids id).
Proof.
  unfold includesId, seenRecently. f_equal.
  induction ids as [| x rest IH]; [reflexivity |]. cbn [map existsb]. rewrite IH. reflexivity.
Qed.

Lemma freshPostsUntyped_ids (posts : list Ranked.t) (ids : list string) :
  freshPostsUntyped posts (RecentArray (map Some ids)) = Normal (freshPosts posts ids).
Proof.
  unfold freshPostsUntyped, freshPosts. cbn [lengthAboveZero bindC]. rewrite length_map.
  destruct (0 <? length ids)%nat; [| reflexivity].
  induction posts as [| post rest IH]; [reflexivity |].
  cbn [filterC filter]. rewrite includesId_ids. cbn [bindC]. rewrite IH. cbn [bindC].
  destruct (negb (seenRecently ids (storyIdOf post))); reflexivity.
Qed.

Lemma generateStoriesUntyped_ids (net : Network) (posts : list Ranked.t) (topic : string)
    (ids : list string) (w : World) :
  generateStoriesUntyped net posts topic (RecentArray (map Some ids)) w
  = generateStories net posts topic ids w.
Proof.
  unfold generateStoriesUntyped, generateStories, bind, liftC.
  rewrite freshPostsUntyped_ids. reflexivity.
Qed.

Lemma generateStories_none (net : Network) (posts : list Ranked.t) (topic : string)
    (recentStoryIds : list string) (w : World) :
  freshPosts posts recentStoryIds = [] ->
  generateStories net posts topic recentStoryIds w
  = (Normal (Payload.failure (noFreshGossip topic) (Some (getTrendingTopic net)) None), w).
Proof.
  intros H. unfold generateStories, storiesOfFresh. rewrite H. reflexivity.
Qed.

Lemma generateStories_some (net : Network) (posts : list Ranked.t) (topic : string)
    (recentStoryIds : list string) (w : World) :
  freshPosts posts recentStoryIds <> [] ->
  exists best fake shuffled w',
    In best (freshPosts posts recentStoryIds)
    /\ generateFakeGossip net
         (formatRedditGossip (Ranked.post best) (asComments (Ranked.topComments best)))
         topic (Ranked.topComments best) (Ranked.isPartialMatch best) = Normal fake
    /\ (let real := realStoryOf best
                      (formatRedditGossip (Ranked.post best)
                                          (asComments (Ranked.topComments best))) in
        let fakeS := fakeStoryOf best fake topic (clock w) in
        shuffled = [real; fakeS] \/ shuffled = [fakeS; real])
    /\ generateStories net posts topic recentStoryIds w
       = (Normal (Payload.mk None (Some shuffled) (Some (findIndex shuffled))
                             None None None (Some [storyIdOf best]) None None None), w').
Proof.
  intros Hne. unfold generateStories, storiesOfFresh. unfold bind at 1.
  rewrite mapM_scorePost.
  match goal with
  | |- context [hd_error (sortDesc snd ?scored)] =>
      pose proof (sortDesc_head snd scored) as Hhead;
      destruct (hd_error (sortDesc snd scored)) as [[best s] |]
  end.
  - apply in_map_iff in Hhead. destruct Hhead as [p [Hp Hin]]. injection Hp as -> _.
    destruct (generateFakeGossip_total net
                (formatRedditGossip (Ranked.post best) (asComments (Ranked.topComments best)))
                topic (Ranked.topComments best) (Ranked.isPartialMatch best)) as [fake Hfake].
    rewrite Hfake. unfold bind at 1, liftC at 1. unfold bind at 1, Date_now at 1.
    unfold bind at 1.
    destruct (shuffleArray_pair
                (realStoryOf best (formatRedditGossip (Ranked.post best)
                                     (asComments (Ranked.topComments best))))
                (fakeStoryOf best fake topic (clock w)) w) as [w' [Hs | Hs]];
      rewrite Hs; unfold ret;
      eexists best, fake, _, w'; (split; [exact Hin |]); (split; [exact Hfake |]);
      (split; [| reflexivity]); cbn zeta; auto.
  - exfalso. apply Hne. apply map_eq_nil in Hhead. exact Hhead.
Qed.

Lemma twoStories_of_pair (real fake : Story.t) (shuffled : list Story.t)
    (originalTopic mainSubject : option string) (isPartialMatch : option bool)
    (newStoryIds : option (list string)) :
  Story.isReal real = true -> Story.isReal fake = false ->
  shuffled = [real; fake] \/ shuffled = [fake; real] ->
  twoStoriesOneReal
    (Payload.mk None (Some shuffled) (Some (findIndex shuffled)) originalTopic mainSubject
                isPartialMatch newStoryIds None None None).
Proof.
  intros Hr Hf [-> | ->]; unfold twoStoriesOneReal; cbn [Payload.stories Payload.correctIndex].
  - exists real, fake. rewrite Hr, Hf. unfold findIndex. cbn [findIndexFrom]. rewrite Hr. auto.
  - exists fake, real. rewrite Hr, Hf. unfold findIndex. cbn [findIndexFrom]. rewrite Hf, Hr. auto.
Qed.

(** ** [GET] of [/api/reddit] *)

Lemma GET_with_topic (net : Network) (topic : string) (rp : RecentParam)
    (ids : list string) (w w1 : World) (posts : list Ranked.t) :
  truthy topic = true ->
  parseRecent rp = Normal ids ->
  fetchRedditPosts net topic w = (Normal posts, w1) ->
  posts <> [] ->
  exists result w2,
    generateStories net posts topic ids w1 = (Normal result, w2)
    /\ GET net (mkRequest (Some topic) rp) w
       = (Normal (mkResponse 200
                    (Payload.mk None (Payload.stories result) (Payload.correctIndex result)
                       (Some topic)
                       (option_map Ranked.mainSubject (hd_error posts))
                       (option_map Ranked.isPartialMatch (hd_error posts))
                       (Payload.newStoryIds result) None None None)), w2).
Proof.
  intros Htopic Hparse Hfetch Hne.
  assert (Hgen : exists result w2, generateStories net posts topic ids w1 = (Normal result, w2)).
  { destruct (freshPosts posts ids) as [| p ps] eqn:E.
    - eexists. eexists. apply generateStories_none. exact E.
    - destruct (generateStories_some net posts topic ids w1) as [b [f [s [w' [_ [_ [_ H]]]]]]].
      + rewrite E. discriminate.
      + eexists. eexists. exact H. }
  destruct Hgen as [result [w2 Hgen]]. exists result, w2. split; [exact Hgen |].
  unfold GET, tryCatchM. cbn [recentStoriesParam topicParam orEmpty].
  rewrite (parseRecent_recentOf rp ids Hparse), Htopic. unfold bind at 1, liftC at 1.
  unfold bind at 1. rewrite Hfetch.
  destruct posts as [| first others]; [contradiction |].
  unfold bind at 1. rewrite generateStoriesUntyped_ids, Hgen. reflexivity.
Qed.

Lemma GETPlain_with_topic (net : Network) (topic : string) (rp : RecentParam)
    (w w1 : World) (selectedPost : Ranked.t) (others : list Ranked.t) :
  truthy topic = true ->
  fetchRedditPostsPlain net topic w = (Normal (selectedPost :: others), w1) ->
  exists fake isRealFirst w2,
    generateFakeGossipPlain net (plainRealGossip selectedPost) topic
      (Ranked.topComments selectedPost) (Ranked.isPartialMatch selectedPost) = Normal fake
    /\ GETPlain net (mkRequest (Some topic) rp) w
       = (Normal (mkResponse 200
                    (Payload.mk None
                       (Some (plainStories selectedPost (plainRealGossip selectedPost)
                                           fake isRealFirst))
                       (Some (if isRealFirst then 0 else 1)%Z)
                       (Some topic) (Some (Ranked.mainSubject selectedPost))
                       (Some (Ranked.isPartialMatch selectedPost))
                       None None None None)), w2).
Proof.
  intros Htopic Hfetch.
  destruct (generateFakeGossipPlain_total net (plainRealGossip selectedPost) topic
              (Ranked.topComments selectedPost) (Ranked.isPartialMatch selectedPost))
    as [fake Hfake].
  unfold GETPlain, tryCatchM. cbn [topicParam orEmpty]. rewrite Htopic.
  unfold bind at 1. rewrite Hfetch. cbn zeta. rewrite Hfake.
  unfold bind at 1, liftC at 1. unfold bind at 1, Math_random at 1.
  destruct (entropy w1) as [| r rest]; unfold ret;
    eexists fake, _, _; (split; reflexivity).
Qed.

Lemma plainStories_two (selectedPost : Ranked.t) (realGossip fakeGossip : string)
    (isRealFirst : bool) (originalTopic mainSubject : option string)
    (isPartialMatch : option bool) :
  twoStoriesOneReal
    (Payload.mk None (Some (plainStories selectedPost realGossip fakeGossip isRealFirst))
                (Some (if isRealFirst then 0 else 1)%Z) originalTopic mainSubject
                isPartialMatch None None None None).
Proof.
  unfold twoStoriesOneReal, plainStories. cbn [Payload.stories Payload.correctIndex].
  eexists. eexists. split; [reflexivity |]. cbn [Story.isReal].
  rewrite negb_involutive. auto.
Qed.

(** ** [GET] of [/api/gossip] *)

Lemma orderNegative_returns (w : World) :
  exists negative w', orderNegative w = (Normal negative, w').
Proof.
  unfold orderNegative, bind, Math_random, ret.
  destruct (entropy w); eexists; eexists; reflexivity.
Qed.

Lemma extendRun_perm {A} (descending : bool) (todo run : list A) (w : World) :
  exists run' todo' w',
    extendRun descending todo run w = (Normal (run', todo'), w')
    /\ Permutation (todo ++ run)%list (todo' ++ run')%list.
Proof.
  revert run w. induction todo as [| current rest IH]; intros run w.
  - exists run, [], w. split; [reflexivity | apply Permutation_refl].
  - cbn [extendRun]. unfold bind at 1.
    destruct (orderNegative_returns w) as [negative [w0 ->]].
    destruct (Bool.eqb negative descending).
    + destruct (IH (current :: run) w0) as [run' [todo' [w' [Hrun Hperm]]]].
      exists run', todo', w'. split; [exact Hrun |].
      apply Permutation_trans with (rest ++ current :: run)%list; [| exact Hperm].
      cbn [app]. apply Permutation_middle.
    + exists run, (current :: rest), w0. split; [reflexivity | apply Permutation_refl].
Qed.

Lemma insertionPoint_returns (fuel left right : nat) (w : World) :
  exists point w', insertionPoint fuel left right w = (Normal point, w').
Proof.
  revert left right w. induction fuel as [| fuel IH]; intros left right w.
  - exists left, w. reflexivity.
  - cbn [insertionPoint]. destruct (left <? right)%nat; [| exists left, w; reflexivity].
    unfold bind at 1. destruct (orderNegative_returns w) as [negative [w0 ->]].
    destruct negative; apply IH.
Qed.

(** The fuel of [insertionPoint] is enough: from the width of the
    interval on, more fuel changes nothing. *)
Lemma insertionPoint_fuel (fuel1 fuel2 left right : nat) (w : World) :
  (right - left <= fuel1)%nat -> (right - left <= fuel2)%nat ->
  insertionPoint fuel1 left right w = insertionPoint fuel2 left right w.
Proof.
  revert fuel2 left right w.
  induction fuel1 as [| fuel1 IH]; intros fuel2 left right w H1 H2.
  - destruct fuel2 as [| fuel2]; [reflexivity |]. cbn [insertionPoint].
    destruct (left <? right)%nat eqn:E; [| reflexivity].
    apply Nat.ltb_lt in E. lia.
  - cbn [insertionPoint]. destruct (left <? right)%nat eqn:E.
    + apply Nat.ltb_lt in E.
      assert (Hhalf : ((right - left) / 2 < right - left)%nat)
        by (apply Nat.div_lt; lia).
      destruct fuel2 as [| fuel2]; [lia |]. cbn [insertionPoint].
      apply Nat.ltb_lt in E. rewrite E. unfold bind.
      destruct (orderNegative w) as [[[|] | e] w0]; [| | reflexivity]; apply IH; lia.
    + destruct fuel2 as [| fuel2]; [reflexivity |]. cbn [insertionPoint]. rewrite E.
      reflexivity.
Qed.

Lemma binaryInsertionSort_perm {A} (todo sorted : list A) (w : World) :
  exists ys w', binaryInsertionSort todo sorted w = (Normal ys, w')
                /\ Permutation (todo ++ sorted)%list ys.
Proof.
  revert sorted w. induction todo as [| pivot rest IH]; intros sorted w.
  - exists sorted, w. split; [reflexivity | apply Permutation_refl].
  - cbn [binaryInsertionSort]. unfold bind at 1.
    destruct (insertionPoint_returns (length sorted) 0 (length sorted) w)
      as [left [w0 ->]].
    destruct (IH (firstn left sorted ++ pivot :: skipn left sorted)%list w0)
      as [ys [w' [Hrun Hperm]]].
    exists ys, w'. split; [exact Hrun |].
    apply Permutation_trans
      with (rest ++ firstn left sorted ++ pivot :: skipn left sorted)%list; [| exact Hperm].
    cbn [app]. apply Permutation_trans with (rest ++ pivot :: sorted)%list.
    + apply Permutation_middle.
    + apply Permutation_app_head.
      rewrite <- (firstn_skipn left sorted) at 1. apply Permutation_middle.
Qed.

Lemma sortRandom_perm {A} (xs : list A) (w : World) :
  exists ys w', sortRandom xs w = (Normal ys, w') /\ Permutation xs ys.
Proof.
  destruct xs as [| first [| second rest]].
  - exists [], w. split; [reflexivity | apply Permutation_refl].
  - exists [first], w. split; [reflexivity | apply Permutation_refl].
  - unfold sortRandom. unfold bind at 1.
    destruct (orderNegative_returns w) as [descending [w0 ->]].
    unfold bind at 1.
    destruct (extendRun_perm descending rest [second; first] w0)
      as [run [todo [w1 [-> Hrun]]]].
    destruct (binaryInsertionSort_perm todo (if descending then run else rev run) w1)
      as [ys [w' [Hsort Hperm]]].
    exists ys, w'. split; [exact Hsort |].
    apply Permutation_trans with (todo ++ run)%list.
    + apply Permutation_trans with (rest ++ [second; first])%list; [| exact Hrun].
      apply Permutation_trans with ([first; second] ++ rest)%list;
        [apply Permutation_refl |].
      apply Permutation_trans with (rest ++ [first; second])%list;
        [apply Permutation_app_comm |].
      apply Permutation_app_head. apply perm_swap.
    + apply Permutation_trans with (todo ++ (if descending then run else rev run))%list;
        [| exact Hperm].
      apply Permutation_app_head. destruct descending;
        [apply Permutation_refl | apply Permutation_rev].
Qed.

Lemma realCount_perm (xs ys : list Story.t) :
  Permutation xs ys -> realCount xs = realCount ys.
Proof.
  unfold realCount. induction 1 as [| x l l' _ IH | x y l | l l' l'' _ IH1 _ IH2].
  - reflexivity.
  - simpl. destruct (Story.isReal x); simpl; congruence.
  - simpl. destruct (Story.isReal x), (Story.isReal y); reflexivity.
  - congruence.
Qed.

Lemma findIndexFrom_finds (stories : list Story.t) (k : Z) :
  realCount stories <> 0%nat ->
  (k <= findIndexFrom k stories)%Z
  /\ exists s, nth_error stories (Z.to_nat (findIndexFrom k stories - k)) = Some s
               /\ Story.isReal s = true.
Proof.
  revert k. induction stories as [| s rest IH]; intros k Hc; [contradiction Hc; reflexivity |].
  cbn [findIndexFrom]. destruct (Story.isReal s) eqn:E.
  - split; [lia |]. exists s. rewrite Z.sub_diag. split; [reflexivity | exact E].
  - assert (Hrest : realCount rest <> 0%nat).
    { unfold realCount in *. cbn [filter] in Hc. rewrite E in Hc. exact Hc. }
    destruct (IH (k + 1)%Z Hrest) as [Hle [s' [Hnth Hreal]]].
    split; [lia |]. exists s'. split; [| exact Hreal].
    replace (Z.to_nat (findIndexFrom (k + 1) rest - k))
      with (S (Z.to_nat (findIndexFrom (k + 1) rest - (k + 1)))) by lia.
    exact Hnth.
Qed.

Lemma gossipStories_realCount (bestPost : Post.t) (realGossip : string)
    (fakeGossips : list string) :
  realCount (gossipStories bestPost realGossip fakeGossips) = 1%nat.
Proof.
  unfold realCount, gossipStories. cbn [filter Story.isReal length]. f_equal.
  rewrite filter_none; [reflexivity |].
  intros s Hs. apply in_map_iff in Hs. destruct Hs as [text [<- _]]. reflexivity.
Qed.

Lemma fakeGossipsOf_length (content : option string) :
  (length (fakeGossipsOf content) <= 2)%nat.
Proof.
  destruct content as [text |]; cbn [fakeGossipsOf length]; [| lia].
  unfold slice0. apply firstn_le_length.
Qed.

Lemma GETGossip_with_topic (net : Network) (topic : string) (rp : RecentParam) (w : World)
    (first : Post.t) (others : list Post.t) (t1 t2 : Z) (c1 c2 : option string)
    (cs1 cs2 : list (option string)) :
  truthy topic = true ->
  searchTop net topic = FetchOk (first :: others) ->
  chat net (summaryRequest (mostEngaging first others)) = Resolves t1 (c1 :: cs1) ->
  chat net (twoFakesRequest topic (trimOrEmpty c1)) = Resolves t2 (c2 :: cs2) ->
  exists shuffled w2,
    Permutation (gossipStories (mostEngaging first others) (trimOrEmpty c1) (fakeGossipsOf c2))
                shuffled
    /\ GETGossip net (mkRequest (Some topic) rp) w
       = (Normal (mkResponse 200
                    (Payload.mk (Some topic) (Some shuffled) (Some (findIndex shuffled))
                                None None None None None None None)), w2).
Proof.
  intros Htopic Hsearch Hchat1 Hchat2.
  destruct (sortRandom_perm
              (gossipStories (mostEngaging first others) (trimOrEmpty c1) (fakeGossipsOf c2)) w)
    as [shuffled [w2 [Hsort Hperm]]].
  exists shuffled, w2. split; [exact Hperm |].
  unfold GETGossip, tryCatchM. cbn [topicParam orEmpty]. rewrite Htopic, Hsearch.
  unfold bind at 1, liftC at 1, awaitChat at 1. rewrite Hchat1.
  unfold bind at 1, liftC at 1, firstContent at 1. cbn zeta.
  unfold bind at 1, liftC at 1, awaitChat at 1. rewrite Hchat2.
  unfold bind at 1, liftC at 1, firstContent at 1.
  unfold gossipReply, bind. rewrite Hsort. reflexivity.
Qed.

Lemma gossip_payload_one_real (topic : option string) (stories shuffled : list Story.t) :
  realCount stories = 1%nat -> (1 <= length stories <= 3)%nat ->
  Permutation stories shuffled ->
  oneRealAmongUpToThree
    (Payload.mk topic (Some shuffled) (Some (findIndex shuffled))
                None None None None None None None).
Proof.
  intros Hcount Hlen Hperm. exists shuffled, (findIndex shuffled).
  cbn [Payload.stories Payload.correctIndex].
  split; [reflexivity |]. split; [reflexivity |].
  split; [rewrite <- (Permutation_length Hperm); exact Hlen |].
  assert (Hc : realCount shuffled = 1%nat) by (rewrite <- (realCount_perm _ _ Hperm); exact Hcount).
  unfold oneRealAt. split; [exact Hc |].
  destruct (findIndexFrom_finds shuffled 0) as [Hle [s [Hnth Hreal]]]; [rewrite Hc; discriminate |].
  unfold findIndex. split; [exact Hle |]. exists s.
  rewrite Z.sub_0_r in Hnth. split; assumption.
Qed.

(** ** The two-story response *)

(** C1, as stated, fails on the handler of [/api/gossip], which
    asks for two fabrications: when the service answers with two paragraphs
    the response carries three stories. *)
Lemma three_stories_counterexample : ~ answersWithTwoStories GETGossip.
Proof.
  intros H.
  assert (Hrun : exists s0 s1 s2 i w',
             GETGossip quickNet (mkRequest (Some "taylor") NoParam) (mkWorld 0 [])
             = (Normal (mkResponse 200
                          (Payload.mk (Some "taylor") (Some [s0; s1; s2]) i
                                      None None None None None None None)), w')).
  { vm_compute. repeat eexists. }
  destruct Hrun as [s0 [s1 [s2 [i [w' Hrun]]]]].
  specialize (H _ _ _ _ _ Hrun eq_refl ltac:(discriminate)).
  destruct H as [a [b [Hstories _]]]. discriminate Hstories.
Qed.

(** C1, amended.  For a non-empty topic:
    - when the post search of [/api/reddit] returns posts of which at least
      one has not been seen recently, [GET] answers with status 200 and
      exactly two stories, exactly one of them real, and [correctIndex] is
      the index of the real one (in the revision with [generateStories] and
      in the one of [src/app/api/reddit/route.ts]);
    - when the search of [/api/gossip] finds a post and both completions
      arrive, its [GET] answers with status 200 and the real story together
      with up to two fabricated ones: one to three stories, exactly one of
      them real, and [correctIndex] is the index of the real one. *)
Theorem stories_by_endpoint (net : Network) (topic : string) (rp : RecentParam) (w : World) :
  truthy topic = true ->
  (forall ids posts w1,
      parseRecent rp = Normal ids ->
      fetchRedditPosts net topic w = (Normal posts, w1) ->
      freshPosts posts ids <> [] ->
      exists r w2, GET net (mkRequest (Some topic) rp) w = (Normal r, w2)
                   /\ status r = 200%Z /\ twoStoriesOneReal (body r))
  /\ (forall selectedPost others w1,
        fetchRedditPostsPlain net topic w = (Normal (selectedPost :: others), w1) ->
        exists r w2, GETPlain net (mkRequest (Some topic) rp) w = (Normal r, w2)
                     /\ status r = 200%Z /\ twoStoriesOneReal (body r))
  /\ (forall first others t1 c1 cs1 t2 c2 cs2,
        searchTop net topic = FetchOk (first :: others) ->
        chat net (summaryRequest (mostEngaging first others)) = Resolves t1 (c1 :: cs1) ->
        chat net (twoFakesRequest topic (trimOrEmpty c1)) = Resolves t2 (c2 :: cs2) ->
        exists r w2, GETGossip net (mkRequest (Some topic) rp) w = (Normal r, w2)
                     /\ status r = 200%Z /\ oneRealAmongUpToThree (body r)).
Proof.
  intros Htopic. split; [| split].
  - intros ids posts w1 Hparse Hfetch Hfresh.
    assert (Hne : posts <> []).
    { intros ->. apply Hfresh. unfold freshPosts.
      destruct (0 <? length ids)%nat; reflexivity. }
    destruct (GET_with_topic net topic rp ids w w1 posts Htopic Hparse Hfetch Hne)
      as [result [w2 [Hgen HGET]]].
    destruct (generateStories_some net posts topic ids w1 Hfresh)
      as [best [fake [shuffled [w' [_ [_ [Hshape Hgen']]]]]]].
    rewrite Hgen' in Hgen. injection Hgen as <- <-.
    eexists. exists w'. split; [exact HGET |]. split; [reflexivity |].
    cbn [body Payload.stories Payload.correctIndex Payload.newStoryIds].
    cbn zeta in Hshape.
    eapply twoStories_of_pair; [| | exact Hshape]; reflexivity.
  - intros selectedPost others w1 Hfetch.
    destruct (GETPlain_with_topic net topic rp w w1 selectedPost others Htopic Hfetch)
      as [fake [isRealFirst [w2 [_ HGET]]]].
    eexists. exists w2. split; [exact HGET |]. split; [reflexivity |].
    apply plainStories_two.
  - intros first others t1 c1 cs1 t2 c2 cs2 Hsearch Hchat1 Hchat2.
    destruct (GETGossip_with_topic net topic rp w first others t1 t2 c1 c2 cs1 cs2
                Htopic Hsearch Hchat1 Hchat2) as [shuffled [w2 [Hperm HGET]]].
    eexists. exists w2. split; [exact HGET |]. split; [reflexivity |].
    apply gossip_payload_one_real with (stories := gossipStories (mostEngaging first others)
                                                    (trimOrEmpty c1) (fakeGossipsOf c2)).
    + apply gossipStories_realCount.
    + unfold gossipStories. cbn [length]. rewrite length_map.
      pose proof (fakeGossipsOf_length c2). lia.
    + exact Hperm.
Qed.

(** The topic "taylor" on the sample network, with the draws 1/4, 3/4
    and 1/4. *)
Lemma stories_by_endpoint_witness :
  (exists r w2, GET quickNet (mkRequest (Some "taylor") NoParam) (mkWorld 0 [1 # 4; 3 # 4; 1 # 4])
                = (Normal r, w2)
                /\ status r = 200%Z /\ twoStoriesOneReal (body r))
  /\ (exists r w2, GETPlain quickNet (mkRequest (Some "taylor") NoParam) (mkWorld 0 [1 # 4; 3 # 4; 1 # 4])
                   = (Normal r, w2)
                   /\ status r = 200%Z /\ twoStoriesOneReal (body r))
  /\ (exists r w2, GETGossip quickNet (mkRequest (Some "taylor") NoParam) (mkWorld 0 [1 # 4; 3 # 4; 1 # 4])
                   = (Normal r, w2)
                   /\ status r = 200%Z /\ oneRealAmongUpToThree (body r)).
Proof.
  destruct (stories_by_endpoint quickNet "taylor" NoParam (mkWorld 0 [1 # 4; 3 # 4; 1 # 4]) eq_refl)
    as [Hlatest [Hplain Hgossip]].
  split; [| split].
  - eapply Hlatest; [reflexivity | vm_compute; reflexivity | vm_compute; discriminate].
  - eapply Hplain. vm_compute. reflexivity.
  - eapply Hgossip; vm_compute; reflexivity.
Defined.

(** ** The fallback reaches the response *)

Lemma GET_fake_content (net : Network) (topic : string) (rp : RecentParam)
    (ids : list string) (w w1 : World) (posts : list Ranked.t) :
  truthy topic = true ->
  parseRecent rp = Normal ids ->
  fetchRedditPosts net topic w = (Normal posts, w1) ->
  freshPosts posts ids <> [] ->
  exists r w2 best fake,
    GET net (mkRequest (Some topic) rp) w = (Normal r, w2)
    /\ status r = 200%Z
    /\ twoStoriesOneReal (body r)
    /\ generateFakeGossip net
         (formatRedditGossip (Ranked.post best) (asComments (Ranked.topComments best)))
         topic (Ranked.topComments best) (Ranked.isPartialMatch best) = Normal fake
    /\ (forall stories s, Payload.stories (body r) = Some stories -> In s stories ->
                          Story.isReal s = false -> Story.content s = fake).
Proof.
  intros Htopic Hparse Hfetch Hfresh.
  assert (Hne : posts <> []).
  { intros ->. apply Hfresh. unfold freshPosts. destruct (0 <? length ids)%nat; reflexivity. }
  destruct (GET_with_topic net topic rp ids w w1 posts Htopic Hparse Hfetch Hne)
    as [result [w2 [Hgen HGET]]].
  destruct (generateStories_some net posts topic ids w1 Hfresh)
    as [best [fake [shuffled [w' [_ [Hfake [Hshape Hgen']]]]]]].
  rewrite Hgen' in Hgen. injection Hgen as <- <-. cbn zeta in Hshape.
  eexists. exists w', best, fake. split; [exact HGET |]. split; [reflexivity |].
  cbn [body Payload.stories Payload.correctIndex Payload.newStoryIds].
  split; [eapply twoStories_of_pair; [| | exact Hshape]; reflexivity |].
  split; [exact Hfake |].
  intros stories s Hst Hin Hreal. injection Hst as <-.
  destruct Hshape as [-> | ->]; cbn [In] in Hin;
    destruct Hin as [<- | [<- | []]]; try reflexivity; discriminate Hreal.
Qed.

Lemma plainStories_fake_content (selectedPost : Ranked.t) (realGossip fakeGossip : string)
    (isRealFirst : bool) (s : Story.t) :
  In s (plainStories selectedPost realGossip fakeGossip isRealFirst) ->
  Story.isReal s = false -> Story.content s = fakeGossip.
Proof.
  unfold plainStories. cbn [In]. intros [<- | [<- | []]]; cbn [Story.isReal Story.content];
    destruct isRealFirst; intros H; try reflexivity; discriminate H.
Qed.

(** C4.  When the call to the completion service errors or loses the
    race against the ten second timer, [generateFakeGossip] does not throw:
    it returns the fallback text, which mentions the topic.  The endpoint
    then still answers with status 200 and two stories, one real and one
    fake, and the fake one has the fallback text as its content.  This holds
    for the revision with [generateStories] and for the one of
    [src/app/api/reddit/route.ts]. *)
Theorem fallback_on_api_failure (net : Network) (topic : string) :
  (forall req, apiFails (chat net req)) ->
  (forall realGossip topComments isPartialMatch,
      generateFakeGossip net realGossip topic topComments isPartialMatch
      = Normal (fallbackGossip topic)
      /\ generateFakeGossipPlain net realGossip topic topComments isPartialMatch
         = Normal (fallbackGossip topic))
  /\ occursIn topic (fallbackGossip topic)
  /\ (forall rp ids w posts w1,
        truthy topic = true ->
        parseRecent rp = Normal ids ->
        fetchRedditPosts net topic w = (Normal posts, w1) ->
        freshPosts posts ids <> [] ->
        exists r w2, GET net (mkRequest (Some topic) rp) w = (Normal r, w2)
                     /\ status r = 200%Z
                     /\ twoStoriesOneReal (body r)
                     /\ fakeIsFallback topic (body r))
  /\ (forall rp w selectedPost others w1,
        truthy topic = true ->
        fetchRedditPostsPlain net topic w = (Normal (selectedPost :: others), w1) ->
        exists r w2, GETPlain net (mkRequest (Some topic) rp) w = (Normal r, w2)
                     /\ status r = 200%Z
                     /\ twoStoriesOneReal (body r)
                     /\ fakeIsFallback topic (body r)).
Proof.
  intros Hfail. split; [| split; [| split]].
  - intros realGossip topComments isPartialMatch.
    apply generateFakeGossip_fallback. exact Hfail.
  - apply fallbackGossip_mentions_topic.
  - intros rp ids w posts w1 Htopic Hparse Hfetch Hfresh.
    destruct (GET_fake_content net topic rp ids w w1 posts Htopic Hparse Hfetch Hfresh)
      as [r [w2 [best [fake [HGET [Hstatus [Htwo [Hfake Hcontent]]]]]]]].
    exists r, w2. repeat (split; [assumption |]).
    intros stories s Hst Hin Hreal. rewrite (Hcontent stories s Hst Hin Hreal).
    destruct (generateFakeGossip_fallback net
                (formatRedditGossip (Ranked.post best) (asComments (Ranked.topComments best)))
                topic (Ranked.topComments best) (Ranked.isPartialMatch best) Hfail) as [H _].
    rewrite H in Hfake. injection Hfake as <-. reflexivity.
  - intros rp w selectedPost others w1 Htopic Hfetch.
    destruct (GETPlain_with_topic net topic rp w w1 selectedPost others Htopic Hfetch)
      as [fake [isRealFirst [w2 [Hfake HGET]]]].
    eexists. exists w2. split; [exact HGET |]. split; [reflexivity |].
    split; [apply plainStories_two |].
    intros stories s Hst Hin Hreal. cbn [body Payload.stories] in Hst. injection Hst as <-.
    rewrite (plainStories_fake_content _ _ _ _ _ Hin Hreal).
    destruct (generateFakeGossip_fallback net (plainRealGossip selectedPost) topic
                (Ranked.topComments selectedPost) (Ranked.isPartialMatch selectedPost) Hfail)
      as [_ H].
    rewrite H in Hfake. injection Hfake as <-. reflexivity.
Qed.

Lemma slowNet_fails (req : ChatRequest) : apiFails (chat slowNet req).
Proof. cbn. unfold timeoutMs. lia. Qed.

(** The completion service answers after 20 seconds. *)
Lemma fallback_on_api_failure_witness :
  generateFakeGossip slowNet "Taylor Swift rumor.." "taylor" [] false
  = Normal (fallbackGossip "taylor")
  /\ (exists r w2, GET slowNet (mkRequest (Some "taylor") NoParam) (mkWorld 0 [1 # 4])
                   = (Normal r, w2)
                   /\ status r = 200%Z
                   /\ twoStoriesOneReal (body r)
                   /\ fakeIsFallback "taylor" (body r))
  /\ (exists r w2, GETPlain slowNet (mkRequest (Some "taylor") NoParam) (mkWorld 0 [1 # 4])
                   = (Normal r, w2)
                   /\ status r = 200%Z
                   /\ twoStoriesOneReal (body r)
                   /\ fakeIsFallback "taylor" (body r)).
Proof.
  destruct (fallback_on_api_failure slowNet "taylor" slowNet_fails)
    as [Hfake [_ [Hlatest Hplain]]].
  split; [apply Hfake | split].
  - eapply Hlatest; [reflexivity | reflexivity | vm_compute; reflexivity | vm_compute; discriminate].
  - eapply Hplain; [reflexivity | vm_compute; reflexivity].
Defined.

(** ** No fresh post *)

Lemma samplePosts_fetched :
  fetchRedditPosts quickNet "taylor" (mkWorld 0 []) = (Normal samplePosts, mkWorld 0 []).
Proof. vm_compute. reflexivity. Qed.

Lemma samplePosts_seen (p : Ranked.t) :
  In p samplePosts -> In (storyIdOf p) ["popheads_abc"].
Proof.
  intros H. vm_compute in H.
  repeat (destruct H as [<- | H]; [left; reflexivity |]). contradiction.
Qed.

Lemma samplePosts_nonempty : samplePosts <> [].
Proof. vm_compute. discriminate. Qed.

(** C9 holds up to its last step, where the handler breaks it:
    [GET] does not pass the object of [generateStories] on.  With the one
    sample post already seen, [generateStories] returns an error message
    and a suggestion, and the response carries neither. *)
Lemma error_object_dropped_counterexample : ~ forwardsNoFreshObject.
Proof.
  intros H.
  assert (Hgen : generateStories quickNet samplePosts "taylor" ["popheads_abc"] (mkWorld 0 [])
                 = (Normal (Payload.failure (noFreshGossip "taylor")
                              (Some (getTrendingTopic quickNet)) None), mkWorld 0 []))
    by (vm_compute; reflexivity).
  assert (HGET : exists r,
             GET quickNet (mkRequest (Some "taylor") (JsonIds ["popheads_abc"])) (mkWorld 0 [])
             = (Normal r, mkWorld 0 [])
             /\ Payload.error (body r) = None)
    by (eexists; split; vm_compute; reflexivity).
  destruct HGET as [r [HGET Hnone]].
  destruct (H quickNet "taylor" ["popheads_abc"] (mkWorld 0 []) samplePosts (mkWorld 0 [])
              r _ _ _ eq_refl samplePosts_fetched samplePosts_nonempty
              samplePosts_seen Hgen HGET) as [Herr _].
  rewrite Hnone in Herr. discriminate Herr.
Qed.

(** C9, the defect at every request of this kind.  When every
    fetched post has a [storyId] that is in the list of recently seen
    identifiers, [generateStories] returns an object that carries only an
    error message and a suggested topic, without [stories] and without
    [correctIndex], as the claim says.  [GET] then reads only [stories],
    [correctIndex] and [newStoryIds] off that object: the error message and
    the suggestion, which [generateStories] made a request to obtain, are
    lost, and the response has status 200 with [originalTopic],
    [mainSubject] and [isPartialMatch] and nothing else.  The other error
    replies of the same handler (400 and 404) do send an error message and
    a suggestion. *)
Theorem no_fresh_posts_empty_success (net : Network) (topic : string) (rp : RecentParam)
    (ids : list string) (w w1 : World) (posts : list Ranked.t) :
  truthy topic = true ->
  parseRecent rp = Normal ids ->
  fetchRedditPosts net topic w = (Normal posts, w1) ->
  posts <> [] ->
  (forall p, In p posts -> In (storyIdOf p) ids) ->
  generateStories net posts topic ids w1
  = (Normal (Payload.mk None None None None None None None
                        (Some (noFreshGossip topic)) (Some (getTrendingTopic net)) None), w1)
  /\ GET net (mkRequest (Some topic) rp) w
     = (Normal (mkResponse 200
                  (Payload.mk None None None (Some topic)
                     (option_map Ranked.mainSubject (hd_error posts))
                     (option_map Ranked.isPartialMatch (hd_error posts))
                     None None None None)), w1).
Proof.
  intros Htopic Hparse Hfetch Hne Hseen.
  pose proof (generateStories_none net posts topic ids w1
                (freshPosts_all_seen posts ids Hne Hseen)) as Hgen.
  split; [exact Hgen |].
  destruct (GET_with_topic net topic rp ids w w1 posts Htopic Hparse Hfetch Hne)
    as [result [w2 [Hgen' HGET]]].
  rewrite Hgen in Hgen'. injection Hgen' as <- <-. exact HGET.
Qed.

(** The one sample post has been seen. *)
Lemma no_fresh_posts_witness :
  generateStories quickNet samplePosts "taylor" ["popheads_abc"] (mkWorld 0 [])
  = (Normal (Payload.mk None None None None None None None
                        (Some (noFreshGossip "taylor")) (Some (getTrendingTopic quickNet)) None),
     mkWorld 0 [])
  /\ GET quickNet (mkRequest (Some "taylor") (JsonIds ["popheads_abc"])) (mkWorld 0 [])
     = (Normal (mkResponse 200
                  (Payload.mk None None None (Some "taylor")
                     (option_map Ranked.mainSubject (hd_error samplePosts))
                     (option_map Ranked.isPartialMatch (hd_error samplePosts))
                     None None None None)), mkWorld 0 []).
Proof.
  apply (no_fresh_posts_empty_success quickNet "taylor" (JsonIds ["popheads_abc"])
           ["popheads_abc"] (mkWorld 0 []) (mkWorld 0 []) samplePosts).
  - reflexivity.
  - reflexivity.
  - vm_compute. reflexivity.
  - vm_compute. discriminate.
  - intros p H. vm_compute in H.
    repeat (destruct H as [<- | H]; [left; reflexivity |]). contradiction.
Defined.

(** ** The client *)

Lemma invalidResponse_index_zero (data : Payload.t) :
  Payload.correctIndex data = Some 0%Z -> invalidResponse data = true.
Proof.
  intros H. unfold invalidResponse. rewrite H. cbn. apply orb_true_r.
Qed.

Lemma fetchGossip_accepts_only (reply : Completion Response) (now : Z) (st : Client.t) :
  Client.error (fetchGossip reply now st) = None ->
  exists response i,
    reply = Normal response
    /\ responseOk response = true
    /\ Payload.stories (body response) <> None
    /\ Payload.correctIndex (body response) = Some i
    /\ i <> 0%Z.
Proof.
  unfold fetchGossip. destruct reply as [response | e]; [| discriminate].
  destruct (responseOk response) eqn:Hok; cbn [negb]; [| discriminate].
  destruct (invalidResponse (body response)) eqn:Hinv; [discriminate |].
  intros _. exists response.
  unfold invalidResponse in Hinv. apply orb_false_iff in Hinv. destruct Hinv as [Hs Hi].
  apply negb_false_iff in Hs, Hi.
  destruct (Payload.correctIndex (body response)) as [i |]; [| discriminate].
  exists i. split; [reflexivity |]. split; [exact Hok |].
  split; [destruct (Payload.stories (body response)); [discriminate | discriminate Hs] |].
  split; [reflexivity |].
  cbn in Hi. apply negb_true_iff, Z.eqb_neq in Hi. exact Hi.
Qed.

(** The server does send [correctIndex = 0]: a draw in the upper half of
    the unit interval leaves the real story first. *)
Lemma real_first_when_draw_high (real fake : Story.t) (r : Q) (now : Z) (rest : list Q) :
  Story.isReal real = true -> validDraw r -> (1 # 2 <= r)%Q ->
  exists shuffled,
    shuffleArray [real; fake] (mkWorld now (r :: rest)) = (Normal shuffled, mkWorld now rest)
    /\ findIndex shuffled = 0%Z.
Proof.
  intros Hreal [_ Hlt] Hge. exists [real; fake].
  rewrite shuffleArray_two, (randomIndex_high r Hge Hlt).
  split; [reflexivity |]. unfold findIndex. cbn [findIndexFrom]. rewrite Hreal. reflexivity.
Qed.

(** C2.  A response with a success status whose [stories] are present
    and whose [correctIndex] is 0 (the real story first, which the server
    sends whenever the shuffle leaves the two stories in place) fails the
    check [!data.stories || !data.correctIndex] of [fetchGossip]: the
    client reports 'Invalid response from server' and keeps its stories,
    its [correctIndex] and its seen-story lists as they were.  Whenever
    [fetchGossip] ends without an error, the response had a [correctIndex]
    other than 0. *)
Theorem fetchGossip_rejects_index_zero (response : Response) (now : Z) (st : Client.t) :
  (responseOk response = true ->
   Payload.stories (body response) <> None ->
   Payload.correctIndex (body response) = Some 0%Z ->
   Client.error (fetchGossip (Normal response) now st) = Some "Invalid response from server"
   /\ Client.stories (fetchGossip (Normal response) now st) = Client.stories st
   /\ Client.correctIndex (fetchGossip (Normal response) now st) = Client.correctIndex st
   /\ Client.recentStories (fetchGossip (Normal response) now st) = Client.recentStories st
   /\ Client.localStorage (fetchGossip (Normal response) now st) = Client.localStorage st
   /\ Client.loading (fetchGossip (Normal response) now st) = false)
  /\ (forall reply,
        Client.error (fetchGossip reply now st) = None ->
        exists accepted i,
          reply = Normal accepted
          /\ Payload.correctIndex (body accepted) = Some i /\ i <> 0%Z).
Proof.
  split.
  - intros Hok _ Hzero. unfold fetchGossip.
    rewrite Hok, (invalidResponse_index_zero _ Hzero). cbn. repeat split.
  - intros reply H.
    destruct (fetchGossip_accepts_only reply now st H) as [r [i [Hr [_ [_ [Hi Hnz]]]]]].
    exists r, i. auto.
Qed.

(** The response that the server sends for the draw 3/4 carries both
    stories, the real one first; the client rejects it. *)
Lemma fetchGossip_rejects_witness :
  Payload.correctIndex (body realFirstResponse) = Some 0%Z
  /\ Client.error (fetchGossip (Normal realFirstResponse) 1000
                     (Client.initial "taylor" NotStored))
     = Some "Invalid response from server"
  /\ Client.stories (fetchGossip (Normal realFirstResponse) 1000
                       (Client.initial "taylor" NotStored)) = [].
Proof.
  split; [vm_compute; reflexivity |].
  destruct (proj1 (fetchGossip_rejects_index_zero realFirstResponse 1000
                     (Client.initial "taylor" NotStored)))
    as [Herr [Hstories _]].
  - vm_compute. reflexivity.
  - vm_compute. discriminate.
  - vm_compute. reflexivity.
  - split; [exact Herr | exact Hstories].
Defined.

(** ** The seen-story window *)

Lemma recentItems_spec (now : Z) (parsed : list StoryItem.t) (item : StoryItem.t) :
  In item (recentItems now parsed)
  <-> In item parsed /\ (now - oneHourMs < StoryItem.timestamp item)%Z.
Proof.
  unfold recentItems. rewrite filter_In, Z.ltb_lt. reflexivity.
Qed.

Lemma initEffect_stored (now : Z) (st : Client.t) (parsed : list StoryItem.t) :
  Client.localStorage st = StoredItems parsed ->
  Client.localStorage (initEffect now st) = StoredItems (recentItems now parsed)
  /\ Client.recentStories (initEffect now st) = map StoryItem.id (recentItems now parsed).
Proof.
  intros H. unfold initEffect. rewrite H. split; reflexivity.
Qed.

Lemma freshPosts_keeps_unseen (posts : list Ranked.t) (ids : list string) (post : Ranked.t) :
  In post posts -> ~ In (storyIdOf post) ids -> In post (freshPosts posts ids).
Proof.
  intros Hin Hno. unfold freshPosts. destruct (0 <? length ids)%nat; [| exact Hin].
  apply filter_In. split; [exact Hin |].
  apply negb_true_iff. destruct (seenRecently ids (storyIdOf post)) eqn:E; [| reflexivity].
  exfalso. apply Hno, seenRecently_spec, E.
Qed.

(** C8, as stated, fails in its consequence: the entries are
    purged only when the component mounts.  An entry stored at time 0
    survives a mount 59 minutes later; a request made 61 minutes after the
    entry was stored still carries its identifier, and the server drops the
    post. *)
Lemma expired_id_still_filters_counterexample : ~ expiredIdsNeverFilter.
Proof.
  intros H.
  assert (Hpost : exists post, hd_error samplePosts = Some post
                               /\ storyIdOf post = "popheads_abc").
  { vm_compute. eexists. split; reflexivity. }
  destruct Hpost as [post [Hhd Hid]].
  assert (Hin : In post samplePosts).
  { destruct samplePosts as [| p ps]; [discriminate |]. injection Hhd as ->. left. reflexivity. }
  specialize (H [StoryItem.mk "popheads_abc" 0] 3540000%Z 3660000%Z "taylor"
                samplePosts post).
  assert (Hfresh : freshPosts samplePosts
                     (idsSent "taylor"
                        (initEffect 3540000 (Client.initial "taylor"
                           (StoredItems [StoryItem.mk "popheads_abc" 0])))) = []).
  { vm_compute. reflexivity. }
  rewrite Hfresh in H. apply H; [lia | | exact Hin].
  intros item [<- | []] _. vm_compute. reflexivity.
Qed.

(** C8, amended.  When the component mounts at time [now], every stored
    entry whose timestamp is not later than one hour before [now] is removed
    from the persisted list, and [recentStories] becomes the identifiers of
    the entries that remain.  An identifier all of whose stored entries are
    that old is not among the identifiers that a request built from that
    state sends, and it does not make the de-duplication step of
    [generateStories] drop a post for such a request.  (Entries are not
    purged again before the next mount.) *)
Theorem initEffect_purges_old_entries (now : Z) (st : Client.t) (parsed : list StoryItem.t) :
  Client.localStorage st = StoredItems parsed ->
  Client.localStorage (initEffect now st) = StoredItems (recentItems now parsed)
  /\ Client.recentStories (initEffect now st) = map StoryItem.id (recentItems now parsed)
  /\ (forall item, In item (recentItems now parsed)
                   <-> In item parsed /\ (now - oneHourMs < StoryItem.timestamp item)%Z)
  /\ (forall id,
        (forall item, In item parsed -> StoryItem.id item = id ->
                      (StoryItem.timestamp item <= now - oneHourMs)%Z) ->
        forall searchTopic,
          ~ In id (idsSent searchTopic (initEffect now st))
          /\ forall posts post,
               In post posts -> storyIdOf post = id ->
               In post (freshPosts posts (idsSent searchTopic (initEffect now st)))).
Proof.
  intros Hstored. destruct (initEffect_stored now st parsed Hstored) as [Hls Hrs].
  split; [exact Hls |]. split; [exact Hrs |].
  split; [intros item; apply recentItems_spec |].
  intros id Hold searchTopic.
  assert (Hno : ~ In id (idsSent searchTopic (initEffect now st))).
  { unfold idsSent, gossipRequest. cbn [recentStoriesParam parseRecent]. rewrite Hrs.
    intros Hin. apply in_map_iff in Hin. destruct Hin as [item [Hid Hitem]].
    apply recentItems_spec in Hitem. destruct Hitem as [Hp Hts].
    pose proof (Hold item Hp Hid). lia. }
  split; [exact Hno |].
  intros posts post Hin Hid. apply freshPosts_keeps_unseen; [exact Hin |].
  rewrite Hid. exact Hno.
Qed.

(** Two stored entries, one two hours old and one ten minutes old, at a
    mount at time 7200000. *)
Lemma initEffect_purges_witness :
  Client.localStorage
    (initEffect 7200000
       (Client.initial "taylor"
          (StoredItems [StoryItem.mk "popheads_abc" 0; StoryItem.mk "popheads_xyz" 6600000])))
  = StoredItems [StoryItem.mk "popheads_xyz" 6600000]
  /\ ~ In "popheads_abc"
       (idsSent "taylor"
          (initEffect 7200000
             (Client.initial "taylor"
                (StoredItems [StoryItem.mk "popheads_abc" 0;
                              StoryItem.mk "popheads_xyz" 6600000])))).
Proof.
  destruct (initEffect_purges_old_entries 7200000
              (Client.initial "taylor"
                 (StoredItems [StoryItem.mk "popheads_abc" 0;
                               StoryItem.mk "popheads_xyz" 6600000]))
              [StoryItem.mk "popheads_abc" 0; StoryItem.mk "popheads_xyz" 6600000]
              eq_refl) as [Hls [_ [_ Hold]]].
  split; [exact Hls |].
  apply (Hold "popheads_abc").
  intros item [<- | [<- | []]] Hid.
  - vm_compute. discriminate.
  - discriminate Hid.
Defined.

(** ** More on the shuffle *)

Lemma Math_random_spec (w : World) :
  Math_random w = (Normal (hd 0%Q (entropy w)), mkWorld (clock w) (tl (entropy w))).
Proof. destruct w as [now [| r rest]]; reflexivity. Qed.

Lemma update_length {T} (n : nat) (x : T) (xs : list T) :
  length (update n x xs) = length xs.
Proof.
  revert n. induction xs as [| y rest IH]; intros n; [destruct n; reflexivity |].
  destruct n; simpl; [reflexivity | rewrite IH; reflexivity].
Qed.

Lemma nth_error_update_eq {T} (n : nat) (x : T) (xs : list T) :
  (n < length xs)%nat -> nth_error (update n x xs) n = Some x.
Proof.
  revert n. induction xs as [| y rest IH]; intros n H; simpl in H; [lia |].
  destruct n; simpl; [reflexivity | apply IH; lia].
Qed.

Lemma nth_error_update_neq {T} (n k : nat) (x : T) (xs : list T) :
  k <> n -> nth_error (update n x xs) k = nth_error xs k.
Proof.
  revert n k. induction xs as [| y rest IH]; intros n k H; [destruct n; reflexivity |].
  destruct n, k; simpl; try reflexivity; try congruence. apply IH. congruence.
Qed.

Lemma swap_perm {T} (i j : nat) (xs : list T) : Permutation xs (swap i j xs).
Proof.
  unfold swap.
  destruct (nth_error xs i) as [a |] eqn:Ea; [| apply Permutation_refl].
  destruct (nth_error xs j) as [b |] eqn:Eb; [| apply Permutation_refl].
  assert (Hi : (i < length xs)%nat) by (apply nth_error_Some; congruence).
  assert (Hj : (j < length xs)%nat) by (apply nth_error_Some; congruence).
  apply Permutation_nth_error. split; [rewrite !update_length; reflexivity |].
  exists (fun k => if (k =? j)%nat then i else if (k =? i)%nat then j else k).
  split.
  - intros x y H.
    destruct (Nat.eqb_spec x j), (Nat.eqb_spec y j),
             (Nat.eqb_spec x i), (Nat.eqb_spec y i); congruence.
  - intros k. destruct (Nat.eqb_spec k j) as [-> | Hkj].
    + rewrite nth_error_update_eq by (rewrite update_length; exact Hj). congruence.
    + rewrite nth_error_update_neq by exact Hkj.
      destruct (Nat.eqb_spec k i) as [-> | Hki].
      * rewrite nth_error_update_eq by exact Hi. congruence.
      * apply nth_error_update_neq. exact Hki.
Qed.

Lemma shuffleLoop_perm {T} (i : nat) (shuffled : list T) (w : World) :
  exists result,
    shuffleLoop i shuffled w
    = (Normal result, mkWorld (clock w) (skipn i (entropy w)))
    /\ Permutation shuffled result.
Proof.
  revert shuffled w. induction i as [| k IH]; intros shuffled w.
  - exists shuffled. split; [destruct w; reflexivity | apply Permutation_refl].
  - cbn [shuffleLoop]. unfold bind at 1. rewrite Math_random_spec.
    destruct (IH (shuffleStep (S k) (randomIndex (hd 0%Q (entropy w)) (S k)) shuffled)
                 (mkWorld (clock w) (tl (entropy w)))) as [result [Hrun Hperm]].
    exists result. rewrite Hrun. cbn [clock entropy]. split.
    + destruct (entropy w) as [| r rest]; cbn [tl skipn]; [rewrite skipn_nil |]; reflexivity.
    + apply Permutation_trans with (shuffleStep (S k) (randomIndex (hd 0%Q (entropy w)) (S k))
                                                shuffled); [apply swap_perm | exact Hperm].
Qed.

(** X1.  The index that the loop of [shuffleArray] draws at position [i]
    is one of [0 .. i]: the swap never reads past the part of the array
    that is still to be shuffled. *)
Theorem randomIndex_in_range (r : Q) (i : nat) :
  validDraw r -> (randomIndex r i <= i)%nat.
Proof.
  intros [H0 H1]. unfold randomIndex.
  set (n := inject_Z (Z.of_nat (i + 1))).
  assert (Hn : (0 < n)%Q).
  { unfold n. replace 0%Q with (inject_Z 0) by reflexivity. rewrite <- Zlt_Qlt. lia. }
  assert (Hlt : (r * n < n)%Q) by nra.
  pose proof (Qfloor_le (r * n)) as Hfl.
  assert (Hz : (inject_Z (Qfloor (r * n)) < inject_Z (Z.of_nat (i + 1)))%Q).
  { eapply Qle_lt_trans; [exact Hfl | exact Hlt]. }
  rewrite <- Zlt_Qlt in Hz. lia.
Qed.

(** The draw 3/4 at position 4 picks the index 3. *)
Lemma randomIndex_in_range_witness : (randomIndex (3 # 4) 4 <= 4)%nat.
Proof.
  apply (randomIndex_in_range (3 # 4) 4). split; unfold Qle, Qlt; simpl; lia.
Defined.

(** X2.  [shuffleArray] returns a rearrangement of its argument: the same
    elements, each as often as before.  A list of [n] elements costs
    [n - 1] draws of [Math.random], and the clock is not touched. *)
Theorem shuffleArray_permutes {T} (array : list T) (w : World) :
  exists shuffled,
    shuffleArray array w
    = (Normal shuffled, mkWorld (clock w) (skipn (length array - 1) (entropy w)))
    /\ Permutation array shuffled
    /\ length shuffled = length array.
Proof.
  destruct (shuffleLoop_perm (length array - 1) array w) as [result [Hrun Hperm]].
  exists result. split; [exact Hrun |]. split; [exact Hperm |].
  symmetry. apply Permutation_length. exact Hperm.
Qed.

(** ** Ranking *)

Lemma Qle_bool_false (a b : Q) : Qle_bool a b = false -> (b <= a)%Q.
Proof.
  intros H. apply Qlt_le_weak, Qnot_le_lt. intros Hle.
  apply Qle_bool_iff in Hle. congruence.
Qed.

Lemma insertDesc_descending {A} (key : A -> number) (x : A) (xs : list A) :
  descending key xs -> descending key (insertDesc key x xs).
Proof.
  induction xs as [| y rest IH]; intros H; [simpl; auto |].
  cbn [insertDesc]. destruct (Qle_bool (key y) (key x)) eqn:E.
  - cbn [descending]. split; [apply Qle_bool_iff; exact E | exact H].
  - apply Qle_bool_false in E. destruct H as [Hhead Hrest].
    specialize (IH Hrest). cbn [descending]. split; [| exact IH].
    destruct rest as [| z rest']; cbn [insertDesc]; [exact E |].
    destruct (Qle_bool (key z) (key x)); [exact E | exact Hhead].
Qed.

Lemma sortDesc_descending {A} (key : A -> number) (xs : list A) :
  descending key (sortDesc key xs).
Proof.
  induction xs as [| x rest IH]; [simpl; auto |].
  unfold sortDesc in *. cbn [fold_right]. apply insertDesc_descending. exact IH.
Qed.

Lemma insertDesc_perm {A} (key : A -> number) (x : A) (xs : list A) :
  Permutation (x :: xs) (insertDesc key x xs).
Proof.
  induction xs as [| y rest IH]; [apply Permutation_refl |].
  cbn [insertDesc]. destruct (Qle_bool (key y) (key x)); [apply Permutation_refl |].
  apply Permutation_trans with (y :: x :: rest); [apply perm_swap |].
  apply perm_skip. exact IH.
Qed.

Lemma sortDesc_perm {A} (key : A -> number) (xs : list A) :
  Permutation xs (sortDesc key xs).
Proof.
  induction xs as [| x rest IH]; [apply Permutation_refl |].
  unfold sortDesc in *. cbn [fold_right].
  apply Permutation_trans with (x :: fold_right (insertDesc key) [] rest).
  - apply perm_skip. exact IH.
  - apply insertDesc_perm.
Qed.

Lemma descending_head_max {A} (key : A -> number) (x : A) (xs : list A) :
  descending key (x :: xs) -> forall y, In y (x :: xs) -> (key y <= key x)%Q.
Proof.
  revert x. induction xs as [| z rest IH]; intros x H y Hin.
  - destruct Hin as [<- | []]. apply Qle_refl.
  - destruct H as [Hhead Hrest]. destruct Hin as [<- | Hin]; [apply Qle_refl |].
    apply Qle_trans with (key z); [apply (IH z Hrest y Hin) | exact Hhead].
Qed.

Lemma descending_firstn {A} (key : A -> number) (n : nat) (xs : list A) :
  descending key xs -> descending key (firstn n xs).
Proof.
  revert xs. induction n as [| k IH]; intros xs H; [simpl; auto |].
  destruct xs as [| x rest]; [simpl; auto |].
  destruct H as [Hhead Hrest]. cbn [firstn descending]. split; [| apply IH; exact Hrest].
  destruct rest as [| y rest']; [destruct k; simpl; auto |].
  destruct k; cbn [firstn]; [auto | exact Hhead].
Qed.

Lemma In_slice0 {A} (n : nat) (xs : list A) (x : A) : In x (slice0 n xs) -> In x xs.
Proof.
  unfold slice0. revert xs. induction n as [| k IH]; intros xs H; [contradiction |].
  destruct xs as [| y rest]; [contradiction |].
  destruct H as [-> | H]; [left; reflexivity | right; apply IH; exact H].
Qed.

Lemma sortDesc_head_max {A} (key : A -> number) (xs : list A) (best : A) :
  hd_error (sortDesc key xs) = Some best ->
  forall x, In x xs -> (key x <= key best)%Q.
Proof.
  intros Hhd x Hin.
  pose proof (sortDesc_descending key xs) as Hdesc.
  destruct (sortDesc key xs) as [| b rest] eqn:E; [discriminate |].
  injection Hhd as ->. apply (descending_head_max key best rest Hdesc).
  rewrite <- E. apply sortDesc_In. exact Hin.
Qed.

(** ** [fetchRedditPosts] *)

Section FetchFacts.

Variable search : string -> TimeRange -> list Post.t.
Variable engagement : Post.t -> list Comment -> M number.
Variable net : Network.

Hypothesis engagement_returns :
  forall post comments w, exists v, engagement post comments w = (Normal v, w).

Lemma mapM_rankPost (topic mainSubject : string) (posts : list Post.t) (w : World) :
  exists ranked,
    mapM (rankPost engagement net topic mainSubject) posts w = (Normal ranked, w)
    /\ map Ranked.post ranked = posts
    /\ Forall (fun p => Ranked.mainSubject p = mainSubject
                        /\ Ranked.isPartialMatch p = negb (String.eqb mainSubject topic)
                        /\ Ranked.topComments p
                           = interestingComments
                               (fetchPostComments net (Post.permalink (Ranked.post p))))
              ranked.
Proof.
  induction posts as [| post rest IH].
  - exists []. repeat split. constructor.
  - destruct IH as [ranked [Hrun [Hmap Hall]]].
    destruct (engagement_returns post (fetchPostComments net (Post.permalink post)) w)
      as [v Hv].
    eexists (_ :: ranked). cbn [mapM]. unfold bind at 1. unfold rankPost at 1.
    unfold bind at 1. rewrite Hv. unfold ret at 1. unfold bind at 1. rewrite Hrun.
    unfold ret. split; [reflexivity |]. cbn [map Ranked.post]. split; [congruence |].
    constructor; [cbn; auto | exact Hall].
Qed.

Lemma fetchRedditPostsWith_result (topic : string) (w w' : World) (posts : list Ranked.t) :
  fetchRedditPostsWith search engagement net topic w = (Normal posts, w') ->
  w' = w
  /\ posts <> []
  /\ (length posts <= 5)%nat
  /\ descending Ranked.engagementScore posts
  /\ exists mainSubject,
       (mainSubject = topic /\ search (dquote ++ topic ++ dquote) day <> []
        \/ search (dquote ++ topic ++ dquote) day = []
           /\ extractMainSubject topic = Normal mainSubject)
       /\ forall p, In p posts ->
            Ranked.mainSubject p = mainSubject
            /\ Ranked.isPartialMatch p = negb (String.eqb mainSubject topic)
            /\ In (Ranked.post p)
                  (if String.eqb mainSubject topic
                   then (search (dquote ++ topic ++ dquote) day ++ search topic day)%list
                   else search mainSubject day).
Proof.
  unfold fetchRedditPostsWith.
  set (quoted := search (dquote ++ topic ++ dquote) day).
  assert (Hcore : forall found mainSubject,
             found <> [] ->
             (mainSubject = topic /\ quoted <> []
              \/ quoted = [] /\ extractMainSubject topic = Normal mainSubject) ->
             (forall q, In q found ->
                In q (if String.eqb mainSubject topic then (quoted ++ search topic day)%list
                      else search mainSubject day)) ->
             match found with
             | [] => throw (Error ("No posts found for " ++ dquote ++ topic ++ dquote
                                   ++ " or " ++ dquote ++ mainSubject ++ dquote))
             | _ :: _ =>
                 postsWithEngagement <~ mapM (rankPost engagement net topic mainSubject) found ;;
                 ret (slice0 5 (sortDesc Ranked.engagementScore postsWithEngagement))
             end w = (Normal posts, w') ->
             w' = w /\ posts <> [] /\ (length posts <= 5)%nat
             /\ descending Ranked.engagementScore posts
             /\ exists mainSubject,
                  (mainSubject = topic /\ quoted <> []
                   \/ quoted = [] /\ extractMainSubject topic = Normal mainSubject)
                  /\ forall p, In p posts ->
                       Ranked.mainSubject p = mainSubject
                       /\ Ranked.isPartialMatch p = negb (String.eqb mainSubject topic)
                       /\ In (Ranked.post p)
                             (if String.eqb mainSubject topic
                              then (quoted ++ search topic day)%list
                              else search mainSubject day)).
  { intros found mainSubject Hne Hcase Hfound Hrun.
    destruct found as [| f0 frest]; [contradiction |].
    destruct (mapM_rankPost topic mainSubject (f0 :: frest) w) as [ranked [Hmap [Hposts Hall]]].
    unfold bind in Hrun. rewrite Hmap in Hrun. unfold ret in Hrun.
    assert (Hout : posts = slice0 5 (sortDesc Ranked.engagementScore ranked) /\ w' = w)
      by (split; congruence).
    clear Hrun. destruct Hout as [-> ->]. split; [reflexivity |].
    pose proof (sortDesc_perm Ranked.engagementScore ranked) as Hperm.
    assert (Hlen : length (sortDesc Ranked.engagementScore ranked) = S (length frest)).
    { rewrite <- (Permutation_length Hperm), <- (length_map Ranked.post), Hposts. reflexivity. }
    split.
    - destruct (sortDesc Ranked.engagementScore ranked); [discriminate Hlen |].
      unfold slice0. cbn [firstn]. discriminate.
    - split; [unfold slice0; rewrite length_firstn; lia |].
      split; [apply descending_firstn, sortDesc_descending |].
      exists mainSubject. split; [exact Hcase |].
      intros p Hp. apply In_slice0 in Hp.
      apply sortDesc_In in Hp. rewrite Forall_forall in Hall.
      destruct (Hall p Hp) as [H1 [H2 _]]. split; [exact H1 |]. split; [exact H2 |].
      apply Hfound. rewrite <- Hposts. apply in_map. exact Hp. }
  destruct quoted as [| q0 qrest] eqn:Equoted.
  - unfold bind at 1. unfold bind at 1, liftC at 1.
    destruct (extractMainSubject topic) as [mainSubject | e] eqn:Emain; [| discriminate].
    unfold ret at 1. intros Hrun.
    destruct (search mainSubject day) as [| s0 srest] eqn:Esearch; [discriminate |].
    apply (Hcore (s0 :: srest) mainSubject); [discriminate | right; auto | | exact Hrun].
    intros q Hq. destruct (String.eqb_spec mainSubject topic) as [-> | _];
      [cbn [app]; rewrite Esearch | rewrite Esearch]; exact Hq.
  - unfold bind at 1. unfold ret at 1. intros Hrun.
    apply (Hcore (q0 :: qrest) topic); [discriminate | left; split; [reflexivity | discriminate] | | exact Hrun].
    intros q Hq. rewrite String.eqb_refl. apply in_or_app. left. exact Hq.
Qed.

End FetchFacts.

Lemma calculateEngagementScore_total (post : Post.t) (comments : list Comment) (w : World) :
  exists v, calculateEngagementScore post comments w = (Normal v, w).
Proof. eexists. apply calculateEngagementScore_returns. Qed.

Lemma plainEngagement_total (post : Post.t) (comments : list Comment) (w : World) :
  exists v, ret (calculateEngagementScorePlain post comments) w = (Normal v, w).
Proof. eexists. reflexivity. Qed.

Lemma quoted_or_subject_relevant (net : Network) (topic mainSubject : string) (post : Post.t) :
  In post (if String.eqb mainSubject topic
           then (searchReddit net (dquote ++ topic ++ dquote) day
                 ++ searchReddit net topic day)%list
           else searchReddit net mainSubject day) ->
  isRelevant (dquote ++ topic ++ dquote) post = true \/ isRelevant mainSubject post = true.
Proof.
  destruct (String.eqb_spec mainSubject topic) as [-> | _]; intros H.
  - apply in_app_or in H. destruct H as [H | H]; [left | right];
      exact (searchReddit_sound _ _ _ _ H).
  - right. exact (searchReddit_sound _ _ _ _ H).
Qed.

(** X3.  When [fetchRedditPosts] returns, it returns between one and
    five posts, in order of non-increasing engagement score, and leaves the
    world untouched; it never returns an empty list (it throws instead).
    All returned posts carry the same [mainSubject], their
    [isPartialMatch] says whether it differs from the topic, and each of
    them passed the relevance filter for the quoted topic or for the main
    subject. *)
Theorem fetchRedditPosts_ranked (net : Network) (topic : string) (w w' : World)
    (posts : list Ranked.t) :
  fetchRedditPosts net topic w = (Normal posts, w') ->
  w' = w
  /\ (1 <= length posts <= 5)%nat
  /\ descending Ranked.engagementScore posts
  /\ exists mainSubject,
       forall p, In p posts ->
         Ranked.mainSubject p = mainSubject
         /\ Ranked.isPartialMatch p = negb (String.eqb mainSubject topic)
         /\ (isRelevant (dquote ++ topic ++ dquote) (Ranked.post p) = true
             \/ isRelevant mainSubject (Ranked.post p) = true).
Proof.
  intros H.
  destruct (fetchRedditPostsWith_result (searchReddit net) calculateEngagementScore net
              calculateEngagementScore_total topic w w' posts H)
    as [Hw [Hne [Hlen [Hdesc [mainSubject [_ Hall]]]]]].
  split; [exact Hw |]. split; [| split; [exact Hdesc |]].
  - destruct posts; [contradiction | cbn [length] in *; lia].
  - exists mainSubject. intros p Hp. destruct (Hall p Hp) as [H1 [H2 H3]].
    split; [exact H1 |]. split; [exact H2 |].
    exact (quoted_or_subject_relevant net topic mainSubject _ H3).
Qed.

(** The topic "taylor" on the sample network. *)
Lemma fetchRedditPosts_ranked_witness :
  (1 <= length samplePosts <= 5)%nat
  /\ descending Ranked.engagementScore samplePosts.
Proof.
  destruct (fetchRedditPosts_ranked quickNet "taylor" (mkWorld 0 []) (mkWorld 0 []) samplePosts)
    as [_ [Hlen [Hdesc _]]].
  - vm_compute. reflexivity.
  - split; assumption.
Defined.

(** ** The statuses of [GET] *)

Lemma topicRequired_status (net : Network) : status (topicRequired net) = 400%Z.
Proof.
  unfold topicRequired. destruct (popularHot net) as [[t |] | | e]; try reflexivity.
  destruct (truthy t); reflexivity.
Qed.

Lemma truthy_orEmpty (t : option string) :
  truthy (orEmpty t) = true -> exists topic, t = Some topic /\ truthy topic = true.
Proof.
  destruct t as [topic |]; [| discriminate]. intros H. exists topic. auto.
Qed.

Lemma storiesOfFresh_returns (net : Network) (fresh : list Ranked.t) (topic : string)
    (w : World) :
  exists result w', storiesOfFresh net fresh topic w = (Normal result, w').
Proof.
  change (storiesOfFresh net fresh topic w) with (generateStories net fresh topic [] w).
  destruct (freshPosts fresh []) as [| p ps] eqn:E.
  - eexists. eexists. apply generateStories_none. exact E.
  - destruct (generateStories_some net fresh topic [] w) as [b [f [s [w' [_ [_ [_ H]]]]]]].
    + rewrite E. discriminate.
    + eexists. eexists. exact H.
Qed.

Lemma filterC_total {A} (f : A -> bool) (xs : list A) :
  filterC (fun x => Normal (f x)) xs = Normal (filter f xs).
Proof.
  induction xs as [| x rest IH]; [reflexivity |].
  cbn [filterC filter bindC]. rewrite IH. reflexivity.
Qed.

(** On a post list that is not empty the de-duplication step throws
    exactly on the values of [breaksDeduplication]. *)
Lemma freshPostsUntyped_outcome (posts : list Ranked.t) (value : Recent) :
  posts <> [] ->
  if breaksDeduplication value
  then exists e, freshPostsUntyped posts value = Throw e
  else exists fresh, freshPostsUntyped posts value = Normal fresh.
Proof.
  intros Hne. unfold freshPostsUntyped.
  destruct value as [items | text | | | above]; cbn [breaksDeduplication lengthAboveZero bindC].
  - destruct (0 <? length items)%nat; [| eauto].
    unfold includesId. cbn [bindC]. rewrite filterC_total. eauto.
  - destruct (0 <? String.length text)%nat; [| eauto].
    unfold includesId. cbn [bindC]. rewrite filterC_total. eauto.
  - eauto.
  - eauto.
  - destruct above; [| eauto].
    destruct posts as [| post rest]; [contradiction |]. cbn [filterC includesId bindC]. eauto.
Qed.

Lemma GET_untyped (net : Network) (topic : string) (rp : RecentParam) (value : Recent)
    (w w1 : World) (posts : list Ranked.t) :
  truthy topic = true ->
  recentOf rp = Normal value ->
  fetchRedditPosts net topic w = (Normal posts, w1) ->
  exists r w2,
    GET net (mkRequest (Some topic) rp) w = (Normal r, w2)
    /\ status r = (if breaksDeduplication value then 500 else 200)%Z.
Proof.
  intros Htopic Hparse Hfetch.
  destruct (fetchRedditPostsWith_result (searchReddit net) calculateEngagementScore net
              calculateEngagementScore_total topic w w1 posts Hfetch) as [_ [Hne _]].
  pose proof (freshPostsUntyped_outcome posts value Hne) as Hfresh.
  unfold GET, tryCatchM. cbn [recentStoriesParam topicParam orEmpty].
  rewrite Hparse, Htopic. unfold bind at 1, liftC at 1. unfold bind at 1. rewrite Hfetch.
  destruct posts as [| first others]; [contradiction |].
  unfold bind at 1. unfold generateStoriesUntyped. unfold bind at 1, liftC at 1.
  destruct (breaksDeduplication value).
  - destruct Hfresh as [e ->]. eexists. eexists. split; reflexivity.
  - destruct Hfresh as [fresh ->].
    destruct (storiesOfFresh_returns net fresh topic w1) as [result [w2 ->]].
    eexists. eexists. split; reflexivity.
Qed.

(** X4.  [GET] of [/api/reddit] never throws, and it answers with one
    of three statuses, whatever the [recentStories] parameter holds.  It
    answers 500 exactly when the parameter is not JSON (even without a
    topic: the parameter is parsed first), or there is a topic and either
    the post search throws or the parameter parsed to a value on which the
    de-duplication step throws ([null], or an object whose [length]
    compares above 0); 400 exactly when the parameter parses and the topic
    is missing or empty; 200 exactly when the parameter parses to any other
    value, the topic is there and the post search returns.  The 404 reply
    of the source is never sent, because the post search throws when it
    finds nothing. *)
Theorem GET_status (net : Network) (req : Request) (w : World) :
  exists r w',
    GET net req w = (Normal r, w')
    /\ status r <> 404%Z
    /\ (status r = 500%Z
        <-> (exists e, recentOf (recentStoriesParam req) = Throw e)
            \/ (truthy (orEmpty (topicParam req)) = true
                /\ ((exists e w1,
                       fetchRedditPosts net (orEmpty (topicParam req)) w = (Throw e, w1))
                    \/ (exists value,
                          recentOf (recentStoriesParam req) = Normal value
                          /\ breaksDeduplication value = true))))
    /\ (status r = 400%Z
        <-> (exists value, recentOf (recentStoriesParam req) = Normal value)
            /\ truthy (orEmpty (topicParam req)) = false)
    /\ (status r = 200%Z
        <-> (exists value, recentOf (recentStoriesParam req) = Normal value
                           /\ breaksDeduplication value = false)
            /\ truthy (orEmpty (topicParam req)) = true
            /\ exists posts w1,
                 fetchRedditPosts net (orEmpty (topicParam req)) w = (Normal posts, w1)).
Proof.
  destruct req as [t rp]. cbn [recentStoriesParam topicParam].
  destruct (recentOf rp) as [value | e0] eqn:Hparse.
  - destruct (truthy (orEmpty t)) eqn:Htopic.
    + destruct (truthy_orEmpty t Htopic) as [topic [-> Htruthy]]. cbn [orEmpty] in *.
      destruct (fetchRedditPosts net topic w) as [[posts | e] w1] eqn:Hfetch.
      * destruct (GET_untyped net topic rp value w w1 posts Htruthy Hparse Hfetch)
          as [r [w2 [HGET Hstatus]]].
        exists r, w2. split; [exact HGET |]. rewrite Hstatus.
        destruct (breaksDeduplication value) eqn:Hbreaks.
        -- split; [discriminate |]. split; [| split].
           ++ split; [| reflexivity]. intros _. right. split; [reflexivity |].
              right. exists value. auto.
           ++ split; [discriminate | intros [_ H]; discriminate].
           ++ split; [discriminate |].
              intros [[v [Hv Hb]] _]. injection Hv as <-. congruence.
        -- split; [discriminate |]. split; [| split].
           ++ split; [discriminate |].
              intros [[e He] | [_ [[e [w3 He]] | [v [Hv Hb]]]]]; try discriminate.
              injection Hv as <-. congruence.
           ++ split; [discriminate | intros [_ H]; discriminate].
           ++ split; [| reflexivity]. intros _. split; [eauto |].
              split; [reflexivity | eauto].
      * exists (failedToProcess e), w1. split.
        { unfold GET, tryCatchM. cbn [recentStoriesParam topicParam orEmpty].
          rewrite Hparse, Htruthy. unfold bind at 1, liftC at 1. unfold bind at 1.
          rewrite Hfetch. reflexivity. }
        cbn [status failedToProcess]. split; [discriminate |]. split; [| split].
        -- split; [| reflexivity]. intros _. right. split; [reflexivity |]. left. eauto.
        -- split; [discriminate | intros [_ H]; discriminate].
        -- split; [discriminate |]. intros [_ [_ [posts [w2 H]]]]. discriminate.
    + exists (topicRequired net), w. split.
      { unfold GET, tryCatchM. cbn [recentStoriesParam topicParam].
        rewrite Hparse, Htopic. reflexivity. }
      rewrite topicRequired_status. split; [discriminate |]. split; [| split].
      * split; [discriminate |]. intros [[e He] | [H _]]; discriminate.
      * split; [| reflexivity]. intros _. split; [eauto | reflexivity].
      * split; [discriminate |]. intros [_ [H _]]. discriminate.
  - exists (failedToProcess e0), w. split.
    { unfold GET, tryCatchM. cbn [recentStoriesParam]. rewrite Hparse. reflexivity. }
    cbn [status failedToProcess]. split; [discriminate |]. split; [| split].
    + split; [| reflexivity]. intros _. left. eauto.
    + split; [discriminate |]. intros [[v H] _]. discriminate.
    + split; [discriminate |]. intros [[v [H _]] _]. discriminate.
Qed.

(** The topic "taylor" with the parameter [null]: the search returns and
    the de-duplication step throws. *)
Example GET_null_with_topic :
  fst (GET quickNet (mkRequest (Some "taylor") (JsonValue RecentNull)) (mkWorld 0 []))
  = Normal (failedToProcess
              (TypeError "Cannot read properties of null (reading 'length')")).
Proof. vm_compute. reflexivity. Qed.

(** The parameter [null] without a topic. *)
Example GET_null_without_topic :
  fst (GET quickNet (mkRequest None (JsonValue RecentNull)) (mkWorld 0 []))
  = Normal (topicRequired quickNet).
Proof. reflexivity. Qed.

(** A number as the parameter filters nothing. *)
Example GET_number_with_topic :
  fst (GET quickNet (mkRequest (Some "taylor") (JsonValue RecentScalar)) (mkWorld 0 [1 # 4]))
  = fst (GET quickNet (mkRequest (Some "taylor") NoParam) (mkWorld 0 [1 # 4])).
Proof. vm_compute. reflexivity. Qed.

(** A string as the parameter hides the posts whose identifier occurs in
    it. *)
Example GET_text_with_topic :
  fst (GET quickNet (mkRequest (Some "taylor") (JsonValue (RecentText "xpopheads_abcx")))
           (mkWorld 0 []))
  = fst (GET quickNet (mkRequest (Some "taylor") (JsonIds ["popheads_abc"])) (mkWorld 0 [])).
Proof. vm_compute. reflexivity. Qed.

(** The topic "taylor" with a [recentStories] parameter that is not JSON. *)
Example GET_bad_json_without_topic :
  GET quickNet (mkRequest None BadJson) (mkWorld 0 [])
  = (Normal (failedToProcess (SyntaxError "Unexpected token in JSON")), mkWorld 0 []).
Proof. reflexivity. Qed.

(** ** More on [extractMainSubject] *)

Lemma filterC_startsUpper_normal (words : list string) :
  ~ In EmptyString words ->
  filterC startsUpper words
  = Normal (filter (fun word => match charAt0 word with
                                | Some c => Ascii.eqb c (upperChar c)
                                | None => false
                                end) words).
Proof.
  induction words as [| word rest IH]; intros H; [reflexivity |].
  cbn [filterC filter]. destruct word as [| c word].
  - exfalso. apply H. left. reflexivity.
  - unfold startsUpper at 1. cbn [charAt0 String.get bindC].
    rewrite IH by (intros Hin; apply H; right; exact Hin).
    cbn [bindC]. reflexivity.
Qed.

Lemma find_some_of_present (topic figure : string) :
  In figure knownFigures -> occursIn figure (toLowerCase topic) ->
  exists found,
    find (fun f => includes (toLowerCase topic) f) knownFigures = Some found
    /\ In found knownFigures /\ occursIn found (toLowerCase topic).
Proof.
  intros Hin Hocc.
  destruct (find (fun f => includes (toLowerCase topic) f) knownFigures) as [found |] eqn:E.
  - exists found. apply find_some in E. destruct E as [H1 H2].
    split; [reflexivity |]. split; [exact H1 | apply includes_spec; exact H2].
  - exfalso. pose proof (find_none _ _ E figure Hin) as H. cbn beta in H.
    apply includes_false_spec in H. contradiction.
Qed.

(** X5.  [extractMainSubject] throws exactly when the topic contains none
    of the known figures and splitting it on single spaces gives an empty
    word.  A topic that contains a known figure returns a known figure it
    contains, however it is spaced: the figures are looked up before the
    words are inspected. *)
Theorem extractMainSubject_throws_iff (topic : string) :
  ((exists e, extractMainSubject topic = Throw e)
   <-> (forall figure, In figure knownFigures -> ~ occursIn figure (toLowerCase topic))
       /\ In EmptyString (split space topic))
  /\ (forall figure,
        In figure knownFigures -> occursIn figure (toLowerCase topic) ->
        exists found, extractMainSubject topic = Normal found
                      /\ In found knownFigures /\ occursIn found (toLowerCase topic)).
Proof.
  split.
  - split.
    + intros [e He]. unfold extractMainSubject in He.
      destruct (find (fun f => includes (toLowerCase topic) f) knownFigures) as [found |] eqn:E;
        [discriminate |].
      split.
      * intros figure Hin. apply includes_false_spec. exact (find_none _ _ E figure Hin).
      * destruct (in_dec string_dec EmptyString (split space topic)) as [Hin | Hout];
          [exact Hin |].
        rewrite (filterC_startsUpper_normal _ Hout) in He. cbn [bindC] in He.
        destruct (truthy _) in He; discriminate.
    + intros [Hfig Hempty]. unfold extractMainSubject.
      rewrite (find_none_of_absent topic Hfig), (filterC_startsUpper_throws _ Hempty).
      eexists. reflexivity.
  - intros figure Hin Hocc.
    destruct (find_some_of_present topic figure Hin Hocc) as [found [Hfind [H1 H2]]].
    exists found. unfold extractMainSubject. rewrite Hfind. auto.
Qed.

(** ** Splitting and joining *)

Lemma split_cons (sep : ascii) (s : string) :
  exists first rest, split sep s = first :: rest.
Proof.
  destruct (split sep s) as [| first rest] eqn:E; [| eauto].
  exfalso. exact (split_nonempty sep s E).
Qed.

Lemma split_lacks_sep (sep : ascii) (s : string) :
  Forall (lacksChar sep) (split sep s).
Proof.
  induction s as [| c t IH]; [repeat constructor |].
  cbn [split]. destruct (Ascii.eqb_spec c sep) as [-> | Hne].
  - constructor; [exact I | exact IH].
  - destruct (split sep t) as [| w ws]; [repeat constructor; assumption |].
    inversion IH as [| ? ? Hw Hws]; subst. constructor; [split; assumption | exact Hws].
Qed.

Lemma concat_cons (sep x y : string) (rest : list string) :
  String.concat sep (x :: y :: rest) = x ++ sep ++ String.concat sep (y :: rest).
Proof. reflexivity. Qed.

Lemma join_split (sep : ascii) (s : string) :
  join (String sep EmptyString) (split sep s) = s.
Proof.
  unfold join. induction s as [| c t IH]; [reflexivity |].
  cbn [split]. destruct (split_cons sep t) as [first [rest E]]. rewrite E in *.
  destruct (Ascii.eqb_spec c sep) as [-> | Hne].
  - rewrite concat_cons, IH. reflexivity.
  - destruct rest as [| second rest].
    + cbn [String.concat] in *. rewrite IH. reflexivity.
    + rewrite concat_cons in *. rewrite <- IH. reflexivity.
Qed.

Lemma split_lacking (sep : ascii) (s : string) :
  lacksChar sep s -> split sep s = [s].
Proof.
  induction s as [| c t IH]; intros H; [reflexivity |].
  destruct H as [Hne Ht]. cbn [split].
  destruct (Ascii.eqb_spec c sep) as [-> | _]; [contradiction |].
  rewrite (IH Ht). reflexivity.
Qed.

Lemma split_app_sep (sep : ascii) (a b : string) :
  lacksChar sep a -> split sep (a ++ String sep b) = a :: split sep b.
Proof.
  induction a as [| c t IH]; intros H.
  - cbn [String.append split]. rewrite Ascii.eqb_refl. reflexivity.
  - destruct H as [Hne Ht]. cbn [String.append split].
    destruct (Ascii.eqb_spec c sep) as [-> | _]; [contradiction |].
    rewrite (IH Ht). reflexivity.
Qed.

Lemma split_join (sep : ascii) (words : list string) :
  words <> [] -> Forall (lacksChar sep) words ->
  split sep (join (String sep EmptyString) words) = words.
Proof.
  unfold join. induction words as [| w rest IH]; intros Hne Hall; [contradiction |].
  inversion Hall as [| ? ? Hw Hrest]; subst.
  destruct rest as [| w2 rest].
  - cbn [String.concat]. apply split_lacking. exact Hw.
  - rewrite concat_cons. cbn [String.append]. rewrite split_app_sep by exact Hw.
    f_equal. apply IH; [discriminate | exact Hrest].
Qed.

(** X6.  Splitting on a space and joining with a space undo each other:
    joining the words of a string gives the string back, and splitting the
    join of a non-empty list of words without spaces gives the words back.
    So the three leading words that [getTrendingTopic] keeps of a title are
    exactly the words of its result, and [getTrendingTopic] answers with at
    most three words. *)
Theorem split_join_round_trip (net : Network) :
  (forall s, join " " (split space s) = s)
  /\ (forall words, words <> [] -> Forall (lacksChar space) words ->
                    split space (join " " words) = words)
  /\ (forall title, split space (join " " (slice0 3 (split space title)))
                    = slice0 3 (split space title))
  /\ (length (split space (getTrendingTopic net)) <= 3)%nat.
Proof.
  assert (Hthree : forall title, split space (join " " (slice0 3 (split space title)))
                                 = slice0 3 (split space title)).
  { intros title. apply split_join.
    - destruct (split_cons space title) as [first [rest E]]. rewrite E. discriminate.
    - pose proof (split_lacks_sep space title) as H. rewrite Forall_forall in *.
      intros w Hw. apply H. exact (In_slice0 _ _ _ Hw). }
  split; [exact (join_split space) |]. split; [exact (split_join space) |].
  split; [exact Hthree |].
  unfold getTrendingTopic.
  destruct (hotDeuxmoi net) as [titles | | e]; try (cbn; lia).
  destruct (find _ titles) as [title |]; [| cbn; lia].
  rewrite Hthree. unfold slice0. apply firstn_le_length.
Qed.

(** The title of the sample network. *)
Lemma split_join_round_trip_witness :
  split space (join " " ["Some"; "Star"; "spotted"]) = ["Some"; "Star"; "spotted"].
Proof.
  apply (proj1 (proj2 (split_join_round_trip quickNet))).
  - discriminate.
  - repeat constructor; discriminate.
Defined.

(** ** Edge cases of the token test *)

Lemma lowerChar_keeps (c d : ascii) :
  isUpperAscii d = false -> isLowerAscii d = false ->
  (lowerChar c = d <-> c = d).
Proof.
  intros Hu Hl. unfold lowerChar. destruct (isUpperAscii c) eqn:E.
  - split; intros H.
    + exfalso. subst d. revert E Hl.
      destruct c as [[] [] [] [] [] [] [] []]; vm_compute; congruence.
    + subst d. congruence.
  - reflexivity.
Qed.

Lemma toLowerCase_app (a b : string) :
  toLowerCase (a ++ b) = toLowerCase a ++ toLowerCase b.
Proof. induction a as [| c t IH]; simpl; [reflexivity | rewrite IH; reflexivity]. Qed.

Lemma toLowerCase_lacks (d : ascii) (s : string) :
  isUpperAscii d = false -> isLowerAscii d = false ->
  lacksChar d s -> lacksChar d (toLowerCase s).
Proof.
  intros Hu Hl. induction s as [| c t IH]; intros H; [exact I |].
  destruct H as [Hne Ht]. cbn [toLowerCase lacksChar]. split; [| apply IH; exact Ht].
  intros Heq. apply Hne. apply (lowerChar_keeps c d Hu Hl). exact Heq.
Qed.

Lemma split_toLowerCase (s : string) :
  split space (toLowerCase s) = map toLowerCase (split space s).
Proof.
  induction s as [| c t IH]; [reflexivity |].
  cbn [toLowerCase split]. rewrite IH.
  destruct (Ascii.eqb_spec c space) as [-> | Hne].
  - reflexivity.
  - destruct (Ascii.eqb_spec (lowerChar c) space) as [Heq | _].
    + exfalso. apply Hne. apply (lowerChar_keeps c space); [reflexivity | reflexivity | exact Heq].
    + destruct (split space t); reflexivity.
Qed.

Lemma includes_empty (s : string) : includes s EmptyString = true.
Proof. destruct s; reflexivity. Qed.

Lemma lacksChar_app (d : ascii) (a b : string) :
  lacksChar d (a ++ b) <-> lacksChar d a /\ lacksChar d b.
Proof.
  induction a as [| c t IH]; cbn [String.append lacksChar]; [tauto |].
  rewrite IH. tauto.
Qed.

(** X7.  A query with an empty word (an empty query, a space at either
    end, two spaces in a row) switches the token test off: the empty token
    occurs in every text.  Every post then passes the filter of
    [src/app/api/reddit/route.ts], and the later filter keeps exactly the
    posts with a gossip keyword or substantial content. *)
Theorem empty_token_matches_all (query : string) (post : Post.t) :
  In EmptyString (split space query) ->
  In EmptyString (searchTerms query)
  /\ hasSearchTerms query post = true
  /\ isRelevantPlain query post = true
  /\ isRelevant query post = (hasGossipIndicators post || hasSubstantialContent post).
Proof.
  intros H.
  assert (Hin : In EmptyString (searchTerms query)).
  { unfold searchTerms. rewrite split_toLowerCase.
    change EmptyString with (toLowerCase EmptyString). apply in_map. exact H. }
  assert (Hhas : hasSearchTerms query post = true).
  { unfold hasSearchTerms. apply existsb_exists. exists EmptyString.
    split; [exact Hin | apply includes_empty]. }
  split; [exact Hin |]. split; [exact Hhas |]. split; [exact Hhas |].
  unfold isRelevant. rewrite Hhas. reflexivity.
Qed.

(** The query with two spaces in a row and the post titled "taylor". *)
Lemma empty_token_matches_all_witness :
  hasSearchTerms "a  b" plainPost = true.
Proof.
  apply (empty_token_matches_all "a  b" plainPost).
  simpl. right. left. reflexivity.
Defined.

(** X8.  The first search of [fetchRedditPosts] puts the topic between
    double quotes, and the relevance filter splits that query like any
    other.  For a topic of one word the only token is the word with both
    quotes, so a post passes only if its lowercased text contains the
    lowercased word between double quotes; a post whose text has no double
    quote is dropped by both filters. *)
Theorem quoted_topic_needs_quotes (topic : string) (post : Post.t) :
  lacksChar space topic ->
  searchTerms (dquote ++ topic ++ dquote) = [dquote ++ toLowerCase topic ++ dquote]
  /\ hasSearchTerms (dquote ++ topic ++ dquote) post
     = includes (postContent post) (dquote ++ toLowerCase topic ++ dquote)
  /\ (lacksChar (ascii_of_nat 34) (postContent post) ->
      isRelevant (dquote ++ topic ++ dquote) post = false
      /\ isRelevantPlain (dquote ++ topic ++ dquote) post = false).
Proof.
  intros Hword.
  assert (Hterms : searchTerms (dquote ++ topic ++ dquote)
                   = [dquote ++ toLowerCase topic ++ dquote]).
  { unfold searchTerms. rewrite !toLowerCase_app.
    change (toLowerCase dquote) with dquote. apply split_lacking.
    apply lacksChar_app. split; [split; [discriminate | exact I] |].
    apply lacksChar_app. split; [| split; [discriminate | exact I]].
    apply toLowerCase_lacks; [reflexivity | reflexivity | exact Hword]. }
  assert (Hhas : hasSearchTerms (dquote ++ topic ++ dquote) post
                 = includes (postContent post) (dquote ++ toLowerCase topic ++ dquote)).
  { unfold hasSearchTerms. rewrite Hterms. cbn [existsb]. apply orb_false_r. }
  split; [exact Hterms |]. split; [exact Hhas |].
  intros Hnoquote.
  assert (Hfalse : hasSearchTerms (dquote ++ topic ++ dquote) post = false).
  { rewrite Hhas. apply includes_false_spec. intros [before [after Heq]].
    rewrite Heq in Hnoquote. apply lacksChar_app in Hnoquote.
    destruct Hnoquote as [_ Hq]. cbn in Hq. destruct Hq as [Hq _]. apply Hq. reflexivity. }
  unfold isRelevant, isRelevantPlain. rewrite Hfalse. split; reflexivity.
Qed.

(** The topic "taylor" and the sample post, whose text has no quote. *)
Lemma quoted_topic_needs_quotes_witness :
  isRelevant (dquote ++ "taylor" ++ dquote) rumorPost = false.
Proof.
  destruct (quoted_topic_needs_quotes "taylor" rumorPost) as [_ [_ H]].
  - repeat split; discriminate.
  - apply H. vm_compute. repeat split; discriminate.
Defined.

(** ** Errors inside [searchReddit] *)

Lemma collectSubreddits_throws (net : Network) (query : string) (range : TimeRange)
    (subs : list string) (allPosts : list Post.t) :
  (exists sub e, In sub subs /\ searchSubreddit net sub query range = FetchThrows e) ->
  exists e, collectSubreddits net query range subs allPosts = Throw e.
Proof.
  revert allPosts. induction subs as [| s rest IH]; intros allPosts [sub [e [Hin Hthrow]]].
  - contradiction.
  - cbn [collectSubreddits].
    destruct (searchSubreddit net s query range) as [posts | | e'] eqn:E.
    + apply IH. destruct Hin as [-> | Hin]; [congruence | eauto].
    + apply IH. destruct Hin as [-> | Hin]; [congruence | eauto].
    + eauto.
Qed.

(** X9.  When the request to any one of the nine gossip forums throws,
    [searchReddit] returns no post at all: the posts already gathered from
    the other forums are lost with it, and the general search is not
    tried.  (A reply with an error status is only skipped.) *)
Theorem searchReddit_empty_when_forum_throws (net : Network) (query : string)
    (range : TimeRange) :
  someForumThrows net query range -> searchReddit net query range = [].
Proof.
  intros H. unfold searchReddit, gatherPosts.
  destruct (collectSubreddits_throws net query range gossipSubreddits [] H) as [e ->].
  reflexivity.
Qed.

(** The forum "popheads" is down; the other eight would have found the
    sample post. *)
Lemma searchReddit_empty_witness : searchReddit brokenNet "taylor" day = [].
Proof.
  apply (searchReddit_empty_when_forum_throws brokenNet "taylor" day).
  exists "popheads", (TypeError "fetch failed"). split; [| reflexivity].
  simpl. tauto.
Defined.

(** ** The outcomes of [generateFakeGossip] *)

Lemma requestFakeGossip_in_time (net : Network) (req : ChatRequest) (elapsed : Z)
    (choices : list (option string)) :
  chat net req = Resolves elapsed choices -> (elapsed < timeoutMs)%Z ->
  requestFakeGossip net req = firstChoice choices.
Proof.
  intros Hchat Hlt. unfold requestFakeGossip, awaitRace, race. rewrite Hchat.
  apply Z.ltb_lt in Hlt. rewrite Hlt. reflexivity.
Qed.

(** X10.  When the completion arrives before the timer fires,
    [generateFakeGossip] returns the content of the first choice, trimmed;
    'Failed to generate a story' when that content is null or blank; and
    the fallback text when the reply has no choice at all (reading
    [choices[0].message] throws, and the throw is caught).  It never
    throws. *)
Theorem generateFakeGossip_outcomes (net : Network) (realGossip topic : string)
    (topComments : list string) (isPartialMatch : bool) (elapsed : Z)
    (choices : list (option string)) :
  chat net (mkChat fakeSystemPrompt
              (fakeGossipPrompt realGossip topic topComments isPartialMatch) 300)
  = Resolves elapsed choices ->
  (elapsed < timeoutMs)%Z ->
  generateFakeGossip net realGossip topic topComments isPartialMatch
  = Normal (storyOfChoices topic choices).
Proof.
  intros Hchat Hlt. unfold generateFakeGossip.
  rewrite (requestFakeGossip_in_time net _ elapsed choices Hchat Hlt).
  destruct choices as [| [text |] rest]; reflexivity.
Qed.

(** A reply without choices, after 20 ms. *)
Lemma generateFakeGossip_outcomes_witness :
  generateFakeGossip brokenNet "Taylor Swift rumor.." "taylor" [] false
  = Normal (fallbackGossip "taylor").
Proof.
  apply (generateFakeGossip_outcomes brokenNet "Taylor Swift rumor.." "taylor" [] false 20 []).
  - reflexivity.
  - reflexivity.
Defined.

(** ** What [generateStories] serves *)

Lemma asComments_none_pass (topComments : list string) (threshold : number) :
  filter (fun c => gtOpt (commentScore c) threshold) (asComments topComments) = [].
Proof.
  apply filter_none. intros c Hc. unfold asComments in Hc.
  apply in_map_iff in Hc. destruct Hc as [text [<- _]]. reflexivity.
Qed.

(** X11.  [generateStories] hands the [topComments] of a post (plain
    strings) to functions that read [comment.data.score]: no string passes
    their filters.  So inside [generateStories] the engagement score and the
    real story are what they would be without any comment: the comment
    quality term is 0 and no comment text enters the story. *)
Theorem topComments_are_ignored (post : Post.t) (topComments : list string) (w : World) :
  calculateEngagementScore post (asComments topComments) w
  = calculateEngagementScore post [] w
  /\ formatRedditGossip post (asComments topComments) = formatRedditGossip post []
  /\ formatRedditGossipMid post (asComments topComments) = formatRedditGossipMid post [].
Proof.
  split; [| split].
  - rewrite !calculateEngagementScore_returns.
    unfold scoreAtAge, scoreComponents, commentScores.
    rewrite asComments_none_pass. reflexivity.
  - unfold formatRedditGossip. rewrite asComments_none_pass. reflexivity.
  - unfold formatRedditGossipMid. rewrite asComments_none_pass. reflexivity.
Qed.

Lemma mapM_scorePost_scores (posts : list Ranked.t) (w : World) :
  mapM scorePost posts w
  = (Normal (map (fun p => (p, scoreInStories (clock w) p)) posts), w).
Proof. apply mapM_scorePost. Qed.

(** X12.  When [generateStories] serves stories, the real one comes from
    a post of the list that was not seen recently and whose engagement
    score, computed at that moment, is the highest among the posts not seen
    recently; [newStoryIds] holds the identifier of that post and nothing
    else. *)
Theorem generateStories_serves_best_unseen (net : Network) (posts : list Ranked.t)
    (topic : string) (recentStoryIds : list string) (w w' : World) (result : Payload.t)
    (stories : list Story.t) :
  generateStories net posts topic recentStoryIds w = (Normal result, w') ->
  Payload.stories result = Some stories ->
  exists best,
    In best posts
    /\ ~ In (storyIdOf best) recentStoryIds
    /\ (forall p, In p posts -> ~ In (storyIdOf p) recentStoryIds ->
                  (scoreInStories (clock w) p <= scoreInStories (clock w) best)%Q)
    /\ Payload.newStoryIds result = Some [storyIdOf best]
    /\ (forall s, In s stories -> Story.isReal s = true ->
                  Story.storyId s = Some (storyIdOf best)).
Proof.
  intros Hrun Hstories. unfold generateStories, storiesOfFresh in Hrun.
  unfold bind at 1 in Hrun.
  rewrite mapM_scorePost_scores in Hrun.
  set (scored := map (fun p => (p, scoreInStories (clock w) p))
                     (freshPosts posts recentStoryIds)) in *.
  destruct (hd_error (sortDesc snd scored)) as [[best s] |] eqn:Ehd.
  - assert (Hin : In (best, s) scored).
    { pose proof (sortDesc_head snd scored) as H. rewrite Ehd in H. exact H. }
    apply in_map_iff in Hin. destruct Hin as [b [Hb Hfresh]]. injection Hb as -> Hs.
    assert (Hunseen : forall p, In p (freshPosts posts recentStoryIds) <->
                                In p posts /\ ~ In (storyIdOf p) recentStoryIds).
    { intros p. unfold freshPosts. destruct recentStoryIds as [| id ids].
      - cbn. tauto.
      - cbn [length Nat.ltb Nat.leb]. rewrite filter_In, negb_true_iff.
        rewrite <- seenRecently_spec. destruct (seenRecently (id :: ids) (storyIdOf p));
          intuition congruence. }
    destruct (generateFakeGossip_total net
                (formatRedditGossip (Ranked.post best) (asComments (Ranked.topComments best)))
                topic (Ranked.topComments best) (Ranked.isPartialMatch best)) as [fake Hfake].
    rewrite Hfake in Hrun. unfold bind at 1, liftC at 1 in Hrun.
    unfold bind at 1, Date_now at 1 in Hrun. unfold bind at 1 in Hrun.
    destruct (shuffleArray_pair
                (realStoryOf best (formatRedditGossip (Ranked.post best)
                                     (asComments (Ranked.topComments best))))
                (fakeStoryOf best fake topic (clock w)) w) as [w2 [Hs2 | Hs2]];
      rewrite Hs2 in Hrun; unfold ret in Hrun;
      assert (Hres : result = Payload.mk None (Some _) (Some _) None None None
                                (Some [storyIdOf best]) None None None)
        by (injection Hrun as <- _; reflexivity);
      clear Hrun; subst result; cbn [Payload.stories Payload.newStoryIds] in *;
      injection Hstories as <-;
      exists best; apply Hunseen in Hfresh; destruct Hfresh as [Hp Hnot];
      (split; [exact Hp |]); (split; [exact Hnot |]);
      (split; [| split; [reflexivity |]]).
    + intros p Hp' Hnot'.
      assert (Hps : In (p, scoreInStories (clock w) p) scored).
      { unfold scored. apply in_map_iff. exists p. split; [reflexivity |].
        apply Hunseen. auto. }
      pose proof (sortDesc_head_max snd scored (best, s) Ehd _ Hps) as Hle.
      cbn [snd] in Hle. rewrite Hs. exact Hle.
    + intros st [<- | [<- | []]] Hreal; [reflexivity | discriminate Hreal].
    + intros p Hp' Hnot'.
      assert (Hps : In (p, scoreInStories (clock w) p) scored).
      { unfold scored. apply in_map_iff. exists p. split; [reflexivity |].
        apply Hunseen. auto. }
      pose proof (sortDesc_head_max snd scored (best, s) Ehd _ Hps) as Hle.
      cbn [snd] in Hle. rewrite Hs. exact Hle.
    + intros st [<- | [<- | []]] Hreal; [discriminate Hreal | reflexivity].
  - unfold ret in Hrun. injection Hrun as <- _. discriminate Hstories.
Qed.

(** The sample posts, none of them seen, with the draw 1/4. *)
Lemma generateStories_serves_witness :
  exists best, In best samplePosts /\ ~ In (storyIdOf best) ["popheads_xyz"].
Proof.
  edestruct (generateStories_serves_best_unseen quickNet samplePosts "taylor"
               ["popheads_xyz"] (mkWorld 0 [1 # 4])) as [best [H1 [H2 _]]].
  - vm_compute. reflexivity.
  - reflexivity.
  - exists best. split; assumption.
Defined.

(** ** The score and the clock *)

Lemma ageHours_monotone (now1 now2 : Z) (timestamp : number) :
  (now1 <= now2)%Z -> (ageHours now1 timestamp <= ageHours now2 timestamp)%Q.
Proof.
  intros H. unfold ageHours. rewrite Zle_Qle in H.
  set (a := inject_Z now1) in *. set (b := inject_Z now2) in *. clearbody a b.
  unfold Qdiv. change (/ 1000)%Q with (1 # 1000). change (/ 3600)%Q with (1 # 3600). lra.
Qed.

Lemma freshness_antitone (age1 age2 : number) :
  (age1 <= age2)%Q -> (Qmax 0 (100 - age2) <= Qmax 0 (100 - age1))%Q.
Proof.
  intros H. apply Q.max_le_compat; [apply Qle_refl | lra].
Qed.

(** X13.  With the post and the comments fixed, the engagement score
    never grows as the clock advances: the only term that reads the clock is
    the freshness bonus, which falls by two points an hour until it reaches
    0 and never goes below 0. *)
Theorem engagement_decays_with_time (post : Post.t) (comments : list Comment)
    (w1 w2 : World) :
  (clock w1 <= clock w2)%Z ->
  exists v1 v2,
    calculateEngagementScore post comments w1 = (Normal v1, w1)
    /\ calculateEngagementScore post comments w2 = (Normal v2, w2)
    /\ (v2 <= v1)%Q
    /\ (v1 - v2 <= 200 + 2 * (ageHours (clock w2) (Post.created_utc post)
                              - ageHours (clock w1) (Post.created_utc post)))%Q.
Proof.
  intros H. eexists. eexists. rewrite !calculateEngagementScore_returns.
  split; [reflexivity |]. split; [reflexivity |].
  pose proof (ageHours_monotone _ _ (Post.created_utc post) H) as Hage.
  pose proof (freshness_antitone _ _ Hage) as Hfresh.
  pose proof (Q.le_max_l 0 (100 - ageHours (clock w2) (Post.created_utc post))) as H0.
  unfold scoreAtAge, scoreComponents, sumQ. cbn [fold_left].
  set (a1 := ageHours (clock w1) (Post.created_utc post)) in *.
  set (a2 := ageHours (clock w2) (Post.created_utc post)) in *.
  assert (Hup : (Qmax 0 (100 - a1) <= 100 + (a2 - a1) + Qmax 0 (100 - a2))%Q).
  { apply Q.max_lub; [lra |].
    pose proof (Q.le_max_r 0 (100 - a2)). lra. }
  set (f1 := Qmax 0 (100 - a1)) in *. set (f2 := Qmax 0 (100 - a2)) in *.
  clearbody f1 f2 a1 a2. split; lra.
Qed.

(** The sample post at its creation and ten hours later. *)
Lemma engagement_decays_witness :
  exists v1 v2,
    calculateEngagementScore rumorPost [] (mkWorld 0 []) = (Normal v1, mkWorld 0 [])
    /\ calculateEngagementScore rumorPost [] (mkWorld 36000000 [])
       = (Normal v2, mkWorld 36000000 [])
    /\ (v2 <= v1)%Q.
Proof.
  destruct (engagement_decays_with_time rumorPost [] (mkWorld 0 []) (mkWorld 36000000 []))
    as [v1 [v2 [H1 [H2 [H3 _]]]]].
  - cbn. lia.
  - exists v1, v2. auto.
Defined.

(** ** The choice of [/api/gossip] *)

Lemma mostEngaging_fold (best : Post.t) (others : list Post.t) :
  let chosen := fold_left (fun b current =>
                             if gtNaN (roughScore current) (roughScore b) then current else b)
                          others best in
  In chosen (best :: others)
  /\ ((forall p, In p (best :: others) -> roughScore p <> None) ->
      forall p, In p (best :: others) ->
        (numberOf (roughScore p) <= numberOf (roughScore chosen))%Q).
Proof.
  revert best. induction others as [| o rest IH]; intros best; cbn zeta.
  - cbn [fold_left]. split; [left; reflexivity |].
    intros _ p [<- | []]. apply Qle_refl.
  - cbn [fold_left].
    destruct (gtNaN (roughScore o) (roughScore best)) eqn:E.
    + destruct (IH o) as [Hin Hmax]. split.
      * destruct Hin as [<- | Hin]; [right; left; reflexivity | right; right; exact Hin].
      * intros Hdef p Hp.
        assert (Hdef' : forall q, In q (o :: rest) -> roughScore q <> None)
          by (intros q Hq; apply Hdef; right; exact Hq).
        destruct Hp as [<- | Hp]; [| apply (Hmax Hdef' p Hp)].
        apply Qle_trans with (numberOf (roughScore o)); [| apply (Hmax Hdef' o); left; reflexivity].
        unfold gtNaN in E.
        destruct (roughScore o) as [x |], (roughScore best) as [y |]; try discriminate.
        cbn [numberOf]. apply negb_true_iff in E. apply Qle_bool_false. exact E.
    + destruct (IH best) as [Hin Hmax]. split.
      * destruct Hin as [<- | Hin]; [left; reflexivity | right; right; exact Hin].
      * intros Hdef p Hp.
        assert (Hdef' : forall q, In q (best :: rest) -> roughScore q <> None).
        { intros q [<- | Hq]; apply Hdef; [left; reflexivity | right; right; exact Hq]. }
        destruct Hp as [<- | [<- | Hp]].
        -- apply (Hmax Hdef' best). left. reflexivity.
        -- apply Qle_trans with (numberOf (roughScore best));
             [| apply (Hmax Hdef' best); left; reflexivity].
           unfold gtNaN in E.
           pose proof (Hdef o (or_intror (or_introl eq_refl))) as Hp1.
           pose proof (Hdef best (or_introl eq_refl)) as Hp2.
           destruct (roughScore o) as [x |], (roughScore best) as [y |]; try congruence.
           cbn [numberOf]. apply negb_false_iff in E. apply Qle_bool_iff. exact E.
        -- apply (Hmax Hdef' p). right. exact Hp.
Qed.

(** X14.  The post that [/api/gossip] builds its real story from is one
    of the posts found.  When every post found has a vote count and a
    comment count, it is one with the highest value of
    [score * 1.5 + num_comments]. *)
Theorem mostEngaging_is_maximal (first : Post.t) (others : list Post.t) :
  In (mostEngaging first others) (first :: others)
  /\ ((forall p, In p (first :: others) -> roughScore p <> None) ->
      forall p, In p (first :: others) ->
        (numberOf (roughScore p) <= numberOf (roughScore (mostEngaging first others)))%Q).
Proof. unfold mostEngaging. apply mostEngaging_fold. Qed.

(** ** The intermediate revision *)

Lemma postsToUse_nonempty (posts : list Ranked.t) (recentStoryIds : list string) :
  posts <> [] ->
  exists best rest,
    postsToUse posts recentStoryIds = best :: rest
    /\ In best posts
    /\ ((forall p, In p posts -> In (storyIdOf p) recentStoryIds) ->
        hd_error posts = Some best)
    /\ (freshPosts posts recentStoryIds <> [] -> ~ In (storyIdOf best) recentStoryIds
                                                 \/ recentStoryIds = []).
Proof.
  intros Hne. unfold postsToUse.
  destruct (freshPosts posts recentStoryIds) as [| f frest] eqn:E.
  - destruct posts as [| p rest]; [contradiction |].
    exists p, rest. split; [reflexivity |]. split; [left; reflexivity |].
    split; [reflexivity | intros H; contradiction].
  - exists f, frest. split; [reflexivity |].
    assert (Hin : In f (freshPosts posts recentStoryIds)) by (rewrite E; left; reflexivity).
    split; [exact (freshPosts_subset _ _ _ Hin) |]. split.
    + intros Hall. rewrite (freshPosts_all_seen posts recentStoryIds Hne Hall) in E.
      discriminate.
    + intros _. unfold freshPosts in Hin. destruct recentStoryIds as [| id ids]; [right; reflexivity |].
      left. cbn [length Nat.ltb Nat.leb] in Hin. apply filter_In in Hin.
      destruct Hin as [_ Hneg]. apply negb_true_iff in Hneg. intros Hseen.
      apply seenRecently_spec in Hseen. congruence.
Qed.

Lemma generateStoriesMid_serves (net : Network) (posts : list Ranked.t) (topic : string)
    (recentStoryIds : list string) (w : World) :
  posts <> [] ->
  exists result w' best,
    generateStoriesMid net posts topic recentStoryIds w = (Normal result, w')
    /\ twoStoriesOneReal result
    /\ hd_error (postsToUse posts recentStoryIds) = Some best
    /\ In best posts
    /\ Payload.newStoryIds result = Some [storyIdOf best]
    /\ ((forall p, In p posts -> In (storyIdOf p) recentStoryIds) ->
        hd_error posts = Some best).
Proof.
  intros Hne.
  destruct (postsToUse_nonempty posts recentStoryIds Hne)
    as [best [rest [Huse [Hin [Hseen _]]]]].
  unfold generateStoriesMid. rewrite Huse. unfold storiesOfFirst.
  destruct (generateFakeGossipPlain_total net
              (formatRedditGossipMid (Ranked.post best) (asComments (Ranked.topComments best)))
              topic (Ranked.topComments best) (Ranked.isPartialMatch best)) as [fake Hfake].
  rewrite Hfake. unfold bind at 1, liftC at 1. unfold bind at 1, Date_now at 1.
  unfold bind at 1.
  destruct (shuffleArray_pair
              (realStoryOf best (formatRedditGossipMid (Ranked.post best)
                                   (asComments (Ranked.topComments best))))
              (fakeStoryOf best fake topic (clock w)) w) as [w' [Hs | Hs]];
    rewrite Hs; unfold ret; eexists; exists w', best;
    (split; [reflexivity |]);
    (split; [apply (twoStories_of_pair
                      (realStoryOf best (formatRedditGossipMid (Ranked.post best)
                                           (asComments (Ranked.topComments best))))
                      (fakeStoryOf best fake topic (clock w)));
               [reflexivity | reflexivity | auto] |]);
    cbn [hd_error Payload.newStoryIds]; auto.
Qed.

Lemma generateStoriesMidUntyped_ids (net : Network) (posts : list Ranked.t)
    (topic : string) (ids : list string) (w : World) :
  generateStoriesMidUntyped net posts topic (RecentArray (map Some ids)) w
  = generateStoriesMid net posts topic ids w.
Proof.
  unfold generateStoriesMidUntyped, generateStoriesMid, postsToUseUntyped, postsToUse.
  unfold bind, liftC. rewrite freshPostsUntyped_ids. cbn [bindC].
  destruct (freshPosts posts ids); reflexivity.
Qed.

(** X15.  In the revision between the first and the last,
    [generateStories] falls back to all posts when none is fresh: for a
    non-empty list of posts it always serves two stories, one real and one
    fake, built from the first post that was not seen recently or, when all
    were seen, from the first post again.  Whenever the post search of
    that revision returns, [GET] answers 200 with the two stories. *)
Theorem mid_revision_always_serves (net : Network) (topic : string)
    (recentStoryIds : list string) :
  (forall posts w,
      posts <> [] ->
      exists result w' best,
        generateStoriesMid net posts topic recentStoryIds w = (Normal result, w')
        /\ twoStoriesOneReal result
        /\ hd_error (postsToUse posts recentStoryIds) = Some best
        /\ In best posts
        /\ Payload.newStoryIds result = Some [storyIdOf best]
        /\ ((forall p, In p posts -> In (storyIdOf p) recentStoryIds) ->
            hd_error posts = Some best))
  /\ (forall rp w posts w1,
        truthy topic = true ->
        parseRecent rp = Normal recentStoryIds ->
        fetchRedditPostsMid net topic w = (Normal posts, w1) ->
        exists r w2, GETMid net (mkRequest (Some topic) rp) w = (Normal r, w2)
                     /\ status r = 200%Z /\ twoStoriesOneReal (body r)).
Proof.
  split; [intros posts w; apply generateStoriesMid_serves |].
  intros rp w posts w1 Htopic Hparse Hfetch.
  destruct (fetchRedditPostsWith_result (searchReddit net)
              (fun post comments => ret (calculateEngagementScorePlain post comments)) net
              plainEngagement_total topic w w1 posts Hfetch) as [_ [Hne _]].
  destruct (generateStoriesMid_serves net posts topic recentStoryIds w1 Hne)
    as [result [w2 [best [Hgen [Htwo _]]]]].
  unfold GETMid, tryCatchM. cbn [recentStoriesParam topicParam orEmpty].
  rewrite (parseRecent_recentOf rp recentStoryIds Hparse), Htopic.
  unfold bind at 1, liftC at 1. unfold bind at 1. rewrite Hfetch.
  destruct posts as [| first others]; [contradiction |].
  unfold bind at 1. rewrite generateStoriesMidUntyped_ids, Hgen. unfold ret.
  eexists. exists w2. split; [reflexivity |]. split; [reflexivity |].
  destruct Htwo as [s0 [s1 [Hst [Hreal Hidx]]]].
  exists s0, s1. cbn [body Payload.stories Payload.correctIndex]. auto.
Qed.

(** The one sample post has been seen, and it is served again. *)
Lemma mid_revision_witness :
  exists r w2,
    GETMid quickNet (mkRequest (Some "taylor") (JsonIds ["popheads_abc"]))
           (mkWorld 0 [1 # 4]) = (Normal r, w2)
    /\ status r = 200%Z /\ twoStoriesOneReal (body r).
Proof.
  eapply (proj2 (mid_revision_always_serves quickNet "taylor" ["popheads_abc"])).
  - reflexivity.
  - reflexivity.
  - vm_compute. reflexivity.
Defined.

(** ** The seen-story list over several mounts and responses *)

Example rememberStories_first_story :
  Client.recentStories
    (rememberStories 1000 (Some ["popheads_abc"]) (Client.initial "taylor" NotStored))
  = ["popheads_abc"].
Proof. reflexivity. Qed.

Lemma recentItems_later (t1 t2 : Z) (items : list StoryItem.t) :
  (t1 <= t2)%Z -> recentItems t2 (recentItems t1 items) = recentItems t2 items.
Proof.
  intros H. unfold recentItems. induction items as [| item rest IH]; [reflexivity |].
  cbn [filter].
  destruct (t1 - oneHourMs <? StoryItem.timestamp item)%Z eqn:E1.
  - cbn [filter]. rewrite IH. reflexivity.
  - rewrite IH. destruct (t2 - oneHourMs <? StoryItem.timestamp item)%Z eqn:E2; [| reflexivity].
    apply Z.ltb_lt in E2. apply Z.ltb_ge in E1. lia.
Qed.

(** X16.  Mounting twice is mounting once at the later time: a mount at
    [t2] after a mount at [t1 <= t2] leaves the component and the storage
    exactly as a single mount at [t2] would.  In particular a second mount at
    the same time changes nothing, and storage that could not be read is
    removed by the first mount. *)
Theorem initEffect_later_mount (t1 t2 : Z) (st : Client.t) :
  (t1 <= t2)%Z ->
  initEffect t2 (initEffect t1 st) = initEffect t2 st
  /\ (Client.localStorage st = StoredGarbage ->
      Client.localStorage (initEffect t1 st) = NotStored
      /\ Client.recentStories (initEffect t1 st) = Client.recentStories st).
Proof.
  intros H. destruct st as [tp ss si ci rv ld gs tl sc at_ go rs er ls].
  split.
  - destruct ls as [| items |]; unfold initEffect; cbn; try reflexivity.
    rewrite (recentItems_later t1 t2 items H). reflexivity.
  - cbn [Client.localStorage]. intros ->. split; reflexivity.
Qed.

(** Two entries, a mount after 50 minutes and one after 70 minutes. *)
Lemma initEffect_later_mount_witness :
  initEffect 4200000
    (initEffect 3000000
       (Client.initial "taylor"
          (StoredItems [StoryItem.mk "popheads_abc" 0; StoryItem.mk "popheads_xyz" 1000000])))
  = initEffect 4200000
      (Client.initial "taylor"
         (StoredItems [StoryItem.mk "popheads_abc" 0; StoryItem.mk "popheads_xyz" 1000000])).
Proof.
  apply (initEffect_later_mount 3000000 4200000). lia.
Defined.

Lemma fetchGossip_accepted (response : Response) (now : Z) (st : Client.t) :
  Client.error (fetchGossip (Normal response) now st) = None ->
  fetchGossip (Normal response) now st
  = Client.setLoading false
      (acceptResponse now (body response)
         (Client.setError None (Client.setLoading true st))).
Proof.
  intros H.
  destruct (fetchGossip_accepts_only (Normal response) now st H)
    as [r [i [Hr [Hok [Hst [Hidx Hnz]]]]]].
  injection Hr as <-. unfold fetchGossip. rewrite Hok. cbn [negb].
  assert (Hinv : invalidResponse (body response) = false).
  { unfold invalidResponse. rewrite Hidx.
    destruct (Payload.stories (body response)); [| contradiction].
    cbn. apply Z.eqb_neq in Hnz. rewrite Hnz. reflexivity. }
  rewrite Hinv. reflexivity.
Qed.

Lemma accepted_response_restamps_helper (response : Response) (now : Z) (st : Client.t)
    (id : string) (ids : list string) :
  Client.error (fetchGossip (Normal response) now st) = None ->
  Payload.newStoryIds (body response) = Some (id :: ids) ->
  Client.recentStories (fetchGossip (Normal response) now st)
  = (Client.recentStories st ++ id :: ids)%list
  /\ Client.localStorage (fetchGossip (Normal response) now st)
     = StoredItems (map (fun i => StoryItem.mk i now)
                        (Client.recentStories st ++ id :: ids)%list).
Proof.
  intros Herr Hnew. rewrite (fetchGossip_accepted response now st Herr).
  unfold acceptResponse. rewrite Hnew.
  destruct st as [tp ss si ci rv ld gs tl sc at_ go rs er ls].
  cbn -[app map].
  split; [| rewrite <- map_app; reflexivity].
  rewrite <- map_app, map_map. cbn [StoryItem.id]. apply map_id.
Qed.

(** X17.  An accepted response that names new stories writes every
    identifier the component knows, old and new, back to storage with the
    time of the response: [recentStories] grows by the new identifiers, all
    stored entries carry the new time, and a mount within the next hour
    keeps every one of them, however long ago an identifier was first
    seen. *)
Theorem accepted_response_restamps (response : Response) (now : Z) (st : Client.t)
    (id : string) (ids : list string) :
  Client.error (fetchGossip (Normal response) now st) = None ->
  Payload.newStoryIds (body response) = Some (id :: ids) ->
  Client.recentStories (fetchGossip (Normal response) now st)
  = (Client.recentStories st ++ id :: ids)%list
  /\ Client.localStorage (fetchGossip (Normal response) now st)
     = StoredItems (map (fun i => StoryItem.mk i now)
                        (Client.recentStories st ++ id :: ids)%list)
  /\ forall later,
       (later - oneHourMs < now)%Z ->
       Client.recentStories (initEffect later (fetchGossip (Normal response) now st))
       = (Client.recentStories st ++ id :: ids)%list.
Proof.
  intros Herr Hnew.
  destruct (accepted_response_restamps_helper response now st id ids Herr Hnew)
    as [Hids Hstore].
  split; [exact Hids |]. split; [exact Hstore |].
  intros later Hlater.
  destruct (initEffect_stored later _ _ Hstore) as [_ Hrecent].
  rewrite Hrecent. unfold recentItems. rewrite filter_all.
  - rewrite map_map. cbn [StoryItem.id]. apply map_id.
  - intros item Hitem. apply in_map_iff in Hitem.
    destruct Hitem as [i [<- _]]. cbn [StoryItem.timestamp]. apply Z.ltb_lt. exact Hlater.
Qed.

(** An identifier stored at time 0 and a response accepted two and a
    half hours later. *)
Lemma accepted_response_restamps_witness :
  Client.recentStories (fetchGossip (Normal realSecondResponse) 9000000 returningClient)
  = ["popheads_old"; "popheads_abc"]
  /\ Client.localStorage (fetchGossip (Normal realSecondResponse) 9000000 returningClient)
     = StoredItems [StoryItem.mk "popheads_old" 9000000; StoryItem.mk "popheads_abc" 9000000].
Proof.
  destruct (accepted_response_restamps realSecondResponse 9000000 returningClient
              "popheads_abc" []) as [H1 [H2 _]].
  - vm_compute. reflexivity.
  - vm_compute. reflexivity.
  - split; [exact H1 | exact H2].
Defined.

Lemma freshPosts_unseen (posts : list Ranked.t) (recentStoryIds : list string) (p : Ranked.t) :
  In p (freshPosts posts recentStoryIds) -> ~ In (storyIdOf p) recentStoryIds.
Proof.
  unfold freshPosts. destruct recentStoryIds as [| id ids]; [intros _ []|].
  cbn [length Nat.ltb Nat.leb]. intros H. apply filter_In in H. destruct H as [_ H].
  apply negb_true_iff in H. intros Hseen. apply seenRecently_spec in Hseen. congruence.
Qed.

Lemma generateStories_real_unseen (net : Network) (posts : list Ranked.t) (topic : string)
    (recentStoryIds : list string) (w w' : World) (result : Payload.t)
    (stories : list Story.t) (s : Story.t) :
  generateStories net posts topic recentStoryIds w = (Normal result, w') ->
  Payload.stories result = Some stories ->
  In s stories -> Story.isReal s = true ->
  exists id, Story.storyId s = Some id /\ ~ In id recentStoryIds.
Proof.
  intros Hrun Hstories Hin Hreal.
  destruct (freshPosts posts recentStoryIds) as [| f frest] eqn:E.
  - rewrite (generateStories_none net posts topic recentStoryIds w E) in Hrun.
    injection Hrun as <- _. discriminate Hstories.
  - destruct (generateStories_some net posts topic recentStoryIds w)
      as [best [fake [shuffled [w2 [Hbest [_ [Hshape Hgen]]]]]]]; [rewrite E; discriminate |].
    rewrite Hgen in Hrun. injection Hrun as <- _.
    cbn [Payload.stories] in Hstories. injection Hstories as <-.
    exists (storyIdOf best). split; [| exact (freshPosts_unseen _ _ _ Hbest)].
    cbn zeta in Hshape. destruct Hshape as [-> | ->];
      destruct Hin as [<- | [<- | []]]; try reflexivity; discriminate Hreal.
Qed.

(** X18.  A story that the client accepted is not served to it again:
    the identifiers named by an accepted response are among those the next
    request sends, and [generateStories] never builds the real story from a
    post whose identifier it was sent. *)
Theorem accepted_story_not_served_again (response : Response) (now : Z) (st : Client.t)
    (newIds : list string) :
  Client.error (fetchGossip (Normal response) now st) = None ->
  Payload.newStoryIds (body response) = Some newIds ->
  forall id, In id newIds ->
    forall searchTopic,
      In id (idsSent searchTopic (fetchGossip (Normal response) now st))
      /\ forall net posts topic w result w' stories s,
           generateStories net posts topic
             (idsSent searchTopic (fetchGossip (Normal response) now st)) w
           = (Normal result, w') ->
           Payload.stories result = Some stories ->
           In s stories -> Story.isReal s = true ->
           Story.storyId s <> Some id.
Proof.
  intros Herr Hnew id Hid searchTopic.
  assert (Hsent : In id (idsSent searchTopic (fetchGossip (Normal response) now st))).
  { unfold idsSent, gossipRequest. cbn [recentStoriesParam parseRecent].
    destruct newIds as [| n ns]; [contradiction |].
    destruct (accepted_response_restamps_helper response now st n ns Herr Hnew) as [-> _].
    apply in_or_app. right. exact Hid. }
  split; [exact Hsent |].
  intros net posts topic w result w' stories s Hrun Hstories Hin Hreal Heq.
  destruct (generateStories_real_unseen net posts topic _ w w' result stories s
              Hrun Hstories Hin Hreal) as [id' [Hs Hnot]].
  rewrite Hs in Heq. injection Heq as ->. contradiction.
Qed.

(** The response with the real story second is accepted, and its story
    is sent with the next request. *)
Lemma accepted_story_witness :
  In "popheads_abc"
     (idsSent "taylor" (fetchGossip (Normal realSecondResponse) 9000000 returningClient)).
Proof.
  apply (accepted_story_not_served_again realSecondResponse 9000000 returningClient
           ["popheads_abc"]).
  - vm_compute. reflexivity.
  - vm_compute. reflexivity.
  - left. reflexivity.
Defined.

(** ** The game *)

Lemma fetchGossip_keeps_counters (reply : Completion Response) (now : Z) (st : Client.t) :
  Client.score (fetchGossip reply now st) = Client.score st
  /\ Client.attempts (fetchGossip reply now st) = Client.attempts st
  /\ Client.timeLeft (fetchGossip reply now st) = Client.timeLeft st
  /\ Client.gameOver (fetchGossip reply now st) = Client.gameOver st
  /\ Client.loading (fetchGossip reply now st) = false.
Proof.
  destruct st as [tp ss si ci rv ld gs tl sc at_ go rs er ls].
  unfold fetchGossip. destruct reply as [response | e]; [| repeat split].
  destruct (responseOk response); cbn [negb].
  - destruct (invalidResponse (body response)); [repeat split |].
    unfold acceptResponse, rememberStories.
    destruct (Payload.newStoryIds (body response)) as [[| n ns] |]; repeat split.
  - destruct (truthy (orEmpty (Payload.suggestion (body response)))); repeat split.
Qed.

Lemma tick_invariant (st : Client.t) : gameInvariant st -> gameInvariant (tick st).
Proof.
  destruct st as [tp ss si ci rv ld gs tl sc at_ go rs er ls].
  unfold gameInvariant, tick, roundSeconds. cbn. intros [Hs [Ht Hg]].
  destruct (gs && negb go && (0 <? tl)%Z) eqn:E; [| cbn; auto].
  destruct (tl <=? 1)%Z eqn:E1; cbn.
  - repeat split; try lia.
  - apply Z.leb_gt in E1. apply andb_true_iff in E. destruct E as [E _].
    apply andb_true_iff in E. destruct E as [_ E]. apply negb_true_iff in E. subst go.
    repeat split; try lia; try discriminate.
Qed.

Lemma handleGuess_invariant (index : Z) (st : Client.t) :
  gameInvariant st -> gameInvariant (handleGuess index st).
Proof.
  destruct st as [tp ss si ci rv ld gs tl sc at_ go rs er ls].
  unfold gameInvariant, handleGuess. cbn. intros [Hs [Ht Hg]].
  destruct ((si =? -1)%Z && negb rv); [| cbn; auto].
  destruct (index =? ci)%Z; cbn; repeat split; try lia; exact Hg.
Qed.

Lemma fetchGossip_invariant (reply : Completion Response) (now : Z) (st : Client.t) :
  gameInvariant st -> gameInvariant (fetchGossip reply now st).
Proof.
  unfold gameInvariant.
  destruct (fetchGossip_keeps_counters reply now st) as [-> [-> [-> [-> _]]]]. auto.
Qed.

Lemma step_invariant (st : Client.t) (ev : Event) :
  gameInvariant st -> gameInvariant (step st ev).
Proof.
  intros H. destruct ev as [| index | reply now | reply now]; cbn [step].
  - apply tick_invariant. exact H.
  - apply handleGuess_invariant. exact H.
  - unfold handleStartGame.
    match goal with
    | |- gameInvariant (if _ then fetchGossip _ _ ?s else _) =>
        assert (Hreset : gameInvariant s)
    end.
    { destruct st. unfold gameInvariant, roundSeconds. cbn.
      repeat split; try lia; try discriminate. }
    destruct (truthy _); [apply fetchGossip_invariant |]; exact Hreset.
  - unfold handleNextGossip. destruct (truthy _); [apply fetchGossip_invariant |]; exact H.
Qed.

(** X19.  Whatever the player and the network do, in whatever order, the
    counters of the game stay sound: the score is never negative and never
    above the number of attempts, the time left stays between 0 and the 30
    seconds of a round, and once the game is over the time left is 0. *)
Theorem game_counters_stay_sound (searchTopic : string) (storage : Stored)
    (now : Z) (events : list Event) :
  gameInvariant (run events (initEffect now (Client.initial searchTopic storage))).
Proof.
  assert (Hinit : gameInvariant (initEffect now (Client.initial searchTopic storage))).
  { unfold initEffect, gameInvariant, roundSeconds.
    destruct storage; cbn; repeat split; try lia; discriminate. }
  revert Hinit. generalize (initEffect now (Client.initial searchTopic storage)).
  unfold run. induction events as [| ev rest IH]; intros st H; [exact H |].
  cbn [fold_left]. apply IH. apply step_invariant. exact H.
Qed.

Lemma countdown_steps (n : nat) (st : Client.t) :
  Client.gameStarted st = true -> Client.gameOver st = false ->
  (0 < Client.timeLeft st)%Z ->
  Client.gameStarted (Nat.iter n tick st) = true
  /\ Client.timeLeft (Nat.iter n tick st) = Z.max 0 (Client.timeLeft st - Z.of_nat n)
  /\ Client.gameOver (Nat.iter n tick st) = (Client.timeLeft st <=? Z.of_nat n)%Z
  /\ Client.score (Nat.iter n tick st) = Client.score st
  /\ Client.attempts (Nat.iter n tick st) = Client.attempts st.
Proof.
  intros Hgs Hgo Htl. induction n as [| k IH].
  - change (Nat.iter 0 tick st) with st. cbn [Z.of_nat]. split; [exact Hgs |].
    split; [rewrite Z.max_r; lia |].
    split; [| split; reflexivity].
    rewrite Hgo. symmetry. apply Z.leb_gt. cbn. exact Htl.
  - change (Nat.iter (S k) tick st) with (tick (Nat.iter k tick st)).
    destruct IH as [Hs [Ht [Ho [Hsc Hat]]]].
    remember (Nat.iter k tick st) as cur.
    destruct cur as [tp ss si ci rv ld gs tl sc at_ go rs er ls].
    cbn in Hs, Ht, Ho, Hsc, Hat. subst gs. unfold tick. cbn.
    destruct (Client.timeLeft st <=? Z.of_nat k)%Z eqn:E.
    + apply Z.leb_le in E. subst go. cbn. repeat split; try assumption; try lia.
      symmetry. apply Z.leb_le. lia.
    + apply Z.leb_gt in E. subst go. cbn.
      assert (Hpos : (0 <? tl)%Z = true) by (apply Z.ltb_lt; lia). rewrite Hpos.
      destruct (tl <=? 1)%Z eqn:E1; cbn.
      * apply Z.leb_le in E1. repeat split; try assumption; try lia.
        symmetry. apply Z.leb_le. lia.
      * apply Z.leb_gt in E1. repeat split; try assumption; try lia.
        symmetry. apply Z.leb_gt. lia.
Qed.

(** X20.  The countdown: in a started game with [t > 0] seconds left,
    [n] firings of the timer leave [max 0 (t - n)] seconds, and the game is
    over from the [t]-th firing on; later firings change nothing, and the
    timer never touches the score or the attempts.  A fresh round is over
    after exactly 30 firings. *)
Theorem countdown_ends_the_game (n : nat) (st : Client.t) :
  Client.gameStarted st = true -> Client.gameOver st = false ->
  (0 < Client.timeLeft st)%Z ->
  Client.timeLeft (Nat.iter n tick st) = Z.max 0 (Client.timeLeft st - Z.of_nat n)
  /\ Client.gameOver (Nat.iter n tick st) = (Client.timeLeft st <=? Z.of_nat n)%Z
  /\ Client.score (Nat.iter n tick st) = Client.score st
  /\ Client.attempts (Nat.iter n tick st) = Client.attempts st
  /\ (Client.gameOver (Nat.iter n tick st) = true ->
      tick (Nat.iter n tick st) = Nat.iter n tick st).
Proof.
  intros Hgs Hgo Htl.
  destruct (countdown_steps n st Hgs Hgo Htl) as [_ [Ht [Ho [Hs Ha]]]].
  repeat (split; [assumption |]).
  intros Hover. set (cur := Nat.iter n tick st) in *. clearbody cur.
  unfold tick. rewrite Hover. cbn [negb]. rewrite andb_false_r. reflexivity.
Qed.

(** A round started on the sample response: 29 firings leave one second,
    the 30th ends the game. *)
Lemma countdown_witness :
  Client.timeLeft
    (Nat.iter 29 tick
       (handleStartGame (Normal realSecondResponse) 0 (Client.initial "taylor" NotStored)))
  = 1%Z
  /\ Client.gameOver
       (Nat.iter 30 tick
          (handleStartGame (Normal realSecondResponse) 0 (Client.initial "taylor" NotStored)))
     = true.
Proof.
  split.
  - destruct (countdown_ends_the_game 29
                (handleStartGame (Normal realSecondResponse) 0
                                 (Client.initial "taylor" NotStored))) as [H _];
      [vm_compute; reflexivity | vm_compute; reflexivity | vm_compute; reflexivity |].
    rewrite H. vm_compute. reflexivity.
  - destruct (countdown_ends_the_game 30
                (handleStartGame (Normal realSecondResponse) 0
                                 (Client.initial "taylor" NotStored))) as [_ [H _]];
      [vm_compute; reflexivity | vm_compute; reflexivity | vm_compute; reflexivity |].
    rewrite H. vm_compute. reflexivity.
Defined.

(** X21.  A round takes one guess: the first guess of a round is
    recorded, counts as an attempt and scores a point exactly when it names
    [correctIndex]; any further guess before the next story changes
    nothing. *)
Theorem one_guess_per_round (first second : Z) (st : Client.t) :
  handleGuess second (handleGuess first st) = handleGuess first st
  /\ (Client.selectedIndex st = (-1)%Z -> Client.revealed st = false ->
      Client.revealed (handleGuess first st) = true
      /\ Client.selectedIndex (handleGuess first st) = first
      /\ Client.attempts (handleGuess first st) = (Client.attempts st + 1)%Z
      /\ Client.score (handleGuess first st)
         = (Client.score st + (if (first =? Client.correctIndex st)%Z then 1 else 0))%Z).
Proof.
  destruct st as [tp ss si ci rv ld gs tl sc at_ go rs er ls]. split.
  - unfold handleGuess. cbn.
    destruct ((si =? -1)%Z && negb rv) eqn:E.
    + destruct (first =? ci)%Z; cbn; rewrite andb_false_r; reflexivity.
    + cbn. rewrite E. reflexivity.
  - cbn. intros -> ->. unfold handleGuess. cbn.
    destruct (first =? ci)%Z; cbn; repeat split; lia.
Qed.

(** ** What the player is shown *)

Lemma two_digits_below_sixty (n : nat) :
  (n < 60)%nat -> String.length (padStart2 (showZ (Z.of_nat n))) = 2%nat.
Proof.
  intros H. do 60 (destruct n as [| n]; [reflexivity |]). lia.
Qed.

(** X22.  [formatTime] shows the seconds with exactly two characters,
    whatever the number of seconds (not negative): the minutes, a colon and
    two digits.  During a round, which has at most 59 seconds left, the
    minutes read 0. *)
Theorem formatTime_two_digit_seconds (seconds : Z) :
  (0 <= seconds)%Z ->
  exists secs,
    formatTime seconds = showZ (seconds / 60) ++ ":" ++ secs
    /\ String.length secs = 2%nat
    /\ ((seconds < 60)%Z -> formatTime seconds = "0:" ++ secs).
Proof.
  intros H. exists (padStart2 (showZ (Z.rem seconds 60))).
  split; [reflexivity |]. split.
  - pose proof (Z.rem_bound_pos seconds 60 H ltac:(lia)) as Hb.
    rewrite <- (Z2Nat.id (Z.rem seconds 60)) by lia.
    apply two_digits_below_sixty. lia.
  - intros Hlt. unfold formatTime. rewrite (Z.div_small seconds 60) by lia. reflexivity.
Qed.

(** Five seconds left. *)
Lemma formatTime_witness :
  (0 <= 5)%Z
  /\ exists secs,
       formatTime 5 = showZ (5 / 60) ++ ":" ++ secs
       /\ String.length secs = 2%nat
       /\ ((5 < 60)%Z -> formatTime 5 = "0:" ++ secs).
Proof.
  split; [lia | apply (formatTime_two_digit_seconds 5); lia].
Defined.

Lemma ratio_bounds (score attempts : Z) :
  (0 <= score <= attempts)%Z -> (0 < attempts)%Z ->
  (0 <= inject_Z score / inject_Z attempts * 100 <= 100)%Q.
Proof.
  intros [H0 H1] Hpos.
  rewrite Zle_Qle in H0, H1. rewrite Zlt_Qlt in Hpos.
  set (s := inject_Z score) in *. set (a := inject_Z attempts) in *.
  change (inject_Z 0) with 0%Q in *. clearbody s a.
  assert (Hq0 : (0 <= s / a)%Q) by (apply Qle_shift_div_l; [exact Hpos | lra]).
  assert (Hq1 : (s / a <= 1)%Q) by (apply Qle_shift_div_r; [exact Hpos | lra]).
  split; lra.
Qed.

(** X23.  The accuracy of the game-over screen is a whole number between
    0 and 100 whenever the score does not exceed the attempts (which the
    game guarantees): 0 when nothing was attempted, 100 when every attempt
    scored. *)
Theorem accuracy_is_a_percentage (score attempts : Z) :
  (0 <= score <= attempts)%Z ->
  (0 <= accuracy score attempts <= 100)%Z
  /\ (attempts = 0%Z -> accuracy score attempts = 0%Z)
  /\ ((0 < attempts)%Z -> score = attempts -> accuracy score attempts = 100%Z).
Proof.
  intros H. unfold accuracy, Math_round.
  destruct (0 <? attempts)%Z eqn:E.
  - apply Z.ltb_lt in E. split; [| split; [lia |]].
    + destruct (ratio_bounds score attempts H E) as [Hlo Hhi].
      set (x := (inject_Z score / inject_Z attempts * 100)%Q) in *. clearbody x.
      pose proof (Qfloor_le (x + (1 # 2))) as Hfl.
      assert (H1 : (inject_Z (Qfloor (x + (1 # 2))) < inject_Z 101)%Q).
      { eapply Qle_lt_trans; [exact Hfl |]. change (inject_Z 101) with 101%Q. lra. }
      assert (H2 : (Qfloor 0 <= Qfloor (x + (1 # 2)))%Z) by (apply Qfloor_resp_le; lra).
      change (Qfloor 0) with 0%Z in H2.
      rewrite <- Zlt_Qlt in H1. lia.
    + intros _ ->.
      assert (Hone : (inject_Z attempts / inject_Z attempts * 100 + (1 # 2) == 201 # 2)%Q).
      { rewrite Zlt_Qlt in E. change (inject_Z 0) with 0%Q in E.
        set (a := inject_Z attempts) in *. clearbody a. field. lra. }
      rewrite Hone. reflexivity.
  - apply Z.ltb_ge in E. split; [lia |]. split; [reflexivity | lia].
Qed.

(** Two points in three attempts: 67 per cent. *)
Lemma accuracy_witness : (0 <= accuracy 2 3 <= 100)%Z.
Proof.
  apply (accuracy_is_a_percentage 2 3). lia.
Defined.

(** ** The server and the client together *)

Lemma generateStories_with_draw (net : Network) (posts : list Ranked.t) (topic : string)
    (ids : list string) (c : Z) (r : Q) (rest : list Q) :
  freshPosts posts ids <> [] -> validDraw r ->
  exists shuffled newIds,
    generateStories net posts topic ids (mkWorld c (r :: rest))
    = (Normal (Payload.mk None (Some shuffled) (Some (findIndex shuffled))
                          None None None newIds None None None), mkWorld c rest)
    /\ findIndex shuffled = (if Qlt_le_dec r (1 # 2) then 1 else 0)%Z.
Proof.
  intros Hne [H0 H1]. unfold generateStories, storiesOfFresh. unfold bind at 1.
  rewrite mapM_scorePost.
  match goal with
  | |- context [hd_error (sortDesc snd ?scored)] =>
      pose proof (sortDesc_head snd scored) as Hhead;
      destruct (hd_error (sortDesc snd scored)) as [[best s] |]
  end.
  - destruct (generateFakeGossip_total net
                (formatRedditGossip (Ranked.post best) (asComments (Ranked.topComments best)))
                topic (Ranked.topComments best) (Ranked.isPartialMatch best)) as [fake Hfake].
    rewrite Hfake. unfold bind at 1, liftC at 1. unfold bind at 1, Date_now at 1.
    unfold bind at 1. rewrite shuffleArray_two. unfold ret.
    destruct (Qlt_le_dec r (1 # 2)) as [Hlt | Hge].
    + rewrite (randomIndex_low r H0 Hlt). eexists. eexists. split; reflexivity.
    + rewrite (randomIndex_high r Hge H1). eexists. eexists. split; reflexivity.
  - exfalso. apply Hne. apply map_eq_nil in Hhead. exact Hhead.
Qed.

Lemma fetchGossip_verdict (response : Response) (now : Z) (st : Client.t)
    (stories : list Story.t) (i : Z) :
  responseOk response = true ->
  Payload.stories (body response) = Some stories ->
  Payload.correctIndex (body response) = Some i ->
  Client.error (fetchGossip (Normal response) now st)
  = if (i =? 0)%Z then Some "Invalid response from server" else None.
Proof.
  intros Hok Hs Hi. unfold fetchGossip, invalidResponse. rewrite Hok, Hs, Hi.
  cbn [negb truthyIndex orb]. destruct (i =? 0)%Z; cbn [negb]; [reflexivity |].
  unfold acceptResponse, rememberStories.
  destruct (Payload.newStoryIds (body response)) as [[| id rest] |]; reflexivity.
Qed.

(** X24.  The latest [/api/reddit] handler and the client's
    [fetchGossip], end to end.  For a topic with at least one post that the
    client has not seen, the handler answers with status 200, and whether
    the client can use that answer is decided by the one random draw of the
    shuffle: a draw below 1/2 puts the real story second and the client
    accepts the response; any other draw leaves the real story first
    ([correctIndex] 0) and the client reports 'Invalid response from
    server'. *)
Theorem round_playable_iff_draw_low (net : Network) (topic : string) (rp : RecentParam)
    (ids : list string) (w w1 : World) (posts : list Ranked.t) (r : Q) (rest : list Q)
    (now : Z) (st : Client.t) :
  truthy topic = true ->
  parseRecent rp = Normal ids ->
  fetchRedditPosts net topic w = (Normal posts, w1) ->
  freshPosts posts ids <> [] ->
  entropy w = r :: rest ->
  validDraw r ->
  exists response w2,
    GET net (mkRequest (Some topic) rp) w = (Normal response, w2)
    /\ status response = 200%Z
    /\ (Client.error (fetchGossip (Normal response) now st) = None <-> (r < 1 # 2)%Q)
    /\ ((1 # 2 <= r)%Q ->
        Client.error (fetchGossip (Normal response) now st)
        = Some "Invalid response from server").
Proof.
  intros Htopic Hparse Hfetch Hfresh Hent Hdraw.
  destruct (fetchRedditPostsWith_result (searchReddit net) calculateEngagementScore net
              calculateEngagementScore_total topic w w1 posts Hfetch) as [-> [Hne _]].
  destruct (GET_with_topic net topic rp ids w w posts Htopic Hparse Hfetch Hne)
    as [result [w2 [Hgen HGET]]].
  destruct w as [c e]. cbn [entropy] in Hent. subst e.
  destruct (generateStories_with_draw net posts topic ids c r rest Hfresh Hdraw)
    as [shuffled [newIds [Hrun Hidx]]].
  rewrite Hrun in Hgen. injection Hgen as <- <-.
  eexists. eexists. split; [exact HGET |]. split; [reflexivity |].
  match goal with
  | |- context [fetchGossip (Normal ?resp) now st] =>
      rewrite (fetchGossip_verdict resp now st shuffled (findIndex shuffled)
                 eq_refl eq_refl eq_refl)
  end.
  rewrite Hidx. destruct (Qlt_le_dec r (1 # 2)) as [Hlt | Hge]; cbn [Z.eqb].
  - split; [split; [intros _; exact Hlt | reflexivity] | intros Hge; lra].
  - split; [split; [discriminate | intros Hlt; lra] | reflexivity].
Qed.

(** The topic "taylor" on the sample network, with the draw 1/4: the
    client takes the response. *)
Lemma round_playable_witness :
  Client.error (fetchGossip (Normal realSecondResponse) 1000
                  (Client.initial "taylor" NotStored)) = None.
Proof.
  destruct (round_playable_iff_draw_low quickNet "taylor" NoParam [] (mkWorld 0 [1 # 4])
              (mkWorld 0 [1 # 4])
              (match fst (fetchRedditPosts quickNet "taylor" (mkWorld 0 [1 # 4])) with
               | Normal posts => posts
               | Throw _ => []
               end)
              (1 # 4) [] 1000 (Client.initial "taylor" NotStored))
    as [response [w2 [HGET [_ [Hiff _]]]]].
  - reflexivity.
  - reflexivity.
  - vm_compute. reflexivity.
  - vm_compute. discriminate.
  - reflexivity.
  - unfold validDraw. lra.
  - assert (Hresp : response = realSecondResponse).
    { unfold realSecondResponse. rewrite HGET. reflexivity. }
    rewrite <- Hresp. apply Hiff. reflexivity.
Defined.

(** ** A search that finds nothing *)

Section NoPosts.

Variable search : string -> TimeRange -> list Post.t.
Variable engagement : Post.t -> list Comment -> M number.
Variable net : Network.

Lemma fetchRedditPostsWith_nothing (topic mainSubject : string) (w : World) :
  search (dquote ++ topic ++ dquote) day = [] ->
  extractMainSubject topic = Normal mainSubject ->
  search mainSubject day = [] ->
  fetchRedditPostsWith search engagement net topic w
  = (Throw (Error (noPostsFound topic mainSubject)), w).
Proof.
  intros Hq Hms Hs. unfold fetchRedditPostsWith. rewrite Hq.
  unfold bind at 1. unfold bind at 1, liftC at 1. rewrite Hms. unfold ret at 1.
  rewrite Hs. reflexivity.
Qed.

End NoPosts.

(** X25.  When the search for the quoted topic and the search for the
    main subject, both over the last day, find nothing, the handler of
    [/api/reddit] answers with status 500 and the message 'No posts found
    for ..', in the latest revision as in the first.  Neither the 404 reply
    of the handlers nor the searches over the last week and month are ever
    reached: the result does not depend on what those searches would
    find. *)
Theorem no_posts_answers_500 (net : Network) (topic mainSubject : string) (rp : RecentParam)
    (ids : list string) (w : World) :
  truthy topic = true ->
  parseRecent rp = Normal ids ->
  extractMainSubject topic = Normal mainSubject ->
  let reply := failedToProcess (Error (noPostsFound topic mainSubject)) in
  status reply = 500%Z
  /\ Payload.error (body reply) = Some "Failed to process request"
  /\ Payload.message (body reply) = Some (noPostsFound topic mainSubject)
  /\ (searchReddit net (dquote ++ topic ++ dquote) day = [] ->
      searchReddit net mainSubject day = [] ->
      GET net (mkRequest (Some topic) rp) w = (Normal reply, w))
  /\ (searchRedditPlain net (dquote ++ topic ++ dquote) day = [] ->
      searchRedditPlain net mainSubject day = [] ->
      GETPlain net (mkRequest (Some topic) rp) w = (Normal reply, w)).
Proof.
  intros Htopic Hparse Hms reply. subst reply.
  split; [reflexivity |]. split; [reflexivity |]. split; [reflexivity |]. split.
  - intros Hq Hs. unfold GET, tryCatchM. cbn [recentStoriesParam topicParam orEmpty].
    rewrite (parseRecent_recentOf rp ids Hparse), Htopic.
    unfold bind at 1, liftC at 1. unfold bind at 1.
    unfold fetchRedditPosts.
    rewrite (fetchRedditPostsWith_nothing _ _ net topic mainSubject w Hq Hms Hs).
    reflexivity.
  - intros Hq Hs. unfold GETPlain, tryCatchM. cbn [topicParam orEmpty].
    rewrite Htopic. unfold bind at 1. unfold fetchRedditPostsPlain.
    rewrite (fetchRedditPostsWith_nothing _ _ net topic mainSubject w Hq Hms Hs).
    reflexivity.
Qed.

(** On a network with posts of the last week but none of the last day,
    the topic "taylor" gets the status 500 from both revisions. *)
Lemma no_posts_answers_500_witness :
  fst (GET quietDayNet (mkRequest (Some "taylor") NoParam) (mkWorld 0 []))
  = Normal (failedToProcess (Error (noPostsFound "taylor" "taylor")))
  /\ fst (GETPlain quietDayNet (mkRequest (Some "taylor") NoParam) (mkWorld 0 []))
     = Normal (failedToProcess (Error (noPostsFound "taylor" "taylor")))
  /\ searchReddit quietDayNet "taylor" week <> [].
Proof.
  destruct (no_posts_answers_500 quietDayNet "taylor" "taylor" NoParam [] (mkWorld 0 []))
    as [_ [_ [_ [HGET HPlain]]]].
  - reflexivity.
  - reflexivity.
  - vm_compute. reflexivity.
  - split; [rewrite HGET; reflexivity |].
    split; [rewrite HPlain; reflexivity |]. vm_compute. discriminate.
Defined.

(** ** A request that fails *)

Lemma acceptResponse_error (now : Z) (data : Payload.t) (st : Client.t) :
  Client.error (acceptResponse now data st) = Client.error st.
Proof.
  unfold acceptResponse, rememberStories.
  destruct (Payload.newStoryIds data) as [[| id rest] |]; reflexivity.
Qed.

(** X26.  A call of [fetchGossip] that ends with an error message,
    whatever the reason (the request or the decoding threw, the status was
    not a success, the response was judged invalid), leaves the round as it
    was: the stories shown, the index of the real one, the selection, the
    counters, the list of seen stories and the stored copy are unchanged,
    and the loading flag is off again.  The topic changes only when a reply
    without a success status carries a suggestion. *)
Theorem failed_fetch_keeps_round (reply : Completion Response) (now : Z) (st : Client.t)
    (msg : string) :
  Client.error (fetchGossip reply now st) = Some msg ->
  let st' := fetchGossip reply now st in
  Client.stories st' = Client.stories st
  /\ Client.correctIndex st' = Client.correctIndex st
  /\ Client.selectedIndex st' = Client.selectedIndex st
  /\ Client.revealed st' = Client.revealed st
  /\ Client.gameStarted st' = Client.gameStarted st
  /\ Client.score st' = Client.score st
  /\ Client.attempts st' = Client.attempts st
  /\ Client.timeLeft st' = Client.timeLeft st
  /\ Client.recentStories st' = Client.recentStories st
  /\ Client.localStorage st' = Client.localStorage st
  /\ Client.loading st' = false
  /\ (Client.topic st' <> Client.topic st ->
      exists response,
        reply = Normal response /\ responseOk response = false
        /\ Payload.suggestion (body response) = Some (Client.topic st')).
Proof.
  intros Herr st'. subst st'. revert Herr. unfold fetchGossip.
  destruct reply as [response | e].
  - destruct (responseOk response) eqn:Hok; cbn [negb].
    + destruct (invalidResponse (body response)).
      * intros _. repeat split. intros H. exfalso. apply H. reflexivity.
      * intros H. exfalso. cbn [Client.error Client.setLoading] in H.
        rewrite acceptResponse_error in H. discriminate.
    + intros _. destruct (Payload.suggestion (body response)) as [s |] eqn:Hs;
        cbn [orEmpty].
      * destruct (truthy s); repeat split.
        -- intros _. exists response. rewrite Hs. auto.
        -- intros H. exfalso. apply H. reflexivity.
      * cbn. repeat split. intros H. exfalso. apply H. reflexivity.
  - intros _. repeat split. intros H. exfalso. apply H. reflexivity.
Qed.

(** The server's answer with the real story first, on a component that
    mounted with one stored entry. *)
Lemma failed_fetch_keeps_round_witness :
  Client.recentStories (fetchGossip (Normal realFirstResponse) 9000000 returningClient)
  = Client.recentStories returningClient
  /\ Client.localStorage (fetchGossip (Normal realFirstResponse) 9000000 returningClient)
     = Client.localStorage returningClient.
Proof.
  destruct (failed_fetch_keeps_round (Normal realFirstResponse) 9000000 returningClient
              "Invalid response from server")
    as [_ [_ [_ [_ [_ [_ [_ [_ [Hrecent [Hstored _]]]]]]]]]].
  - vm_compute. reflexivity.
  - split; [exact Hrecent | exact Hstored].
Defined.
